(** * tawhiri.wind.download: the dataset downloader and its daemon

    A shallow embedding of [tawhiri/wind/download.py]: the download session
    ([DatasetDownloader]), its workers ([DownloadWorker]) and the scheduler
    ([DownloadDaemon]), with the properties of the engine stated over it.

    Conventions.
    - A [datetime] is an integer number of microseconds since an epoch and a
      [timedelta] an integer number of microseconds (the resolution of both
      Python types).
    - The float returned by [time()] is likewise an integer number of
      microseconds, and so is the argument of [sleep]; the timeouts are
      integer numbers of seconds, converted by [Time.seconds] where the code
      adds them to a clock reading or sleeps them.
    - [math.log(x, 2)] is taken as the exact base-2 logarithm, so [ceil] and
      [int] of it are [Z.log2_up] and [Z.log2].  The float quotient
      [log(x) / log(2)] that the code computes has this floor and this
      ceiling for every integer [0 < x < 2^29]; at [2^29] it is
      [29.000000000000004], whose ceiling is one more.  What is stated about
      the value of the logarithm is stated for arguments below [2^29].
    - An exception is a value of [exn]; a call that may raise returns a
      [result].  State changes made before a [raise] persist, as in Python.
    - Logging is not modelled, except where computing an argument of the
      log call raises.
    - Of the Dataset file and of the grib mirror the model follows the
      existence and the place, not the contents: what [unpack_grib] writes
      to them is not modelled, and nothing is stated about their contents. *)

From Stdlib Require Import ZArith List String Bool Lia DecimalString.
From stdpp Require Import base decidable countable gmap sorting.
Import ListNotations.
Open Scope string_scope.
Open Scope Z_scope.

(** ** Exceptions and results *)

Inductive exn : Type :=
  | ValueError (msg : string)
  | AssertionError
  | UnboundLocalError
  | TypeError
  | OSError (msg : string)
  | NotFound
  | StatusError (status : Z)      (* [Exception("Status: ...")] *)
  | NetworkError (msg : string)   (* socket and httplib failures *)
  | DecodeError (msg : string)    (* raised by [unpack_grib] *)
  | Timeout
  | ZeroDivisionError
  | LinkedFailed (worker_id : nat) (e : exn)
  | GreenletExit
  | KeyboardInterrupt
  | SystemExit.

(** The exceptions named by every
    [except (greenlet.GreenletExit, KeyboardInterrupt, SystemExit): raise]. *)
Definition is_exit (e : exn) : bool :=
  match e with
  | GreenletExit | KeyboardInterrupt | SystemExit => true
  | _ => false
  end.

Inductive result (A : Type) : Type :=
  | Ok (a : A)
  | Raise (e : exn).
Arguments Ok {A} a.
Arguments Raise {A} e.

Definition is_ok {A} (r : result A) : bool :=
  match r with Ok _ => true | Raise _ => false end.

(** ** Time *)

Module Time.
Definition second : Z := 1000000.
Definition minute : Z := 60 * second.
Definition hour : Z := 60 * minute.

(** A number of seconds, as a duration. *)
Definition seconds (n : Z) : Z := n * second.

(** [timedelta(hours=h, minutes=m)] *)
Definition timedelta (h m : Z) : Z := h * hour + m * minute.

(** [td.total_seconds()], kept exact: the number of microseconds; only its
    sign and its use as a duration matter. *)
Definition total_seconds (td : Z) : Z := td.

(** [dt.hour] for a datetime counted from an epoch at midnight. *)
Definition hour_of (dt : Z) : Z := (dt / hour) mod 24.

(** [dt.minute == dt.second == dt.microsecond == 0] *)
Definition on_the_hour (dt : Z) : bool := dt mod hour =? 0.
End Time.

(** ** The retry queue

    Items are [(hour, sleep_until, filename)]; a [PriorityQueue] hands out the
    least item in Python's tuple order. *)

Record file_request : Type := FileRequest {
  fr_hour : Z;
  fr_sleep_until : Z;
  fr_filename : string
}.

Definition request_compare (a b : file_request) : comparison :=
  match fr_hour a ?= fr_hour b with
  | Eq =>
      match fr_sleep_until a ?= fr_sleep_until b with
      | Eq => String.compare (fr_filename a) (fr_filename b)
      | c => c
      end
  | c => c
  end.

Definition request_leb (a b : file_request) : bool :=
  match request_compare a b with Gt => false | _ => true end.

Module PriorityQueue.
Definition t : Type := list file_request.

Definition empty : t := [].

(** [q.put(x)]: never blocks (the queue is unbounded). *)
Definition put (x : file_request) (q : t) : t := x :: q.

(** Take the least item out of a non-empty queue, written as the least of
    [x :: q] together with the rest. *)
Fixpoint take_min (x : file_request) (q : t) : file_request * t :=
  match q with
  | [] => (x, [])
  | y :: q' =>
      let '(m, rest) := take_min y q' in
      if request_leb x m then (x, m :: rest) else (m, x :: rest)
  end.

(** [q.get(block=True)]: [None] stands for a blocked taker. *)
Definition get (q : t) : option (file_request * t) :=
  match q with
  | [] => None
  | x :: q' => Some (take_min x q')
  end.

Definition qsize (q : t) : Z := Z.of_nat (length q).
End PriorityQueue.

(** ** The filesystem

    Paths are kept structured.  [Dataset.filename(dir, ds_time, suffix)] is
    the path [Artifact dir ds_time suffix] and [os.path.join(dir, name)] is
    [Child dir name]; a directory is named by a string. *)

Inductive path : Type :=
  | Artifact (dir : string) (ds_time : Z) (suffix : string)
  | Child (dir : string) (name : string).

Definition parent (p : path) : string :=
  match p with
  | Artifact d _ _ => d
  | Child d _ => d
  end.

#[global] Instance path_eq_dec : EqDecision path.
Proof. solve_decision. Defined.

#[global] Instance path_countable : Countable path.
Proof.
  refine (inj_countable'
    (fun p => match p with
              | Artifact d t s => inl (d, t, s)
              | Child d n => inr (d, n)
              end)
    (fun x => match x with
              | inl (d, t, s) => Artifact d t s
              | inr (d, n) => Child d n
              end) _).
  intros []; reflexivity.
Defined.

(** Modelled from the spec: the suffix of the grib mirror artifact,
    [Dataset.SUFFIX_GRIBMIRROR], is declared outside this file; the published
    artifacts are [<dataset filename>] and [<dataset filename>.gribmirror]. *)
Definition SUFFIX_GRIBMIRROR : string := ".gribmirror".

(** What the program does to the outside world, in the order it does it. *)
Inductive effect : Type :=
  | EMkdtemp (dir : string)
  | EChmod (dir : string) (mode : Z)
  | EDatasetNew (p : path)
  | EOpen (p : path)
  | EWrite (p : path) (data : string)
  | ECloseFile (p : path)
  | EDatasetClose (p : path)
  | ERename (src dst : path)
  | EUnlink (p : path)
  | EListdir (dir : string)
  | ERmdir (dir : string)
  | ESleep (micros : Z).

Record world : Type := World {
  fs : gmap path string;      (* the files, with their contents *)
  dirs : gset string;         (* the directories *)
  trace : list effect         (* the effects so far, oldest first *)
}.

(** ** A state and exception monad *)

Definition M (S A : Type) : Type := S -> result A * S.

Definition ret {S A} (a : A) : M S A := fun s => (Ok a, s).
Definition raise {S A} (e : exn) : M S A := fun s => (Raise e, s).
Definition bind {S A B} (m : M S A) (k : A -> M S B) : M S B :=
  fun s =>
    match m s with
    | (Ok a, s') => k a s'
    | (Raise e, s') => (Raise e, s')
    end.
Definition gets {S A} (f : S -> A) : M S A := fun s => (Ok (f s), s).
Definition modify {S} (f : S -> S) : M S unit := fun s => (Ok tt, f s).

(** [try: body finally: cleanup]: the cleanup always runs; when it raises,
    its exception replaces the outcome of the body. *)
Definition try_finally {S A} (body : M S A) (cleanup : M S unit) : M S A :=
  fun s =>
    let '(r, s1) := body s in
    match cleanup s1 with
    | (Ok _, s2) => (r, s2)
    | (Raise e, s2) => (Raise e, s2)
    end.

(** [if c: body] *)
Definition when {S} (c : bool) (body : M S unit) : M S unit :=
  if c then body else ret tt.

(** [for x in l: body x] *)
Fixpoint for_each {S A} (l : list A) (body : A -> M S unit) : M S unit :=
  match l with
  | [] => ret tt
  | x :: l' => bind (body x) (fun _ => for_each l' body)
  end.

Declare Scope py_scope.
Delimit Scope py_scope with py.
Notation "x <- m ;; k" := (bind m (fun x => k))
  (at level 100, m at next level, k at level 200, right associativity) : py_scope.
Notation "m ;; k" := (bind m (fun _ => k))
  (at level 100, k at level 200, right associativity) : py_scope.
Open Scope py_scope.

(** ** Operating-system calls, over a [world] *)

Module OS.
Definition emit (e : effect) : M world unit :=
  modify (fun w => World (fs w) (dirs w) (trace w ++ [e])).

Definition set_fs (f : gmap path string -> gmap path string) : M world unit :=
  modify (fun w => World (f (fs w)) (dirs w) (trace w)).

Definition set_dirs (f : gset string -> gset string) : M world unit :=
  modify (fun w => World (fs w) (f (dirs w)) (trace w)).

Definition exists_file (p : path) : M world bool :=
  gets (fun w => bool_decide (is_Some (fs w !! p))).

Definition exists_dir (d : string) : M world bool :=
  gets (fun w => bool_decide (d ∈ dirs w)).

(** [tempfile.mkdtemp(dir=dir, prefix="download.")]; [rand] is the random
    part of the name. *)
Definition mkdtemp (dir rand : string) : M world string :=
  ok <- exists_dir dir ;;
  if ok then
    let d := (dir ++ "/download." ++ rand)%string in
    emit (EMkdtemp d) ;;
    set_dirs (fun ds => {[ d ]} ∪ ds) ;;
    ret d
  else raise (OSError "No such file or directory").

Definition chmod (dir : string) (mode : Z) : M world unit :=
  emit (EChmod dir mode).

(** [open(p, "w")] and [open(p, "w+")]: create or truncate. *)
Definition open_write (p : path) : M world unit :=
  ok <- exists_dir (parent p) ;;
  if ok then emit (EOpen p) ;; set_fs (fun f => <[ p := "" ]> f)
  else raise (OSError "No such file or directory").

(** [f.write(d)] on a file opened for writing at [p]. *)
Definition write (p : path) (d : string) : M world unit :=
  emit (EWrite p d) ;;
  set_fs (fun f => match f !! p with
                   | Some c => <[ p := (c ++ d)%string ]> f
                   | None => f
                   end).

Definition close_file (p : path) : M world unit := emit (ECloseFile p).

(** [os.unlink(p)] *)
Definition unlink (p : path) : M world unit :=
  ok <- exists_file p ;;
  if ok then emit (EUnlink p) ;; set_fs (fun f => delete p f)
  else raise (OSError "No such file or directory").

(** [os.rename(src, dst)]: replaces [dst]. *)
Definition rename (src dst : path) : M world unit :=
  c <- gets (fun w => fs w !! src) ;;
  match c with
  | Some data =>
      emit (ERename src dst) ;;
      set_fs (fun f => <[ dst := data ]> (delete src f))
  | None => raise (OSError "No such file or directory")
  end.

(** [os.listdir(dir)], as the paths of the files of [dir]. *)
Definition listdir (dir : string) : M world (list path) :=
  ok <- exists_dir dir ;;
  if ok then
    emit (EListdir dir) ;;
    gets (fun w => filter (fun p => parent p = dir) (map fst (map_to_list (fs w))))
  else raise (OSError "No such file or directory").

(** [os.rmdir(dir)]: the directory must exist and be empty. *)
Definition rmdir (dir : string) : M world unit :=
  ok <- exists_dir dir ;;
  files <- gets (fun w => filter (fun p => parent p = dir) (map fst (map_to_list (fs w)))) ;;
  match ok, files with
  | true, [] => emit (ERmdir dir) ;; set_dirs (fun ds => ds ∖ {[ dir ]})
  | true, _ => raise (OSError "Directory not empty")
  | false, _ => raise (OSError "No such file or directory")
  end.

(** [gevent.sleep(d)], for a duration [d] in microseconds *)
Definition sleep (micros : Z) : M world unit := emit (ESleep micros).
End OS.

(** ** The checklist

    Modelled from the spec: the [Dataset] class is declared outside this file.
    Its checklist is a boolean coverage grid over (hour, pressure, variable)
    with an [all()] predicate, created all false by [Dataset.checklist()];
    the axes are the constants [Dataset.axes]. *)

Record Dataset_axes : Type := Axes {
  axes_hour : list Z;
  axes_pressure : list Z;
  axes_variable : list Z
}.

Module Checklist.
Definition t : Type := gmap (Z * Z * Z) bool.

Definition cells (ax : Dataset_axes) : list (Z * Z * Z) :=
  h ← axes_hour ax; p ← axes_pressure ax; v ← axes_variable ax; [(h, p, v)].

(** [Dataset.checklist()] *)
Definition new (ax : Dataset_axes) : t :=
  list_to_map (map (fun c => (c, false)) (cells ax)).

(** [checklist.all()] *)
Definition all (c : t) : bool :=
  forallb (fun kv => snd kv) (map_to_list c).

(** [checklist[h, p, v] = True] *)
Definition mark (h p v : Z) (c : t) : t := <[ (h, p, v) := true ]> c.
End Checklist.

(** ** Session and worker state *)

(** [DownloadWorker]: the attributes and the local variables of [_run] that
    live across its blocking calls. *)
Record worker : Type := Worker {
  worker_id : nat;
  connect_host : string;
  _connection : option string;        (* [None] or a connection to a host *)
  server_sleep_backoff : Z;
  current : option file_request;      (* the item taken, while attempting it *)
  dead : bool                         (* the greenlet has exited *)
}.

(** The keyword arguments of [DatasetDownloader.__init__]. *)
Record config : Type := Config {
  directory : string;
  ds_time : Z;
  timeout : Z;
  first_file_timeout : Z;
  write_dataset : bool;
  write_gribmirror : bool;
  deadline : Z
}.

(** [DatasetDownloader]: the attributes set by [__init__] that change. *)
Record downloader : Type := Downloader {
  cfg : config;
  have_first_file : bool;
  files_complete : Z;
  files_count : Z;
  completed : bool;                   (* [self.completed.is_set()] *)
  success : bool;
  _dataset : option path;             (* the open Dataset writer *)
  _gribmirror : option path;          (* the open grib mirror file *)
  _tmp_directory : option string;
  _files : PriorityQueue.t;
  _greenlets : list worker;
  _checklist : Checklist.t
}.

Definition set_have_first_file (v : bool) (d : downloader) : downloader :=
  Downloader (cfg d) v (files_complete d) (files_count d) (completed d)
    (success d) (_dataset d) (_gribmirror d) (_tmp_directory d) (_files d)
    (_greenlets d) (_checklist d).
Definition set_files_complete (v : Z) (d : downloader) : downloader :=
  Downloader (cfg d) (have_first_file d) v (files_count d) (completed d)
    (success d) (_dataset d) (_gribmirror d) (_tmp_directory d) (_files d)
    (_greenlets d) (_checklist d).
Definition set_files_count (v : Z) (d : downloader) : downloader :=
  Downloader (cfg d) (have_first_file d) (files_complete d) v (completed d)
    (success d) (_dataset d) (_gribmirror d) (_tmp_directory d) (_files d)
    (_greenlets d) (_checklist d).
Definition set_completed (v : bool) (d : downloader) : downloader :=
  Downloader (cfg d) (have_first_file d) (files_complete d) (files_count d) v
    (success d) (_dataset d) (_gribmirror d) (_tmp_directory d) (_files d)
    (_greenlets d) (_checklist d).
Definition set_success (v : bool) (d : downloader) : downloader :=
  Downloader (cfg d) (have_first_file d) (files_complete d) (files_count d)
    (completed d) v (_dataset d) (_gribmirror d) (_tmp_directory d) (_files d)
    (_greenlets d) (_checklist d).
Definition set_dataset (v : option path) (d : downloader) : downloader :=
  Downloader (cfg d) (have_first_file d) (files_complete d) (files_count d)
    (completed d) (success d) v (_gribmirror d) (_tmp_directory d) (_files d)
    (_greenlets d) (_checklist d).
Definition set_gribmirror (v : option path) (d : downloader) : downloader :=
  Downloader (cfg d) (have_first_file d) (files_complete d) (files_count d)
    (completed d) (success d) (_dataset d) v (_tmp_directory d) (_files d)
    (_greenlets d) (_checklist d).
Definition set_tmp_directory (v : option string) (d : downloader) : downloader :=
  Downloader (cfg d) (have_first_file d) (files_complete d) (files_count d)
    (completed d) (success d) (_dataset d) (_gribmirror d) v (_files d)
    (_greenlets d) (_checklist d).
Definition set_files (v : PriorityQueue.t) (d : downloader) : downloader :=
  Downloader (cfg d) (have_first_file d) (files_complete d) (files_count d)
    (completed d) (success d) (_dataset d) (_gribmirror d) (_tmp_directory d) v
    (_greenlets d) (_checklist d).
Definition set_greenlets (v : list worker) (d : downloader) : downloader :=
  Downloader (cfg d) (have_first_file d) (files_complete d) (files_count d)
    (completed d) (success d) (_dataset d) (_gribmirror d) (_tmp_directory d)
    (_files d) v (_checklist d).
Definition set_checklist (v : Checklist.t) (d : downloader) : downloader :=
  Downloader (cfg d) (have_first_file d) (files_complete d) (files_count d)
    (completed d) (success d) (_dataset d) (_gribmirror d) (_tmp_directory d)
    (_files d) (_greenlets d) v.

(** A session object together with the world it acts on. *)
Record state : Type := State {
  self : downloader;
  os : world
}.

Definition get {A} (f : downloader -> A) : M state A :=
  gets (fun s => f (self s)).
Definition set (f : downloader -> downloader) : M state unit :=
  modify (fun s => State (f (self s)) (os s)).
Definition sys {A} (m : M world A) : M state A :=
  fun s => let '(r, w) := m (os s) in (r, State (self s) w).

(** [m] never changes the attribute [f] of the session object. *)
Definition preserves {A B} (f : downloader -> A) (m : M state B) : Prop :=
  forall s, f (self (snd (m s))) = f (self s).

(** ** String formatting *)

(** ["{0:02}".format(n)] and [strftime("%H")] *)
Definition format_02 (n : Z) : string :=
  let s := NilZero.string_of_int (Z.to_int n) in
  if (String.length s <? 2)%nat then ("0" ++ s)%string else s.

(** ** [DatasetDownloader] *)

Section Downloader.

(** [Dataset.axes], declared outside this file. *)
Variable axes : Dataset_axes.

(** [DatasetDownloader.__init__]; [now] is the reading of
    [datetime.now()] used for the default deadline. *)
Definition DatasetDownloader (directory : string) (ds_time : Z)
    (timeout first_file_timeout : Z) (write_dataset write_gribmirror : bool)
    (deadline : option Z) (now : Z) : result downloader :=
  if negb (bool_decide (Time.hour_of ds_time ∈ [0; 6; 12; 18])) then
    Raise AssertionError
  else if negb (Time.on_the_hour ds_time) then Raise AssertionError
  else if negb (write_dataset || write_gribmirror) then
    Raise (ValueError "Choose write_datset or write_gribmirror (or both)")
  else
    let deadline :=
      match deadline with
      | None => Z.max (now + Time.timedelta 2 0) (ds_time + Time.timedelta 6 0)
      | Some dl => dl
      end in
    Ok {| cfg := Config directory ds_time timeout first_file_timeout
                   write_dataset write_gribmirror deadline;
          have_first_file := false;
          files_complete := 0;
          files_count := 0;
          completed := false;
          success := false;
          _dataset := None;
          _gribmirror := None;
          _tmp_directory := None;
          _files := PriorityQueue.empty;
          _greenlets := [];
          _checklist := Checklist.new axes |}.

(** The defaults of the keyword arguments:
    [DatasetDownloader(directory, ds_time)]. *)
Definition DatasetDownloader_default (directory : string) (ds_time now : Z)
    : result downloader :=
  DatasetDownloader directory ds_time 120 600 true true None now.

(** Modelled from the spec: [Dataset(dir, ds_time, new=True)], the
    constructor of the class declared outside this file, opens a new backing
    file for the dataset-time at [Dataset.filename(dir, ds_time)]. *)
Definition Dataset_new (p : path) : M world unit :=
  ok <- OS.exists_dir (parent p) ;;
  if ok then OS.emit (EDatasetNew p) ;; OS.set_fs (fun f => <[ p := "" ]> f)
  else raise (OSError "No such file or directory").

(** [DatasetDownloader.open]; [rand] names the temporary directory. *)
Definition open (rand : string) : M state unit :=
  dir <- get (fun d => directory (cfg d)) ;;
  tmp <- sys (OS.mkdtemp dir rand) ;;
  set (set_tmp_directory (Some tmp)) ;;
  sys (OS.chmod tmp 509) ;;
  t <- get (fun d => ds_time (cfg d)) ;;
  wd <- get (fun d => write_dataset (cfg d)) ;;
  when wd
    (sys (Dataset_new (Artifact tmp t "")) ;;
     set (set_dataset (Some (Artifact tmp t "")))) ;;
  wg <- get (fun d => write_gribmirror (cfg d)) ;;
  when wg
    (let fn := Artifact tmp t SUFFIX_GRIBMIRROR in
     sys (OS.open_write fn) ;;
     set (set_gribmirror (Some fn))).

(** [DatasetDownloader._add_files] *)
Definition _add_files : M state unit :=
  t <- get (fun d => ds_time (cfg d)) ;;
  let filename_prefix :=
    ("gfs.t" ++ format_02 (Time.hour_of t) ++ "z.pgrb2")%string in
  for_each (axes_hour axes) (fun hour =>
    let hour_str := format_02 hour in
    let files :=
      map (fun x => (filename_prefix ++ x ++ hour_str)%string) ["f"; "bf"] in
    for_each files (fun filename =>
      set (fun d => set_files_count (files_count d + 1) d) ;;
      set (fun d =>
             set_files (PriorityQueue.put (FileRequest hour 0 filename)
                          (_files d)) d))).

(** [DatasetDownloader._file_complete]; the last argument of its progress
    log, [self.files_complete / self.files_count * 100], divides by
    [files_count]. *)
Definition _file_complete : M state unit :=
  set (fun d => set_files_complete (files_complete d + 1) d) ;;
  set (set_have_first_file true) ;;
  fc <- get files_complete ;;
  n <- get files_count ;;
  when (fc =? n) (set (set_completed true)) ;;
  if n =? 0 then raise ZeroDivisionError else ret tt.

(** [Dataset.filename(self._tmp_directory, self.ds_time, suffix)]; joining
    a path to [None] raises. *)
Definition tmp_filename (suffix : string) : M state path :=
  tmp <- get _tmp_directory ;;
  t <- get (fun d => ds_time (cfg d)) ;;
  match tmp with
  | Some dir => ret (Artifact dir t suffix)
  | None => raise TypeError
  end.

(** [DatasetDownloader._move_file] *)
Definition _move_file (suffix : string) : M state unit :=
  fn1 <- tmp_filename suffix ;;
  dir <- get (fun d => directory (cfg d)) ;;
  t <- get (fun d => ds_time (cfg d)) ;;
  sys (OS.rename fn1 (Artifact dir t suffix)).

(** [DatasetDownloader._delete_file] *)
Definition _delete_file (suffix : string) : M state unit :=
  fn <- tmp_filename suffix ;;
  sys (OS.unlink fn).

(** [DatasetDownloader._remove_download_directory] *)
Definition _remove_download_directory : M state unit :=
  tmp <- get _tmp_directory ;;
  match tmp with
  | None => raise TypeError
  | Some dir =>
      l <- sys (OS.listdir dir) ;;
      for_each l (fun p => sys (OS.unlink p)) ;;
      sys (OS.rmdir dir)
  end.

(** [DatasetDownloader.close] *)
Definition close (move_files : option bool) : M state unit :=
  ok <- get success ;;
  let move_files := match move_files with None => ok | Some b => b end in
  ds <- get _dataset ;;
  match ds with
  | Some h =>
      sys (OS.emit (EDatasetClose h)) ;;
      set (set_dataset None) ;;
      (if move_files then _move_file "" else _delete_file "")
  | None => ret tt
  end ;;
  gm <- get _gribmirror ;;
  match gm with
  | Some h =>
      sys (OS.close_file h) ;;
      set (set_gribmirror None) ;;
      (if move_files then _move_file SUFFIX_GRIBMIRROR
       else _delete_file SUFFIX_GRIBMIRROR)
  | None => ret tt
  end ;;
  tmp <- get _tmp_directory ;;
  match tmp with
  | Some _ =>
      _remove_download_directory ;;
      set (set_tmp_directory None)
  | None => ret tt
  end.

End Downloader.

(** ** [DownloadWorker] *)

(** What the mirror answers to one GET: the outcome of sending the request
    and reading the status line, then the successive results of
    [resp.read(1024 * 1024)], and how the reading ends once they are used up:
    with the empty string ([None]) or with an exception raised by the blocking
    read (a socket error, the per-file [Timeout], a kill). *)
Record response : Type := Response {
  resp_status : result Z;
  resp_body : list string;
  resp_end : option exn
}.

(** The part of the state [_download_file] reads and writes: the worker's
    connection, the session's checklist (through [unpack_grib]) and the
    filesystem. *)
Record attempt : Type := Attempt {
  at_connection : option string;
  at_checklist : Checklist.t;
  at_os : world
}.

Definition on_os {A} (m : M world A) : M attempt A :=
  fun a =>
    let '(r, w) := m (at_os a) in
    (r, Attempt (at_connection a) (at_checklist a) w).

(** Run [m] and hand its outcome over as a value. *)
Definition outcome {S A} (m : M S A) : M S (result A) :=
  fun s => let '(r, s') := m s in (Ok r, s').

Definition of_result {S A} (r : result A) : M S A :=
  match r with
  | Ok a => ret a
  | Raise e => raise e
  end.

(** The loop [while True: d = resp.read(...); if d == '': break; f.write(d)] *)
Fixpoint read_body (f : path) (chunks : list string) (ending : option exn)
    : M world unit :=
  match chunks with
  | [] =>
      match ending with
      | None => ret tt
      | Some e => raise e
      end
  | d :: chunks' =>
      if String.eqb d "" then ret tt
      else OS.write f d ;; read_body f chunks' ending
  end.

Inductive sched_event : Type :=
  | Take (i : nat) (now : Z)
  | Finish (i : nat) (resp : response) (now : Z).

(** What a session meets: the answer of [resolve_ipv4], the reading of
    [datetime.now()] in [download], and what the workers do while the
    supervisor waits, in the order of the cooperative scheduler. *)
Record session_env : Type := SessionEnv {
  dns : result (list string);
  clock : Z;
  schedule : list sched_event
}.

Section Worker.

(** [unpack_grib], declared outside this file: from the contents of the
    GRIB file, the expected hour and the checklist, it fails or returns,
    having marked the checklist.  It also writes the records into the
    Dataset and appends them to the grib mirror, the two files that [open]
    created in the temporary directory; these writes change the contents
    of the two files, which the model does not follow. *)
Variable unpack_grib : string -> Z -> Checklist.t -> result unit * Checklist.t.

(** The call [unpack_grib(temp_file, dataset, checklist, gribmirror,
    assert_hour=hour, ...)]. *)
Definition run_unpack_grib (temp_file : path) (hour : Z) : M attempt unit :=
  fun a =>
    let data := default "" (fs (at_os a) !! temp_file) in
    let '(r, c) := unpack_grib data hour (at_checklist a) in
    (r, Attempt (at_connection a) c (at_os a)).

(** [DownloadWorker._download_file]; [host] is [self.connect_host] and
    [tmp] is [self.downloader._tmp_directory]. *)
Definition _download_file (host : string) (tmp : option string)
    (resp : response) (hour : Z) (filename : string) : M attempt unit :=
  modify (fun a =>
    match at_connection a with
    | None => Attempt (Some host) (at_checklist a) (at_os a)
    | Some _ => a
    end) ;;
  match tmp with
  | None => raise TypeError
  | Some tmp_directory =>
      let temp_file := Child tmp_directory filename in
      status <- of_result (resp_status resp) ;;
      if status =? 404 then raise NotFound
      else if negb (status =? 200) then raise (StatusError status)
      else
        r <- outcome (on_os (OS.open_write temp_file)) ;;
        let opened := is_ok r in
        try_finally
          (of_result r ;;
           try_finally
             (on_os (read_body temp_file (resp_body resp) (resp_end resp)))
             (on_os (OS.close_file temp_file)) ;;
           run_unpack_grib temp_file hour)
          (when opened (on_os (OS.unlink temp_file)))
  end.

Definition update_worker (i : nat) (f : worker -> worker) : M state unit :=
  set (fun d => set_greenlets (alter f i (_greenlets d)) d).

Definition set_connection (c : option string) (w : worker) : worker :=
  Worker (worker_id w) (connect_host w) c (server_sleep_backoff w)
    (current w) (dead w).
Definition set_backoff (b : Z) (w : worker) : worker :=
  Worker (worker_id w) (connect_host w) (_connection w) b (current w)
    (dead w).
Definition set_current (c : option file_request) (w : worker) : worker :=
  Worker (worker_id w) (connect_host w) (_connection w)
    (server_sleep_backoff w) c (dead w).
Definition set_dead (w : worker) : worker :=
  Worker (worker_id w) (connect_host w) (_connection w)
    (server_sleep_backoff w) (current w) true.

(** [DownloadWorker._connection_close] *)
Definition _connection_close (i : nat) : M state unit :=
  update_worker i (set_connection None).

Definition put_file (r : file_request) : M state unit :=
  set (fun d => set_files (PriorityQueue.put r (_files d)) d).

(** [_run], from [self._files.get] to the start of the download; [now] is
    the reading of [time()].  On an empty queue the worker stays blocked. *)
Definition worker_take (i : nat) (now : Z) : M state unit :=
  q <- get _files ;;
  match PriorityQueue.get q with
  | None => ret tt
  | Some (req, q') =>
      set (set_files q') ;;
      update_worker i (set_current (Some req)) ;;
      let sleep_for := fr_sleep_until req - now in
      when (0 <? sleep_for)
        (_connection_close i ;; sys (OS.sleep sleep_for))
  end.

(** [_run], the attempt on the item taken: [_download_file] under the
    per-file timeout. *)
Definition worker_attempt (i : nat) (w : worker) (req : file_request)
    (resp : response) : M state (result unit) :=
  fun s =>
    let a := Attempt (_connection w) (_checklist (self s)) (os s) in
    let '(r, a') :=
      _download_file (connect_host w) (_tmp_directory (self s)) resp
        (fr_hour req) (fr_filename req) a in
    let d := set_checklist (at_checklist a') (self s) in
    let d := set_greenlets
               (alter (set_connection (at_connection a')) i (_greenlets d)) d in
    (Ok r, State d (at_os a')).

(** [_run], from the outcome [r] of the attempt to the end of the
    iteration; [backoff] is [server_sleep_backoff] before the attempt and
    [now] the reading of [time()] in the handler.  In the [Timeout] handler
    [int(math.log(t, 2) + 1)] is [Z.log2 t + 1] and
    [int(math.ceil(math.log(t, 2)))] is [Z.log2_up t], which is what the
    float computation gives for [0 < t < 2^29]. *)
Definition worker_after (i : nat) (backoff : Z) (req : file_request)
    (r : result unit) (now : Z) : M state unit :=
  let hour := fr_hour req in
  let filename := fr_filename req in
  server_sleep_time <-
    match r with
    | Raise NotFound =>
        hff <- get have_first_file ;;
        sleep_time <- (if hff then get (fun d => timeout (cfg d))
                       else get (fun d => first_file_timeout (cfg d))) ;;
        put_file (FileRequest hour (now + Time.seconds sleep_time) filename) ;;
        ret 0
    | Raise Timeout =>
        t <- get (fun d => timeout (cfg d)) ;;
        if t <=? 0 then raise (ValueError "math domain error")
        else
          let b := Z.max backoff (Z.log2 t + 1) in
          let log_to := Z.log2_up t in
          let b := if b <? log_to + 1 then log_to + 1 else b in
          update_worker i (set_backoff b) ;;
          put_file (FileRequest hour 0 filename) ;;
          ret (2 ^ b)
    | Raise e =>
        if is_exit e then raise e
        else
          let b := if backoff <? 10 then backoff + 1 else backoff in
          update_worker i (set_backoff b) ;;
          put_file (FileRequest hour 0 filename) ;;
          ret (2 ^ b)
    | Ok _ =>
        update_worker i (set_backoff 0) ;;
        _file_complete ;;
        ret 0
    end ;;
  when (0 <? server_sleep_time) (_connection_close i) ;;
  sys (OS.sleep (Time.seconds server_sleep_time)) ;;
  update_worker i (set_current None).

Definition worker_finish (i : nat) (w : worker) (req : file_request)
    (resp : response) (now : Z) : M state unit :=
  r <- worker_attempt i w req resp ;;
  worker_after i (server_sleep_backoff w) req r now.

(** An exception that leaves [_run] ends the greenlet. *)
Definition dies_on_raise (i : nat) (m : M state unit) : M state unit :=
  fun s =>
    match m s with
    | (Raise e, s') =>
        (Raise e,
         State (set_greenlets (alter set_dead i (_greenlets (self s')))
                  (self s')) (os s'))
    | ok => ok
    end.

(** One scheduling event; an event for a worker that cannot make that
    move (unknown, dead, blocked, or at the other point of its loop)
    leaves the state as it is. *)
Definition run_event (ev : sched_event) : M state unit :=
  ws <- get _greenlets ;;
  match ev with
  | Take i now =>
      match ws !! i with
      | Some w =>
          if dead w || bool_decide (is_Some (current w)) then ret tt
          else dies_on_raise i (worker_take i now)
      | None => ret tt
      end
  | Finish i resp now =>
      match ws !! i with
      | Some w =>
          match dead w, current w with
          | false, Some req => dies_on_raise i (worker_finish i w req resp now)
          | _, _ => ret tt
          end
      | None => ret tt
      end
  end.

Definition event_worker (ev : sched_event) : nat :=
  match ev with
  | Take i _ => i
  | Finish i _ _ => i
  end.

(** [self.completed.wait(timeout=total_timeout_secs)]: the workers run
    until the event is set, a worker's exception reaches the supervisor
    through its link, or the timeout elapses, which is where the schedule
    ends. *)
Fixpoint wait (sched : list sched_event) : M state unit :=
  fun s =>
    if completed (self s) then (Ok tt, s)
    else
      match sched with
      | [] => (Ok tt, s)
      | ev :: sched' =>
          match run_event ev s with
          | (Ok _, s') => wait sched' s'
          | (Raise e, s') => (Raise (LinkedFailed (event_worker ev) e), s')
          end
      end.

(** [DatasetDownloader._join_all]: every worker is killed and leaves the
    group.  A worker that failed was reported when it failed, so no
    [LinkedFailed] is left to be raised here. *)
Definition _join_all (raise_exception : bool) : M state unit :=
  set (set_greenlets []).

Definition spawn (addresses : list string) : M state unit :=
  for_each (imap (fun worker_id address => (worker_id, address)) addresses)
    (fun wa =>
       let w := Worker (fst wa) (snd wa) None 0 None false in
       set (fun d => set_greenlets (_greenlets d ++ [w]) d)).

(** [DatasetDownloader._run_workers] *)
Definition _run_workers (addresses : list string) (total_timeout_secs : Z)
    (sched : list sched_event) : M state unit :=
  fun s =>
    let '(r, s1) := (spawn addresses ;; wait sched) s in
    let raising := negb (is_ok r) in
    match _join_all (negb raising) s1 with
    | (Ok _, s2) => (r, s2)
    | (Raise e, s2) => (Raise e, s2)
    end.

End Worker.

(** ** The session and the daemon *)

(** What one cycle of the daemon meets: the reading of [datetime.now()] when
    it computes its wait, the reading in [DatasetDownloader.__init__], the
    name given to the temporary directory, and the session's environment. *)
Record cycle_env : Type := CycleEnv {
  wait_now : Z;
  init_now : Z;
  tmp_rand : string;
  session : session_env
}.

(** [DownloadDaemon] *)
Record daemon : Type := Daemon {
  d_directory : string;
  num_datasets : Z
}.

(** A row of [Dataset.listdir]. *)
Record listdir_row : Type := Row {
  row_ds_time : Z;
  row_suffix : string;
  row_path : path
}.

Definition newer_first (a b : listdir_row) : Prop :=
  row_ds_time b <= row_ds_time a.

#[global] Instance newer_first_dec : RelDecision newer_first.
Proof. intros a b. unfold newer_first. apply _. Defined.

(** Python's [l[:n]] *)
Definition slice_to {A} (n : Z) (l : list A) : list A :=
  if 0 <=? n then take (Z.to_nat n) l
  else take (Z.to_nat (Z.of_nat (length l) + n)) l.

Section Session.

Variable axes : Dataset_axes.
Variable unpack_grib : string -> Z -> Checklist.t -> result unit * Checklist.t.

(** [DatasetDownloader.download] *)
Definition download (env : session_env) : M state unit :=
  addresses <- of_result (dns env) ;;
  dl <- get (fun d => deadline (cfg d)) ;;
  let total_timeout := dl - clock env in
  let total_timeout_secs := Time.total_seconds total_timeout in
  if total_timeout_secs <? 0 then raise (ValueError "Deadline already passed")
  else
    _add_files axes ;;
    _run_workers unpack_grib addresses total_timeout_secs (schedule env) ;;
    c <- get completed ;;
    if negb c then raise (ValueError "timed out")
    else
      cl <- get _checklist ;;
      if negb (Checklist.all cl) then
        raise (ValueError "incomplete: records missing")
      else set (set_success true).

(** Modelled from the spec: [Dataset.listdir(dir, only_suffices)], of the
    class declared outside this file, enumerates the existing artifacts of
    [dir]: the files [Dataset.filename(dir, ds_time, suffix)], here those
    whose suffix is among [only_suffices] when it is given. *)
Definition Dataset_listdir (dir : string) (only_suffices : option (list string))
    : M world (list listdir_row) :=
  l <- OS.listdir dir ;;
  ret (omap (fun p =>
               match p with
               | Artifact _ t sfx =>
                   match only_suffices with
                   | Some ok =>
                       if bool_decide (sfx ∈ ok) then Some (Row t sfx p)
                       else None
                   | None => Some (Row t sfx p)
                   end
               | Child _ _ => None
               end) l).

(** [DownloadDaemon.clean_directory] *)
Definition clean_directory (dm : daemon) : M world (option Z) :=
  datasets <- Dataset_listdir (d_directory dm) (Some [""]) ;;
  let keep_rows :=
    slice_to (num_datasets dm) (merge_sort newer_first datasets) in
  let keep_ds_times := map row_ds_time keep_rows in
  rows <- Dataset_listdir (d_directory dm) None ;;
  for_each rows (fun row =>
    when (negb (bool_decide (row_ds_time row ∈ keep_ds_times)))
      (OS.unlink (row_path row))) ;;
  ret (head keep_ds_times).

(** [DownloadDaemon._latest_dataset] *)
Definition _latest_dataset (now : Z) : Z :=
  let latest_dataset := now - Time.timedelta 3 30 in
  let latest_dataset := latest_dataset - latest_dataset mod Time.hour in
  let hour := Time.hour_of latest_dataset - Time.hour_of latest_dataset mod 6 in
  latest_dataset - (Time.hour_of latest_dataset - hour) * Time.hour.

(** [DownloadDaemon._download] *)
Definition _download (dm : daemon) (env : cycle_env) (ds_time : Z)
    : M world unit :=
  match DatasetDownloader_default axes (d_directory dm) ds_time (init_now env) with
  | Raise e =>
      (* [d] was never bound: [d.close()] in the [finally] block raises,
         whatever the handlers did *)
      raise UnboundLocalError
  | Ok d =>
      fun w =>
        let '(r, s) := (open (tmp_rand env) ;; download (session env)) (State d w) in
        let handled :=
          match r with
          | Raise e => if is_exit e then Raise e else Ok tt
          | Ok _ => Ok tt
          end in
        match close None s with
        | (Ok _, s') => (handled, os s')
        | (Raise e, s') => (Raise e, os s')
        end
  end.

(** [DownloadDaemon.run], before its loop; [now] is the reading of
    [datetime.now()] in [_latest_dataset]. *)
Definition run_start (dm : daemon) (now : Z) : M world Z :=
  last_downloaded_dataset <- clean_directory dm ;;
  let latest_dataset := _latest_dataset now in
  match last_downloaded_dataset with
  | None => ret latest_dataset
  | Some last =>
      if last <? latest_dataset then ret latest_dataset
      else ret (last + Time.timedelta 6 0)
  end.

(** [DownloadDaemon.run], the wait at the head of its loop: the sleep it
    makes, if any, for the clock reading [now]. *)
Definition run_wait (now next_dataset : Z) : option Z :=
  let expect := next_dataset + Time.timedelta 3 30 in
  let wait_for := Time.total_seconds (now - expect) in
  if 0 <? wait_for then Some wait_for else None.

(** [DownloadDaemon.run], one turn of its loop; the value is the
    [next_dataset] of the next turn. *)
Definition run_cycle (dm : daemon) (env : cycle_env) (next_dataset : Z)
    : M world Z :=
  match run_wait (wait_now env) next_dataset with
  | Some wait_for => OS.sleep wait_for
  | None => ret tt
  end ;;
  _download dm env next_dataset ;;
  latest <- clean_directory dm ;;
  if bool_decide (Some next_dataset = latest) then
    ret (next_dataset + Time.timedelta 6 0)
  else raise AssertionError.

(** [DownloadDaemon.run] over the turns whose environments are given: [Ok]
    when the loop is still running after them, [Raise] when an exception
    left [run]. *)
Fixpoint run_loop (dm : daemon) (envs : list cycle_env) (next_dataset : Z)
    : M world Z :=
  match envs with
  | [] => ret next_dataset
  | env :: envs' =>
      n <- run_cycle dm env next_dataset ;;
      run_loop dm envs' n
  end.

Definition run (dm : daemon) (now : Z) (envs : list cycle_env) : M world Z :=
  next_dataset <- run_start dm now ;;
  run_loop dm envs next_dataset.

(** [main], the [download] command, for the session object that the
    constructor call [new] yields:
    [d = DatasetDownloader(...)], then [d.open(); d.download()] with
    [d.close()] in the [finally] block. *)
Definition main_download (new : result downloader) (rand : string)
    (env : session_env) : M world unit :=
  match new with
  | Raise e => raise e
  | Ok d =>
      fun w =>
        let '(r, s) :=
          try_finally (open rand ;; download env) (close None) (State d w) in
        (r, os s)
  end.

(** The states a session passes through while its workers run: those
    reached from [s0] by scheduling events. *)
Inductive session_reaches (s0 : state) : state -> Prop :=
  | reaches_start : session_reaches s0 s0
  | reaches_event s ev r s' :
      session_reaches s0 s ->
      run_event unpack_grib ev s = (r, s') ->
      session_reaches s0 s'.

End Session.

(** ** Accounting for the files of a session *)

(** 1 when the worker holds an item taken off the queue, 0 otherwise. *)
Definition holding (w : worker) : Z :=
  match current w with
  | Some _ => 1
  | None => 0
  end.

(** The number of items held by workers. *)
Fixpoint in_flight (ws : list worker) : Z :=
  match ws with
  | [] => 0
  | w :: ws' => holding w + in_flight ws'
  end.

(** A session object on which [download] has not run. *)
Definition fresh (d : downloader) : Prop :=
  files_complete d = 0 /\ files_count d = 0 /\ completed d = false /\
  _files d = [] /\ _greenlets d = [].

(** Every file counted by [files_count] is complete, in the queue, or held
    by a worker; and the event is set exactly when all are complete. *)
Definition accounted (d : downloader) : Prop :=
  0 <= files_complete d /\
  files_complete d + PriorityQueue.qsize (_files d) + in_flight (_greenlets d)
  = files_count d /\
  (completed d = true <-> files_complete d = files_count d).

(** What one scheduling event does to the account: the count of files stays,
    and either no file completes, or one does, which leaves its worker and
    does not return to the queue. *)
Definition event_effect (d d' : downloader) : Prop :=
  files_count d' = files_count d /\
  (files_complete d' = files_complete d \/
   (files_complete d' = files_complete d + 1 /\
    PriorityQueue.qsize (_files d') = PriorityQueue.qsize (_files d) /\
    in_flight (_greenlets d') = in_flight (_greenlets d) - 1)).

(** Between [s] and [s'], [n] files were counted and queued, and nothing
    else of the account changed. *)
Definition seeds (n : Z) (s s' : state) : Prop :=
  files_count (self s') = files_count (self s) + n /\
  PriorityQueue.qsize (_files (self s'))
  = PriorityQueue.qsize (_files (self s)) + n /\
  files_complete (self s') = files_complete (self s) /\
  completed (self s') = completed (self s) /\
  _greenlets (self s') = _greenlets (self s).

(** The account is the same in [s] and [s']. *)
Definition same_account (s s' : state) : Prop :=
  files_count (self s') = files_count (self s) /\
  _files (self s') = _files (self s) /\
  files_complete (self s') = files_complete (self s) /\
  completed (self s') = completed (self s) /\
  in_flight (_greenlets (self s')) = in_flight (_greenlets (self s)).

(** [a] is served no later than [b]: an earlier hour first, and within an
    hour the earlier [sleep_until] first. *)
Definition served_before (a b : file_request) : Prop :=
  fr_hour a < fr_hour b \/
  (fr_hour a = fr_hour b /\ fr_sleep_until a <= fr_sleep_until b).

(** The attribute [f] of the session object is none of those that the
    workers and the seeding of the queue write. *)
Definition untouched_by_workers {A} (f : downloader -> A) : Prop :=
  (forall v d, f (set_files v d) = f d) /\
  (forall v d, f (set_greenlets v d) = f d) /\
  (forall v d, f (set_files_complete v d) = f d) /\
  (forall v d, f (set_files_count v d) = f d) /\
  (forall v d, f (set_have_first_file v d) = f d) /\
  (forall v d, f (set_completed v d) = f d) /\
  (forall v d, f (set_checklist v d) = f d).

(** Every worker's server-backoff exponent is between 0 and the greater of
    10 and [ceil(log2(timeout)) + 1]. *)
Definition backoff_bounded (d : downloader) : Prop :=
  Forall (fun w =>
            0 <= server_sleep_backoff w
            <= Z.max 10 (Z.log2_up (timeout (cfg d)) + 1))
    (_greenlets d).

(** The body that a list of chunks carries. *)
Definition body_of (chunks : list string) : string :=
  fold_right String.append "" chunks.

(** No per-file temporary file lies in the session's temporary directory. *)
Definition scratch_clear (s : state) : Prop :=
  forall tmp name,
    _tmp_directory (self s) = Some tmp -> fs (os s) !! Child tmp name = None.

(** The artifacts of a session with configuration [c], as files of [dir]:
    [open] creates them in the temporary directory, [close] moves them to
    the dataset directory. *)
Definition artifacts (c : config) (dir : string) : list path :=
  ((if write_dataset c then [Artifact dir (ds_time c) ""] else []) ++
   (if write_gribmirror c then [Artifact dir (ds_time c) SUFFIX_GRIBMIRROR]
    else []))%list.

(** The files [f] with the artifacts of [c] created empty in [dir]. *)
Definition staged (c : config) (dir : string) (f : gmap path string)
    : gmap path string :=
  let f1 := if write_dataset c then <[ Artifact dir (ds_time c) "" := "" ]> f
            else f in
  if write_gribmirror c then
    <[ Artifact dir (ds_time c) SUFFIX_GRIBMIRROR := "" ]> f1
  else f1.

(** [tempfile.mkdtemp] returns a directory that did not exist: the name made
    with [rand] is that of no directory and of no file's directory. *)
Definition fresh_name (dir rand : string) (w : world) : Prop :=
  let tmp := (dir ++ "/download." ++ rand)%string in
  (tmp ∉ dirs w) /\ (forall p, parent p = tmp -> fs w !! p = None).

(** What [close] does to the files when it settles one artifact. *)
Definition settle (c : config) (tmp : string) (mv : bool) (sfx : string)
    (f : gmap path string) : gmap path string :=
  if mv then
    <[ Artifact (directory c) (ds_time c) sfx := "" ]>
      (delete (Artifact tmp (ds_time c) sfx) f)
  else delete (Artifact tmp (ds_time c) sfx) f.

(** A session object on which [open] has not run and [download] has not
    returned. *)
Definition unopened (d : downloader) : Prop :=
  _dataset d = None /\ _gribmirror d = None /\ _tmp_directory d = None /\
  success d = false.

(** A dataset directory holding the datasets of 00:00 and 06:00 of the first
    day, the older one with its grib mirror, and a grib mirror left alone. *)
Definition stocked : world :=
  World (<[ Artifact "datasets" 0 "" := "a" ]>
           (<[ Artifact "datasets" 0 SUFFIX_GRIBMIRROR := "b" ]>
              (<[ Artifact "datasets" (6 * Time.hour) "" := "c" ]>
                 (<[ Artifact "datasets" (12 * Time.hour) SUFFIX_GRIBMIRROR
                     := "d" ]> ∅))))
    {[ "datasets" ]} [].

(** ** A concrete setting

    A dataset with two forecast hours, a mirror with one address, and an
    empty target directory [datasets]. *)

Module Scenario.
Definition axes : Dataset_axes := Axes [0; 3] [1000] [0; 1].

(** An unpacker that accepts every file and marks the cells of its hour. *)
Definition unpack_grib (data : string) (hour : Z) (c : Checklist.t)
    : result unit * Checklist.t :=
  (Ok tt, Checklist.mark hour 1000 0 (Checklist.mark hour 1000 1 c)).

Definition world0 : world := World ∅ {[ "datasets" ]} [].

Definition dm : daemon := Daemon "datasets" 1.

(** The dataset-time 06:00 of the first day, and its publication instant. *)
Definition T : Z := 6 * Time.hour.
Definition published : Z := T + Time.timedelta 3 30.

(** The mirror resolves to one address and never answers: the wait of the
    session ends with no file fetched. *)
Definition silent : session_env :=
  SessionEnv (Ok ["10.0.0.1"]) published [].

Definition silent_cycle : cycle_env :=
  CycleEnv published published "XYZ" silent.

(** The mirror serves every file at once. *)
Definition ok200 : response := Response (Ok 200) ["GRIB"] None.

Definition serving : session_env :=
  SessionEnv (Ok ["10.0.0.1"]) published
    [Take 0 published; Finish 0 ok200 published;
     Take 0 published; Finish 0 ok200 published;
     Take 0 published; Finish 0 ok200 published;
     Take 0 published; Finish 0 ok200 published].

Definition serving_cycle : cycle_env :=
  CycleEnv published published "XYZ" serving.

(** A session object as [__init__] leaves it, with the defaults. *)
Definition session0 : state :=
  match DatasetDownloader_default axes "datasets" T published with
  | Ok d => State d world0
  | Raise _ => State (Downloader (Config "" 0 0 0 false false 0) false 0 0
                        false false None None None [] [] ∅) world0
  end.

(** The session once opened. *)
Definition opened : state := snd (open "XYZ" session0).

(** The session once opened and seeded, its one worker having taken the
    first file of the queue. *)
Definition working : state :=
  snd ((open "XYZ" ;; _add_files axes ;; spawn ["10.0.0.1"] ;;
        run_event unpack_grib (Take 0 published)) session0).

Definition first_file : file_request := FileRequest 0 0 "gfs.t06z.pgrb2bf00".

Definition worker0 : worker :=
  Worker 0 "10.0.0.1" None 0 (Some first_file) false.

(** The mirror does not answer within the per-file timeout. *)
Definition timed_out : response := Response (Raise Timeout) [] None.

(** The file is not published yet. *)
Definition not_found : response := Response (Ok 404) [] None.

(** The mirror answers, then the connection breaks in mid-stream. *)
Definition broken : response :=
  Response (Ok 200) ["GR"] (Some (NetworkError "Connection reset by peer")).

(** The session after a download that the mirror served, and after one that
    it did not. *)
Definition served : state :=
  snd ((open "XYZ" ;; download axes unpack_grib serving) session0).
Definition failed : state :=
  snd ((open "XYZ" ;; download axes unpack_grib silent) session0).
End Scenario.

(** * Properties *)

(** ** The monad *)

Ltac unfold_monad :=
  unfold when, of_result, outcome, get, set, sys, on_os, gets, modify, bind,
    ret, raise in *.

Lemma bind_ok {S A B} (m : M S A) (k : A -> M S B) s a s' :
  m s = (Ok a, s') -> bind m k s = k a s'.
Proof. intros H. unfold bind. rewrite H. reflexivity. Qed.

Lemma bind_inv_ok {S A B} (m : M S A) (k : A -> M S B) s b s2 :
  bind m k s = (Ok b, s2) ->
  exists a s1, m s = (Ok a, s1) /\ k a s1 = (Ok b, s2).
Proof.
  unfold bind. destruct (m s) as [[a | e] s1]; intros H.
  - exists a, s1. split; [reflexivity | exact H].
  - discriminate H.
Qed.

(** ** The daemon's wait (C1) *)

Lemma run_wait_early now next_dataset :
  now <= next_dataset + Time.timedelta 3 30 ->
  run_wait now next_dataset = None.
Proof.
  intros H. unfold run_wait, Time.total_seconds.
  destruct (Z.ltb_spec 0 (now - (next_dataset + Time.timedelta 3 30)));
    [lia | reflexivity].
Qed.

Lemma run_wait_late now next_dataset :
  next_dataset + Time.timedelta 3 30 < now ->
  run_wait now next_dataset
  = Some (now - (next_dataset + Time.timedelta 3 30)).
Proof.
  intros H. unfold run_wait, Time.total_seconds.
  destruct (Z.ltb_spec 0 (now - (next_dataset + Time.timedelta 3 30)));
    [reflexivity | lia].
Qed.

(** C1.  The specification has the daemon sleep until
    [target + 3 h 30 min]: the remaining time when that instant is ahead, and
    not at all when it has passed.  The code computes [now - expect] where
    the remaining time is [expect - now]: for the target [Scenario.T], one
    hour before the publication instant it does not sleep (the remaining time
    is one hour), and one hour after it sleeps for one hour (where no sleep is
    due). *)
Theorem C1_wait_is_inverted :
  run_wait (Scenario.published - Time.timedelta 1 0) Scenario.T = None /\
  run_wait (Scenario.published + Time.timedelta 1 0) Scenario.T
  = Some (Time.timedelta 1 0).
Proof. split; reflexivity. Qed.

(** ** The daemon's cycle (C2) *)

(** A session that fails is caught by [_download], which returns. *)
Lemma silent_session_is_caught :
  fst (_download Scenario.axes Scenario.unpack_grib Scenario.dm
         Scenario.silent_cycle Scenario.T Scenario.world0) = Ok tt.
Proof. vm_compute. reflexivity. Qed.

(** The session inside it failed with the session timeout. *)
Lemma silent_session_times_out :
  fst ((open "XYZ" ;; download Scenario.axes Scenario.unpack_grib Scenario.silent)
         Scenario.session0) = Raise (ValueError "timed out").
Proof. vm_compute. reflexivity. Qed.

(** C2.  The specification has a failure of the session caught and logged
    inside the cycle and not propagated out of [DownloadDaemon.run], the
    daemon going on to the next cycle with the target advanced by 6 hours.
    The code
    catches the failure in [_download], but the failed session published
    nothing, so [assert next_dataset == self.clean_directory()] fails and
    [AssertionError] leaves [run]: with an empty directory and a mirror that
    never answers, the first cycle raises and no second cycle runs. *)
Theorem C2_failed_session_stops_daemon :
  fst (run_cycle Scenario.axes Scenario.unpack_grib Scenario.dm
         Scenario.silent_cycle Scenario.T Scenario.world0)
  = Raise AssertionError /\
  fst (run Scenario.axes Scenario.unpack_grib Scenario.dm
         (Scenario.published + 1)
         [Scenario.silent_cycle; Scenario.serving_cycle] Scenario.world0)
  = Raise AssertionError.
Proof. split; vm_compute; reflexivity. Qed.

(** The same daemon goes on when the session succeeds: the target of the
    next cycle is six hours later. *)
Lemma served_session_advances :
  fst (run_cycle Scenario.axes Scenario.unpack_grib Scenario.dm
         Scenario.serving_cycle Scenario.T Scenario.world0)
  = Ok (Scenario.T + Time.timedelta 6 0).
Proof. vm_compute. reflexivity. Qed.

(** ** Refusals of the session (C7, C9) *)

Section SessionFacts.

Variable axes : Dataset_axes.
Variable unpack_grib : string -> Z -> Checklist.t -> result unit * Checklist.t.

(** C7.  When the deadline has passed at the time [download] reads the
    clock, [download] raises and leaves the session and the world as they
    were: the queue is not seeded and no worker is spawned.  The error is
    "Deadline already passed", unless resolving the host failed first. *)
Theorem C7_deadline_passed_raises_before_seeding :
  forall (env : session_env) (s : state),
    deadline (cfg (self s)) - clock env < 0 ->
    download axes unpack_grib env s
    = (Raise match dns env with
             | Ok _ => ValueError "Deadline already passed"
             | Raise e => e
             end, s).
Proof.
  intros env s H. unfold download, Time.total_seconds.
  unfold_monad. destruct (dns env) as [addresses | e]; [| reflexivity].
  destruct (Z.ltb_spec (deadline (cfg (self s)) - clock env) 0); [| lia].
  reflexivity.
Qed.

(** C9.  With both outputs disabled the constructor raises, so no session
    object exists and [open] is never reached: the [download] command ends
    with that error and the world is as it was, with no temporary directory,
    no Dataset writer and no grib mirror file.  For a dataset-time on the
    6-hour grid the error is the [ValueError] of the check. *)
Theorem C9_both_outputs_disabled_refused :
  forall (dir : string) (t tmo fft : Z) (dl : option Z) (now : Z),
    let e :=
      if bool_decide (Time.hour_of t ∈ [0; 6; 12; 18]) && Time.on_the_hour t
      then ValueError "Choose write_datset or write_gribmirror (or both)"
      else AssertionError in
    DatasetDownloader axes dir t tmo fft false false dl now = Raise e /\
    forall rand env w,
      main_download axes unpack_grib
        (DatasetDownloader axes dir t tmo fft false false dl now) rand env w
      = (Raise e, w).
Proof.
  intros. subst e. unfold DatasetDownloader.
  destruct (bool_decide (Time.hour_of t ∈ [0; 6; 12; 18])); simpl;
    [destruct (Time.on_the_hour t); simpl |];
    (split; [reflexivity | intros; reflexivity]).
Qed.

(** Every session object that the constructor yields writes an output. *)
Lemma constructed_writes_an_output
    (dir : string) (t tmo fft : Z) (wd wg : bool) (dl : option Z) (now : Z) d :
  DatasetDownloader axes dir t tmo fft wd wg dl now = Ok d ->
  write_dataset (cfg d) || write_gribmirror (cfg d) = true.
Proof.
  unfold DatasetDownloader.
  destruct (negb (bool_decide _)); [discriminate |].
  destruct (negb (Time.on_the_hour _)); [discriminate |].
  destruct (wd || wg) eqn:E; simpl; [| discriminate].
  intros [= <-]. exact E.
Qed.

End SessionFacts.

Lemma C7_deadline_passed_witness :
  deadline (cfg (self Scenario.session0))
  - clock (SessionEnv (Ok ["10.0.0.1"]) (Scenario.T + Time.timedelta 7 0) [])
  < 0 /\
  download Scenario.axes Scenario.unpack_grib
    (SessionEnv (Ok ["10.0.0.1"]) (Scenario.T + Time.timedelta 7 0) [])
    Scenario.session0
  = (Raise (ValueError "Deadline already passed"), Scenario.session0).
Proof.
  split; [reflexivity |].
  apply (C7_deadline_passed_raises_before_seeding Scenario.axes
           Scenario.unpack_grib
           (SessionEnv (Ok ["10.0.0.1"]) (Scenario.T + Time.timedelta 7 0) [])
           Scenario.session0).
  reflexivity.
Defined.

(** ** The worker's handlers (C4, C5) *)

Section WorkerFacts.

Variable unpack_grib : string -> Z -> Checklist.t -> result unit * Checklist.t.

(** What an attempt leaves of the session: only the checklist and the
    connection of the worker change. *)
Lemma worker_attempt_frame i w req resp s r s1 :
  worker_attempt unpack_grib i w req resp s = (r, s1) ->
  exists r' c cl,
    r = Ok r' /\
    self s1 = set_greenlets (alter (set_connection c) i (_greenlets (self s)))
                (set_checklist cl (self s)).
Proof.
  unfold worker_attempt.
  destruct (_download_file _ _ _ _ _ _ _) as [r' a'].
  intros [= <- <-]. simpl. eauto.
Qed.

Lemma timeout_exponent (b t : Z) :
  0 < t ->
  (let b1 := Z.max b (Z.log2 t + 1) in
   if b1 <? Z.log2_up t + 1 then Z.log2_up t + 1 else b1)
  = Z.max b (Z.log2_up t + 1).
Proof.
  intros Ht. simpl.
  pose proof (Z.le_log2_log2_up t) as Hle.
  destruct (Z.ltb_spec (Z.max b (Z.log2 t + 1)) (Z.log2_up t + 1)); lia.
Qed.

(** C4.  After an attempt that ended with the per-file [Timeout], the
    worker puts the file back with [not_before = 0] and sleeps [2^k]
    seconds, where [k] is the greater of its backoff exponent before the
    attempt and [ceil(log2(timeout)) + 1]; [k] is its exponent from then
    on.  For the default timeout of 120 s, [k] is at least 8 and the sleep at
    least 256 s.  This is for a timeout of a whole number of seconds below
    [2^29], where the float logarithm of the code has the floor and the
    ceiling of the exact one. *)
Theorem C4_timeout_requeues_and_backs_off :
  forall (i : nat) (w : worker) (req : file_request) (resp : response)
         (now : Z) (s s1 : state),
    _greenlets (self s) !! i = Some w ->
    worker_attempt unpack_grib i w req resp s = (Ok (Raise Timeout), s1) ->
    0 < timeout (cfg (self s)) < 2 ^ 29 ->
    let k := Z.max (server_sleep_backoff w)
               (Z.log2_up (timeout (cfg (self s))) + 1) in
    exists s',
      worker_finish unpack_grib i w req resp now s = (Ok tt, s') /\
      _files (self s')
      = PriorityQueue.put (FileRequest (fr_hour req) 0 (fr_filename req))
          (_files (self s)) /\
      trace (os s') = (trace (os s1) ++ [ESleep (Time.seconds (2 ^ k))])%list /\
      (exists w', _greenlets (self s') !! i = Some w' /\
                  server_sleep_backoff w' = k) /\
      (timeout (cfg (self s)) = 120 -> 8 <= k /\ 256 <= 2 ^ k).
Proof.
  intros i w req resp now s s1 Hw Hat [Ht _] k.
  destruct (worker_attempt_frame _ _ _ _ _ _ _ Hat) as (r' & c & cl & _ & Hs1).
  unfold worker_finish. rewrite (bind_ok _ _ _ _ _ Hat).
  destruct s1 as [d1 w1]. simpl in Hs1. subst d1.
  unfold worker_after. unfold_monad. simpl.
  destruct (Z.leb_spec (timeout (cfg (self s))) 0) as [Hle | _]; [lia |].
  rewrite (timeout_exponent _ _ Ht). fold k.
  pose proof (Z.log2_up_nonneg (timeout (cfg (self s)))) as Hlog.
  assert (Hpos : 0 < 2 ^ k) by (apply Z.pow_pos_nonneg; lia).
  destruct (Z.ltb_spec 0 (2 ^ k)) as [_ | Hn]; [| lia].
  simpl. eexists. split; [reflexivity |]. simpl.
  split; [reflexivity |]. split; [reflexivity |]. split.
  - eexists. split.
    + rewrite !list_lookup_alter_eq, Hw. reflexivity.
    + reflexivity.
  - intros E. clear Hpos. subst k. rewrite E.
    change (Z.log2_up 120) with 7. split; [lia |].
    change 256 with (2 ^ 8). apply Z.pow_le_mono_r; lia.
Qed.


(** C5.  After an attempt that ended with 404, the worker puts the file
    back with [not_before = now + timeout] when the session has had its
    first file and [now + first_file_timeout] otherwise, makes a server
    sleep of 0, and keeps its backoff exponent. *)
Theorem C5_not_found_requeues_with_file_sleep :
  forall (i : nat) (w : worker) (req : file_request) (resp : response)
         (now : Z) (s s1 : state),
    _greenlets (self s) !! i = Some w ->
    worker_attempt unpack_grib i w req resp s = (Ok (Raise NotFound), s1) ->
    let sleep_time :=
      if have_first_file (self s) then timeout (cfg (self s))
      else first_file_timeout (cfg (self s)) in
    exists s',
      worker_finish unpack_grib i w req resp now s = (Ok tt, s') /\
      _files (self s')
      = PriorityQueue.put
          (FileRequest (fr_hour req) (now + Time.seconds sleep_time)
             (fr_filename req))
          (_files (self s)) /\
      trace (os s') = (trace (os s1) ++ [ESleep 0])%list /\
      (exists w', _greenlets (self s') !! i = Some w' /\
                  server_sleep_backoff w' = server_sleep_backoff w).
Proof.
  intros i w req resp now s s1 Hw Hat sleep_time.
  destruct (worker_attempt_frame _ _ _ _ _ _ _ Hat) as (r' & c & cl & _ & Hs1).
  unfold worker_finish. rewrite (bind_ok _ _ _ _ _ Hat).
  destruct s1 as [d1 w1]. simpl in Hs1. subst d1.
  unfold worker_after. unfold_monad. simpl.
  subst sleep_time.
  destruct (have_first_file (self s)); simpl;
    (eexists; split; [reflexivity |]; simpl;
     split; [reflexivity |]; split; [reflexivity |];
     eexists; split;
     [rewrite !list_lookup_alter_eq, Hw; reflexivity | reflexivity]).
Qed.

End WorkerFacts.

(** The timeouts of a session built with the defaults. *)
Lemma default_timeouts axes dir t now d :
  DatasetDownloader_default axes dir t now = Ok d ->
  timeout (cfg d) = 120 /\ first_file_timeout (cfg d) = 600.
Proof.
  unfold DatasetDownloader_default, DatasetDownloader.
  destruct (negb (bool_decide _)); [discriminate |].
  destruct (negb (Time.on_the_hour _)); [discriminate |].
  simpl. intros [= <-]. split; reflexivity.
Qed.

Lemma C4_timeout_witness :
  exists s',
    worker_finish Scenario.unpack_grib 0 Scenario.worker0 Scenario.first_file
      Scenario.timed_out Scenario.published Scenario.working = (Ok tt, s') /\
    _files (self s')
    = PriorityQueue.put Scenario.first_file (_files (self Scenario.working)) /\
    (exists w', _greenlets (self s') !! 0%nat = Some w' /\
                server_sleep_backoff w' = 8).
Proof.
  destruct (C4_timeout_requeues_and_backs_off Scenario.unpack_grib 0
              Scenario.worker0 Scenario.first_file Scenario.timed_out
              Scenario.published Scenario.working
              (snd (worker_attempt Scenario.unpack_grib 0 Scenario.worker0
                      Scenario.first_file Scenario.timed_out Scenario.working)))
    as (s' & Hrun & Hq & _ & Hw & _);
    [reflexivity | reflexivity | split; reflexivity |].
  exists s'. split; [exact Hrun |]. split; [exact Hq | exact Hw].
Defined.

Lemma C5_not_found_witness :
  exists s',
    worker_finish Scenario.unpack_grib 0 Scenario.worker0 Scenario.first_file
      Scenario.not_found Scenario.published Scenario.working = (Ok tt, s') /\
    _files (self s')
    = PriorityQueue.put
        (FileRequest 0 (Scenario.published + Time.seconds 600)
           "gfs.t06z.pgrb2bf00")
        (_files (self Scenario.working)).
Proof.
  destruct (C5_not_found_requeues_with_file_sleep Scenario.unpack_grib 0
              Scenario.worker0 Scenario.first_file Scenario.not_found
              Scenario.published Scenario.working
              (snd (worker_attempt Scenario.unpack_grib 0 Scenario.worker0
                      Scenario.first_file Scenario.not_found Scenario.working)))
    as (s' & Hrun & Hq & _);
    [reflexivity | reflexivity |].
  exists s'. split; [exact Hrun | exact Hq].
Defined.

(** ** What a computation leaves unchanged *)

Section Preserves.

Context {A : Type} (f : downloader -> A).

Lemma preserves_ret {B} (b : B) : preserves f (ret b).
Proof. intros s. reflexivity. Qed.

Lemma preserves_raise {B} e : preserves f (@raise state B e).
Proof. intros s. reflexivity. Qed.

Lemma preserves_get {B} (g : downloader -> B) : preserves f (get g).
Proof. intros s. reflexivity. Qed.

Lemma preserves_sys {B} (m : M world B) : preserves f (sys m).
Proof. intros s. unfold sys. destruct (m (os s)). reflexivity. Qed.

Lemma preserves_set g : (forall d, f (g d) = f d) -> preserves f (set g).
Proof. intros H s. simpl. apply H. Qed.

Lemma preserves_bind {B C} (m : M state B) (k : B -> M state C) :
  preserves f m -> (forall b, preserves f (k b)) -> preserves f (bind m k).
Proof.
  intros Hm Hk s. unfold bind. specialize (Hm s).
  destruct (m s) as [[b | e] s1]; simpl in *.
  - rewrite (Hk b s1). exact Hm.
  - exact Hm.
Qed.

Lemma preserves_when c (m : M state unit) :
  preserves f m -> preserves f (when c m).
Proof. intros H. destruct c; [exact H | apply preserves_ret]. Qed.

Lemma preserves_for_each {B} (l : list B) (body : B -> M state unit) :
  (forall x, preserves f (body x)) -> preserves f (for_each l body).
Proof.
  intros H. induction l as [| x l IH]; simpl.
  - apply preserves_ret.
  - apply preserves_bind; [apply H | intros _; exact IH].
Qed.

Lemma preserves_try_finally {B} (m : M state B) (c : M state unit) :
  preserves f m -> preserves f c -> preserves f (try_finally m c).
Proof.
  intros Hm Hc s. unfold try_finally. specialize (Hm s).
  destruct (m s) as [r s1]. specialize (Hc s1).
  destruct (c s1) as [[[] | e] s2]; simpl in *; congruence.
Qed.

End Preserves.

Ltac preserves_step :=
  first
    [ apply preserves_ret
    | apply preserves_raise
    | apply preserves_get
    | apply preserves_sys
    | apply preserves_set; intros; reflexivity
    | apply preserves_when
    | apply preserves_for_each; intros
    | apply preserves_try_finally
    | apply preserves_bind; [| intros]
    | match goal with
      | |- preserves _ (match ?x with _ => _ end) => destruct x
      | |- preserves _ (let '(_, _) := ?x in _) => destruct x
      end ].

Ltac preserves_auto := repeat preserves_step.

Section SessionRun.

Variable axes : Dataset_axes.
Variable unpack_grib : string -> Z -> Checklist.t -> result unit * Checklist.t.

Lemma add_files_preserves_success : preserves success (_add_files axes).
Proof. unfold _add_files. preserves_auto. Qed.

Lemma worker_take_preserves_success i now :
  preserves success (worker_take i now).
Proof.
  unfold worker_take, _connection_close, update_worker. preserves_auto.
Qed.

Lemma worker_finish_preserves_success i w req resp now :
  preserves success (worker_finish unpack_grib i w req resp now).
Proof.
  unfold worker_finish. apply preserves_bind.
  - intros s. unfold worker_attempt.
    destruct (_download_file _ _ _ _ _ _ _). reflexivity.
  - intros r. unfold worker_after, _file_complete, put_file,
      _connection_close, update_worker.
    preserves_auto.
Qed.

Lemma dies_on_raise_preserves_success i m :
  preserves success m -> preserves success (dies_on_raise i m).
Proof.
  intros H s. unfold dies_on_raise. specialize (H s).
  destruct (m s) as [[[] | e] s1]; simpl in *; exact H.
Qed.

Lemma run_event_preserves_success ev :
  preserves success (run_event unpack_grib ev).
Proof.
  unfold run_event. apply preserves_bind; [apply preserves_get |].
  intros ws. destruct ev as [i now | i resp now];
    destruct (ws !! i) as [w |]; try apply preserves_ret.
  - destruct (dead w || bool_decide (is_Some (current w)));
      [apply preserves_ret |].
    apply dies_on_raise_preserves_success, worker_take_preserves_success.
  - destruct (dead w); [apply preserves_ret |].
    destruct (current w) as [req |]; [| apply preserves_ret].
    apply dies_on_raise_preserves_success, worker_finish_preserves_success.
Qed.

Lemma wait_preserves_success sched :
  preserves success (wait unpack_grib sched).
Proof.
  induction sched as [| ev sched IH]; intros s; simpl.
  - destruct (completed (self s)); reflexivity.
  - destruct (completed (self s)); [reflexivity |].
    pose proof (run_event_preserves_success ev s) as Hev.
    destruct (run_event unpack_grib ev s) as [[[] | e] s1]; simpl in *.
    + rewrite (IH s1). exact Hev.
    + exact Hev.
Qed.

Lemma run_workers_preserves_success addresses secs sched :
  preserves success (_run_workers unpack_grib addresses secs sched).
Proof.
  intros s. unfold _run_workers.
  assert (H : preserves success (spawn addresses ;; wait unpack_grib sched)).
  { apply preserves_bind; [| intros; apply wait_preserves_success].
    unfold spawn. preserves_auto. }
  specialize (H s).
  destruct ((spawn addresses ;; wait unpack_grib sched) s) as [r s1].
  simpl in *. exact H.
Qed.

(** The workers are gone when [_run_workers] is over, however it ends. *)
Lemma run_workers_tears_down addresses secs sched s :
  _greenlets (self (snd (_run_workers unpack_grib addresses secs sched s)))
  = [].
Proof.
  unfold _run_workers.
  destruct ((spawn addresses ;; wait unpack_grib sched) s) as [r s1].
  reflexivity.
Qed.

Lemma bind_assoc {S A B C} (m : M S A) (k : A -> M S B) (h : B -> M S C) s :
  bind (bind m k) h s = bind m (fun a => bind (k a) h) s.
Proof.
  unfold bind. destruct (m s) as [[a | e] s1]; reflexivity.
Qed.

(** [download], once the host is resolved and the deadline is ahead: the
    verdict on the state [s1] in which the workers were torn down. *)
Lemma download_verdict env s addresses s1 :
  dns env = Ok addresses ->
  0 <= deadline (cfg (self s)) - clock env ->
  (_add_files axes ;;
   _run_workers unpack_grib addresses
     (Time.total_seconds (deadline (cfg (self s)) - clock env))
     (schedule env)) s = (Ok tt, s1) ->
  download axes unpack_grib env s
  = if negb (completed (self s1)) then (Raise (ValueError "timed out"), s1)
    else if negb (Checklist.all (_checklist (self s1))) then
      (Raise (ValueError "incomplete: records missing"), s1)
    else (Ok tt, State (set_success true (self s1)) (os s1)).
Proof.
  intros Hdns Hdl Hrun. unfold download.
  unfold of_result. rewrite Hdns.
  rewrite (bind_ok _ _ s addresses s) by reflexivity.
  rewrite (bind_ok _ _ s (deadline (cfg (self s))) s) by reflexivity.
  destruct (Z.ltb_spec (Time.total_seconds (deadline (cfg (self s)) - clock env)) 0)
    as [Hlt | _]; [unfold Time.total_seconds in Hlt; lia |].
  rewrite <- bind_assoc. rewrite (bind_ok _ _ _ _ _ Hrun).
  unfold_monad. simpl.
  destruct (completed (self s1)); simpl; [| reflexivity].
  destruct (Checklist.all (_checklist (self s1))); reflexivity.
Qed.

(** [download] sets [success] at its very end and nowhere else. *)
Lemma download_success env s :
  success (self s) = false ->
  let '(r, s') := download axes unpack_grib env s in
  (success (self s') = true <-> r = Ok tt) /\
  (r = Ok tt ->
   completed (self s') = true /\
   Checklist.all (_checklist (self s')) = true /\
   _greenlets (self s') = []).
Proof.
  intros Hs. unfold download. unfold of_result.
  destruct (dns env) as [addresses | e]; simpl.
  2: { split; [split; [congruence | discriminate] | discriminate]. }
  unfold bind at 1. simpl. unfold bind at 1. simpl.
  destruct (_ <? 0).
  { simpl. split; [split; [congruence | discriminate] | discriminate]. }
  rewrite <- bind_assoc.
  pose proof (preserves_bind success _ _ add_files_preserves_success
                (fun _ => run_workers_preserves_success addresses
                            (Time.total_seconds
                               (deadline (cfg (self s)) - clock env))
                            (schedule env)) s) as Hp.
  unfold bind at 1.
  destruct ((_add_files axes ;; _run_workers _ _ _ _) s) as [[[] | e] s1] eqn:E;
    simpl in Hp.
  2: { split; [split; [congruence | discriminate] | discriminate]. }
  assert (Hg : _greenlets (self s1) = []).
  { apply bind_inv_ok in E as ([] & s0 & _ & E).
    pose proof (run_workers_tears_down addresses
                  (Time.total_seconds (deadline (cfg (self s)) - clock env))
                  (schedule env) s0) as Ht.
    rewrite E in Ht. exact Ht. }
  unfold_monad. simpl.
  destruct (completed (self s1)) eqn:Hc; simpl.
  2: { split; [split; [congruence | discriminate] | discriminate]. }
  destruct (Checklist.all (_checklist (self s1))) eqn:Hall; simpl.
  2: { split; [split; [congruence | discriminate] | discriminate]. }
  split; [split; reflexivity |]. intros _.
  split; [exact Hc |]. split; [exact Hall | exact Hg].
Qed.

(** C3.  [download] sets [success] only at its end, so [success] is true
    exactly when it returned, and then the completion event is set and the
    checklist is full.  Once the wait is over and the workers are torn down
    (the state [s1], with no worker left), it raises "timed out" when the
    event is not set, else "incomplete: records missing" when the checklist
    is not full, and only otherwise sets [success]. *)
Theorem C3_success_needs_event_and_checklist :
  forall (env : session_env) (s : state),
    success (self s) = false ->
    let r := fst (download axes unpack_grib env s) in
    let s' := snd (download axes unpack_grib env s) in
    (success (self s') = true <-> r = Ok tt) /\
    (success (self s') = true ->
     completed (self s') = true /\
     Checklist.all (_checklist (self s')) = true) /\
    forall addresses s1,
      dns env = Ok addresses ->
      0 <= deadline (cfg (self s)) - clock env ->
      (_add_files axes ;;
       _run_workers unpack_grib addresses
         (Time.total_seconds (deadline (cfg (self s)) - clock env))
         (schedule env)) s = (Ok tt, s1) ->
      _greenlets (self s1) = [] /\
      (completed (self s1) = false ->
       r = Raise (ValueError "timed out") /\ success (self s') = false) /\
      (completed (self s1) = true ->
       Checklist.all (_checklist (self s1)) = false ->
       r = Raise (ValueError "incomplete: records missing") /\
       success (self s') = false) /\
      (completed (self s1) = true ->
       Checklist.all (_checklist (self s1)) = true ->
       r = Ok tt /\ success (self s') = true).
Proof.
  intros env s Hs r s'.
  pose proof (download_success env s Hs) as Hd.
  subst r s'. destruct (download axes unpack_grib env s) as [r s'] eqn:E.
  simpl. destruct Hd as [Hiff Hok].
  split; [exact Hiff |].
  split; [intros H; apply Hiff in H; destruct (Hok H) as (? & ? & ?); auto |].
  intros addresses s1 Hdns Hdl Hrun.
  pose proof (download_verdict env s addresses s1 Hdns Hdl Hrun) as Hv.
  rewrite E in Hv.
  assert (Hs1 : success (self s1) = false).
  { pose proof (preserves_bind success _ _ add_files_preserves_success
                  (fun _ => run_workers_preserves_success addresses
                              (Time.total_seconds
                                 (deadline (cfg (self s)) - clock env))
                              (schedule env)) s) as Hp.
    rewrite Hrun in Hp. simpl in Hp. congruence. }
  split.
  { apply bind_inv_ok in Hrun as ([] & s0 & _ & Hrun).
    pose proof (run_workers_tears_down addresses
                  (Time.total_seconds (deadline (cfg (self s)) - clock env))
                  (schedule env) s0) as Ht.
    rewrite Hrun in Ht. exact Ht. }
  destruct (completed (self s1)); simpl in Hv.
  - destruct (Checklist.all (_checklist (self s1))); simpl in Hv;
      injection Hv as -> ->; repeat split; intros; try discriminate; auto.
  - injection Hv as -> ->; repeat split; intros; try discriminate; auto.
Qed.

End SessionRun.

Lemma C3_success_witness :
  success (self Scenario.opened) = false /\
  success
    (self (snd (download Scenario.axes Scenario.unpack_grib Scenario.serving
                  Scenario.opened))) = true /\
  fst (download Scenario.axes Scenario.unpack_grib Scenario.serving
         Scenario.opened) = Ok tt.
Proof.
  split; [reflexivity |].
  split; [reflexivity |].
  apply (proj1 (C3_success_needs_event_and_checklist Scenario.axes
                  Scenario.unpack_grib Scenario.serving Scenario.opened
                  eq_refl)).
  reflexivity.
Defined.

(** ** Closing the session (C8) *)

(** The steps of [close] that only touch the filesystem. *)
Lemma move_file_preserves {A} (f : downloader -> A) suffix :
  preserves f (_move_file suffix).
Proof. unfold _move_file, tmp_filename. preserves_auto. Qed.

Lemma delete_file_preserves {A} (f : downloader -> A) suffix :
  preserves f (_delete_file suffix).
Proof. unfold _delete_file, tmp_filename. preserves_auto. Qed.

Lemma remove_download_directory_preserves {A} (f : downloader -> A) :
  preserves f _remove_download_directory.
Proof. unfold _remove_download_directory. preserves_auto. Qed.

(** On a session whose writers and temporary directory are gone, [close]
    does nothing. *)
Lemma close_nothing_left move_files s :
  _dataset (self s) = None ->
  _gribmirror (self s) = None ->
  _tmp_directory (self s) = None ->
  close move_files s = (Ok tt, s).
Proof.
  intros Hd Hg Ht. unfold close. unfold_monad. simpl.
  rewrite Hd, Hg, Ht. destruct s. reflexivity.
Qed.

Lemma preserves_run {A B} (f : downloader -> A) (m : M state B) s r s' :
  preserves f m -> m s = (r, s') -> f (self s') = f (self s).
Proof. intros H E. specialize (H s). rewrite E in H. exact H. Qed.

Lemma close_tail_preserves {A} (f : downloader -> A) (move_files : bool) suffix :
  preserves f (if move_files then _move_file suffix else _delete_file suffix).
Proof.
  destruct move_files; [apply move_file_preserves | apply delete_file_preserves].
Qed.

(** When [close] returns, the writers and the temporary directory are gone. *)
Lemma close_leaves_nothing move_files s s' :
  close move_files s = (Ok tt, s') ->
  _dataset (self s') = None /\
  _gribmirror (self s') = None /\
  _tmp_directory (self s') = None.
Proof.
  unfold close. intros H.
  apply bind_inv_ok in H as (ok & s0 & Hget & H).
  apply bind_inv_ok in H as (ds & s1 & Hds & H).
  apply bind_inv_ok in H as ([] & s2 & Hblock1 & H).
  apply bind_inv_ok in H as (gm & s3 & Hgm & H).
  apply bind_inv_ok in H as ([] & s4 & Hblock2 & H).
  apply bind_inv_ok in H as (tmp & s5 & Htmp & H).
  unfold get, gets in Hget, Hds, Hgm, Htmp.
  injection Hget as <- <-. injection Hds as <- <-.
  injection Hgm as <- <-. injection Htmp as <- <-.
  set (mv := match move_files with Some b => b | None => success (self s) end) in *.
  (* the Dataset writer *)
  assert (H1 : _dataset (self s2) = None).
  { destruct (_dataset (self s)) as [h |] eqn:E.
    - apply bind_inv_ok in Hblock1 as ([] & sa & Ha & Hblock1).
      apply bind_inv_ok in Hblock1 as ([] & sb & Hb & Hblock1).
      rewrite (preserves_run _ _ _ _ _ (close_tail_preserves _dataset mv "") Hblock1).
      unfold set, modify in Hb. injection Hb as <-. reflexivity.
    - injection Hblock1 as <-. exact E. }
  (* the grib mirror *)
  assert (H2 : _dataset (self s4) = None /\ _gribmirror (self s4) = None).
  { destruct (_gribmirror (self s2)) as [h |] eqn:E.
    - apply bind_inv_ok in Hblock2 as ([] & sa & Ha & Hblock2).
      apply bind_inv_ok in Hblock2 as ([] & sb & Hb & Hblock2).
      rewrite (preserves_run _ _ _ _ _
                 (close_tail_preserves _dataset mv SUFFIX_GRIBMIRROR) Hblock2).
      rewrite (preserves_run _ _ _ _ _
                 (close_tail_preserves _gribmirror mv SUFFIX_GRIBMIRROR) Hblock2).
      unfold set, modify in Hb. injection Hb as <-. simpl.
      rewrite (preserves_run _dataset _ _ _ _ (preserves_sys _ _) Ha).
      split; [exact H1 | reflexivity].
    - injection Hblock2 as <-. split; [exact H1 | exact E]. }
  (* the temporary directory *)
  destruct H2 as [H2 H3].
  destruct (_tmp_directory (self s4)) as [dir |] eqn:E.
  - apply bind_inv_ok in H as ([] & sa & Ha & H).
    unfold set, modify in H. injection H as <-. simpl.
    rewrite (preserves_run _ _ _ _ _
               (remove_download_directory_preserves _dataset) Ha).
    rewrite (preserves_run _ _ _ _ _
               (remove_download_directory_preserves _gribmirror) Ha).
    auto.
  - injection H as <-. auto.
Qed.

(** C8.  Once [close] has returned, a further [close], whatever its
    [move_files], returns at once and leaves the session and the world as
    they are: it adds no effect to the trace (no rename, unlink, directory
    removal or writer close) and the filesystem is unchanged.  This holds
    whether the first [close] moved the files or deleted them. *)
Theorem C8_close_is_idempotent :
  forall (move_files again : option bool) (s s' : state),
    close move_files s = (Ok tt, s') ->
    close again s' = (Ok tt, s') /\
    trace (os (snd (close again s'))) = trace (os s') /\
    fs (os (snd (close again s'))) = fs (os s').
Proof.
  intros move_files again s s' H.
  destruct (close_leaves_nothing _ _ _ H) as (Hd & Hg & Ht).
  rewrite (close_nothing_left again s' Hd Hg Ht). auto.
Qed.

Lemma C8_close_twice_witness :
  (* after a successful session: the files were moved *)
  close None (snd (close None Scenario.served))
  = (Ok tt, snd (close None Scenario.served)) /\
  (* after a failed session: the files were deleted *)
  close None (snd (close None Scenario.failed))
  = (Ok tt, snd (close None Scenario.failed)).
Proof.
  assert (Hs : close None Scenario.served
               = (Ok tt, snd (close None Scenario.served)))
    by (vm_compute; reflexivity).
  assert (Hf : close None Scenario.failed
               = (Ok tt, snd (close None Scenario.failed)))
    by (vm_compute; reflexivity).
  split.
  - exact (proj1 (C8_close_is_idempotent None None _ _ Hs)).
  - exact (proj1 (C8_close_is_idempotent None None _ _ Hf)).
Defined.

(** ** The per-file temporary file (C10) *)

(** Reading the body only appends to the trace and keeps the file. *)
Lemma read_body_keeps_file f chunks ending w :
  exists mid,
    trace (snd (read_body f chunks ending w)) = (trace w ++ mid)%list /\
    (is_Some (fs w !! f) -> is_Some (fs (snd (read_body f chunks ending w)) !! f)).
Proof.
  revert w. induction chunks as [| d chunks IH]; intros w; simpl.
  - exists []. destruct ending; simpl; rewrite app_nil_r; auto.
  - destruct (String.eqb d ""); simpl.
    + exists []. rewrite app_nil_r. auto.
    + unfold OS.write, OS.emit, OS.set_fs. unfold_monad. simpl.
      match goal with
      | |- context [read_body f chunks ending ?w1] =>
          destruct (IH w1) as (mid & Htr & Hfs)
      end.
      exists (EWrite f d :: mid). split.
      * rewrite Htr. simpl. rewrite <- app_assoc. reflexivity.
      * intros Hsome. apply Hfs. simpl.
        destruct (fs w !! f) as [c |] eqn:E.
        -- rewrite lookup_insert_eq. eauto.
        -- rewrite E. exact Hsome.
Qed.

Section TempFile.

Variable unpack_grib : string -> Z -> Checklist.t -> result unit * Checklist.t.

(** C10.  An attempt either never opens its temporary file, and then raises
    having done nothing to the filesystem; or it opens
    [tmp_directory/<filename>], and then unlinking that file is the last
    thing it does, whether it returns or raises (a broken stream, a failing
    [unpack_grib], the per-file timeout or a kill while reading), and the
    file is not there when it ends. *)
Theorem C10_temp_file_is_unlinked :
  forall (host tmp_directory : string) (resp : response) (hour : Z)
         (filename : string) (a : attempt),
    let temp_file := Child tmp_directory filename in
    let r := fst (_download_file unpack_grib host (Some tmp_directory) resp
                    hour filename a) in
    let a' := snd (_download_file unpack_grib host (Some tmp_directory) resp
                     hour filename a) in
    (exists mid,
       trace (at_os a')
       = (trace (at_os a) ++ EOpen temp_file :: mid ++ [EUnlink temp_file])%list /\
       fs (at_os a') !! temp_file = None)
    \/
    (trace (at_os a') = trace (at_os a) /\
     fs (at_os a') = fs (at_os a) /\
     exists e, r = Raise e).
Proof.
  intros host tmp_directory resp hour filename [c cl [f ds tr]] temp_file r a'.
  subst r a'.
  assert (Hgen : forall (a0 : attempt) (r1 : result unit) (a1 : attempt),
    at_os a0 = World f ds tr ->
    (status <- of_result (resp_status resp) ;;
     if status =? 404 then raise NotFound
     else if negb (status =? 200) then raise (StatusError status)
     else
       r <- outcome (on_os (OS.open_write temp_file)) ;;
       try_finally
         (of_result r ;;
          try_finally
            (on_os (read_body temp_file (resp_body resp) (resp_end resp)))
            (on_os (OS.close_file temp_file)) ;;
          run_unpack_grib unpack_grib temp_file hour)
         (when (is_ok r) (on_os (OS.unlink temp_file)))) a0 = (r1, a1) ->
    (exists mid,
       trace (at_os a1)
       = (tr ++ EOpen temp_file :: mid ++ [EUnlink temp_file])%list /\
       fs (at_os a1) !! temp_file = None)
    \/
    (trace (at_os a1) = tr /\ fs (at_os a1) = f /\ exists e, r1 = Raise e)).
  { intros [c0 cl0 w0] r1 a1 Hos E. simpl in Hos. subst w0.
    unfold of_result in E. revert E.
    destruct (resp_status resp) as [status | e]; intros E.
    2: { simpl in E. injection E as <- <-. right. simpl. eauto. }
    unfold bind at 1 in E. unfold ret at 1 in E.
    revert E. destruct (status =? 404); intros E;
      [simpl in E; injection E as <- <-; right; simpl; eauto |].
    revert E. destruct (negb (status =? 200)); intros E;
      [simpl in E; injection E as <- <-; right; simpl; eauto |].
    unfold outcome, on_os, OS.open_write, OS.exists_dir in E.
    unfold bind at 1 in E. unfold bind at 1 in E. unfold gets at 1 in E.
    simpl at_os in E. simpl dirs in E.
    revert E.
    match goal with
    | |- context [@bool_decide ?P ?d] => destruct (@bool_decide P d)
    end; intros E.
    2: { unfold_monad. unfold try_finally in E. simpl in E.
         injection E as <- <-. right. simpl. eauto. }
    left. unfold OS.emit, OS.set_fs, try_finally, when in E.
    unfold_monad. simpl in E.
    destruct (read_body_keeps_file temp_file (resp_body resp) (resp_end resp)
                (World (<[temp_file:=""]> f) ds (tr ++ [EOpen temp_file])))
      as (mid & Htr & Hfs).
    revert E.
    destruct (read_body temp_file (resp_body resp) (resp_end resp) _)
      as [rb w2]. intros E. simpl in Htr, Hfs.
    assert (Hin : is_Some (fs w2 !! temp_file)).
    { apply Hfs. rewrite lookup_insert_eq. eauto. }
    unfold run_unpack_grib, OS.unlink, OS.close_file, OS.exists_file, OS.emit,
      OS.set_fs in E.
    unfold_monad. simpl in E.
    exists (mid ++ [ECloseFile temp_file])%list.
    destruct rb as [[] | e]; simpl in E.
    - revert E. destruct (unpack_grib _ _ _) as [ru cu]; intros E; simpl in E.
      rewrite (bool_decide_eq_true_2 _ Hin) in E. simpl in E.
      injection E as <- <-. simpl.
      split; [| apply lookup_delete_eq].
      rewrite Htr, <- !app_assoc. reflexivity.
    - rewrite (bool_decide_eq_true_2 _ Hin) in E. simpl in E.
      injection E as <- <-. simpl.
      split; [| apply lookup_delete_eq].
      rewrite Htr, <- !app_assoc. reflexivity. }
  destruct (_download_file _ _ _ _ _ _ _) as [r1 a1] eqn:E. simpl.
  unfold _download_file in E. fold temp_file in E.
  unfold bind at 1 in E. unfold modify at 1 in E.
  eapply Hgen in E; [| destruct c; reflexivity].
  destruct E as [H | (H1 & H2 & H3)]; [left; exact H | right; auto].
Qed.

End TempFile.

(** A stream that breaks in mid-read: the attempt raises, and the last
    thing it did was to unlink its temporary file. *)
Example broken_stream_unlinks :
  let '(r, a) :=
    _download_file Scenario.unpack_grib "10.0.0.1"
      (Some "datasets/download.XYZ") Scenario.broken 0 "gfs.t06z.pgrb2f00"
      (Attempt None ∅ (os Scenario.opened)) in
  r = Raise (NetworkError "Connection reset by peer") /\
  last (trace (at_os a))
  = Some (EUnlink (Child "datasets/download.XYZ" "gfs.t06z.pgrb2f00")) /\
  fs (at_os a) !! Child "datasets/download.XYZ" "gfs.t06z.pgrb2f00" = None.
Proof. vm_compute. repeat split. Qed.

(** ** The count of completed files (C6) *)

Lemma in_flight_nonneg ws : 0 <= in_flight ws.
Proof.
  induction ws as [| w ws IH]; simpl; [lia |].
  unfold holding. destruct (current w); lia.
Qed.

Lemma in_flight_alter (f : worker -> worker) ws i w :
  ws !! i = Some w ->
  in_flight (alter f i ws) = in_flight ws - holding w + holding (f w).
Proof.
  revert i. induction ws as [| x ws IH]; intros i H; [discriminate |].
  destruct i as [| i].
  - simpl in *. injection H as ->. lia.
  - change (alter f (S i) (x :: ws)) with (x :: alter f i ws).
    cbn [in_flight]. rewrite (IH i H). lia.
Qed.

Lemma in_flight_app ws ws' : in_flight (ws ++ ws') = in_flight ws + in_flight ws'.
Proof. induction ws as [| w ws IH]; simpl; [reflexivity | rewrite IH; lia]. Qed.

Lemma take_min_length x q :
  length (snd (PriorityQueue.take_min x q)) = length q.
Proof.
  revert x. induction q as [| y q IH]; intros x; simpl; [reflexivity |].
  specialize (IH y). destruct (PriorityQueue.take_min y q) as [m rest].
  simpl in IH. destruct (request_leb x m); simpl; lia.
Qed.

Lemma get_qsize q req q' :
  PriorityQueue.get q = Some (req, q') ->
  PriorityQueue.qsize q = PriorityQueue.qsize q' + 1.
Proof.
  unfold PriorityQueue.get, PriorityQueue.qsize.
  destruct q as [| x q]; [discriminate |].
  intros [= H]. pose proof (take_min_length x q) as L.
  rewrite H in L. simpl in *. lia.
Qed.

Section Accounting.

Variable unpack_grib : string -> Z -> Checklist.t -> result unit * Checklist.t.

Lemma worker_take_accounted i now s w :
  _greenlets (self s) !! i = Some w ->
  current w = None ->
  accounted (self s) ->
  fst (worker_take i now s) = Ok tt /\
  accounted (self (snd (worker_take i now s))) /\
  event_effect (self s) (self (snd (worker_take i now s))).
Proof.
  intros Hw Hc (Hnn & Hsum & Hiff).
  unfold worker_take, _connection_close, update_worker. unfold_monad. simpl.
  destruct (PriorityQueue.get (_files (self s))) as [[req q'] |] eqn:Hq; simpl.
  2: { repeat split; auto; try tauto. }
  apply get_qsize in Hq.
  assert (Hh : holding w = 0) by (unfold holding; rewrite Hc; reflexivity).
  destruct (0 <? fr_sleep_until req - now); simpl;
    unfold accounted, event_effect; simpl;
    rewrite ?list_alter_alter_eq, (in_flight_alter _ _ _ _ Hw);
    unfold holding at 2; simpl; (split; [reflexivity |]);
    (split; [split; [lia | split; [lia | exact Hiff]] | split; [reflexivity | left; reflexivity]]).
Qed.

Lemma in_flight_lookup ws i w :
  ws !! i = Some w -> holding w <= in_flight ws.
Proof.
  revert i. induction ws as [| x ws IH]; intros i H; [discriminate |].
  pose proof (in_flight_nonneg ws).
  assert (0 <= holding x) by (unfold holding; destruct (current x); lia).
  destruct i as [| i]; simpl in *.
  - injection H as ->. lia.
  - specialize (IH i H). lia.
Qed.

Lemma worker_finish_accounted i w req resp now s :
  _greenlets (self s) !! i = Some w ->
  current w = Some req ->
  accounted (self s) ->
  accounted
    (self (snd (dies_on_raise i
                  (worker_finish unpack_grib i w req resp now) s))) /\
  event_effect (self s)
    (self (snd (dies_on_raise i
                  (worker_finish unpack_grib i w req resp now) s))).
Proof.
  intros Hw Hc (Hnn & Hsum & Hiff).
  assert (Hh : holding w = 1) by (unfold holding; rewrite Hc; reflexivity).
  pose proof (in_flight_lookup _ _ _ Hw) as Hge.
  pose proof (in_flight_nonneg (_greenlets (self s))) as Hfl.
  assert (Hq : 0 <= PriorityQueue.qsize (_files (self s)))
    by (unfold PriorityQueue.qsize; lia).
  unfold dies_on_raise, worker_finish.
  destruct (worker_attempt unpack_grib i w req resp s) as [ra s1] eqn:Hat.
  destruct (worker_attempt_frame _ _ _ _ _ _ _ _ Hat)
    as (r' & c & cl & -> & Hs1).
  rewrite (bind_ok _ _ _ _ _ Hat).
  destruct s1 as [d1 w1]. simpl in Hs1. subst d1.
  unfold worker_after, _file_complete, put_file, _connection_close,
    update_worker.
  unfold_monad.
  destruct r' as [[] | e].
  - (* the file is complete *)
    simpl.
    assert (Hlt : files_complete (self s) < files_count (self s)) by lia.
    destruct (Z.eqb_spec (files_count (self s)) 0) as [Hz | _]; [lia |].
    destruct (Z.eqb_spec (files_complete (self s) + 1) (files_count (self s)))
      as [Heq | Hne]; simpl;
      unfold accounted, event_effect; simpl;
      rewrite ?list_alter_alter_eq, (in_flight_alter _ _ _ _ Hw), Hh;
      unfold holding; simpl.
    + split; [split; [lia | split; [lia | tauto]] |].
      split; [reflexivity | right; repeat split; lia].
    + split; [split; [lia | split; [lia |]] |].
      * split; [intros Hcp; apply Hiff in Hcp; lia | lia].
      * split; [reflexivity | right; repeat split; lia].
  - (* the attempt failed *)
    destruct e; simpl;
      repeat match goal with
             | |- context [if ?b then _ else _] => destruct b; simpl
             end;
      unfold accounted, event_effect, PriorityQueue.put, PriorityQueue.qsize
        in *;
      simpl;
      rewrite ?list_alter_alter_eq, ?(in_flight_alter _ _ _ _ Hw), ?Hh;
      unfold holding; simpl; rewrite ?Hc;
      (split;
       [split; [lia | split; [lia | exact Hiff]]
       | split; [reflexivity | left; reflexivity]]).
Qed.

Lemma event_effect_refl d : event_effect d d.
Proof. split; [reflexivity | left; reflexivity]. Qed.

Lemma dies_on_raise_ok i (m : M state unit) s :
  fst (m s) = Ok tt -> dies_on_raise i m s = m s.
Proof.
  unfold dies_on_raise. destruct (m s) as [[[] | e] s1]; simpl;
    [reflexivity | discriminate].
Qed.

(** An attempt that succeeds adds 1 to [files_complete]; one that fails adds
    nothing. *)
Lemma worker_finish_counts i w req resp now s :
  files_complete
    (self (snd (dies_on_raise i
                  (worker_finish unpack_grib i w req resp now) s)))
  = files_complete (self s)
    + match fst (worker_attempt unpack_grib i w req resp s) with
      | Ok (Ok _) => 1
      | _ => 0
      end.
Proof.
  unfold dies_on_raise, worker_finish.
  destruct (worker_attempt unpack_grib i w req resp s) as [ra s1] eqn:Hat.
  destruct (worker_attempt_frame _ _ _ _ _ _ _ _ Hat)
    as (r' & c & cl & -> & Hs1).
  rewrite (bind_ok _ _ _ _ _ Hat).
  destruct s1 as [d1 w1]. simpl in Hs1. subst d1.
  unfold worker_after, _file_complete, put_file, _connection_close,
    update_worker.
  unfold_monad.
  destruct r' as [[] | e].
  - simpl.
    destruct (files_complete (self s) + 1 =? files_count (self s)); simpl;
      destruct (files_count (self s) =? 0); reflexivity.
  - destruct e; simpl;
      repeat match goal with
             | |- context [if ?b then _ else _] => destruct b; simpl
             end;
      lia.
Qed.

(** Every scheduling event keeps the account. *)
Lemma run_event_accounted ev s :
  accounted (self s) ->
  accounted (self (snd (run_event unpack_grib ev s))) /\
  event_effect (self s) (self (snd (run_event unpack_grib ev s))).
Proof.
  intros Hacc.
  destruct (run_event unpack_grib ev s) as [r s'] eqn:E. simpl.
  unfold run_event in E. unfold bind at 1 in E. unfold get, gets in E.
  assert (Hsame : forall (r0 : result unit),
            (r0, s) = (r, s') ->
            accounted (self s') /\ event_effect (self s) (self s')).
  { intros r0 [= _ <-]. split; [exact Hacc | apply event_effect_refl]. }
  destruct ev as [i now | i resp now]; revert E;
    destruct (_greenlets (self s) !! i) as [w |] eqn:Hw;
    try (intros E; exact (Hsame _ E)).
  - destruct (dead w); simpl; [intros E; exact (Hsame _ E) |].
    destruct (current w) as [req |] eqn:Hc; simpl;
      [intros E; exact (Hsame _ E) |].
    destruct (worker_take_accounted i now s w Hw Hc Hacc) as (Hok & Ha & He).
    rewrite (dies_on_raise_ok _ _ _ Hok). intros E. rewrite E in *.
    split; assumption.
  - destruct (dead w); [intros E; exact (Hsame _ E) |].
    destruct (current w) as [req |] eqn:Hc; [| intros E; exact (Hsame _ E)].
    intros E.
    pose proof (worker_finish_accounted i w req resp now s Hw Hc Hacc) as H.
    rewrite E in H. exact H.
Qed.

Lemma for_each_seeds {B} (l : list B) (body : B -> M state unit) (k : Z) :
  (forall x s, fst (body x s) = Ok tt /\ seeds k s (snd (body x s))) ->
  forall s,
    fst (for_each l body s) = Ok tt /\
    seeds (k * Z.of_nat (length l)) s (snd (for_each l body s)).
Proof.
  intros Hbody. induction l as [| x l IH]; intros s.
  - simpl. unfold seeds. repeat split; lia.
  - cbn [for_each]. unfold bind.
    destruct (Hbody x s) as [Hok Hs].
    destruct (body x s) as [[[] | e] s1]; simpl in Hok, Hs; [| discriminate].
    destruct (IH s1) as [Hok' Hs']. split; [exact Hok' |].
    change (length (x :: l)) with (S (length l)).
    unfold seeds in *. intuition lia || congruence.
Qed.

(** Seeding the queue: two files for each hour of the axis. *)
Lemma add_files_seeds axes s :
  fst (_add_files axes s) = Ok tt /\
  seeds (2 * Z.of_nat (length (axes_hour axes))) s (snd (_add_files axes s)).
Proof.
  unfold _add_files. unfold bind at 1 3. unfold get, gets.
  cbv beta iota. apply for_each_seeds.
  intros hour s0. unfold seeds, PriorityQueue.qsize, PriorityQueue.put.
  unfold_monad. simpl. repeat split; lia.
Qed.

Lemma for_each_same_account {B} (l : list B) (body : B -> M state unit) :
  (forall x s, fst (body x s) = Ok tt /\ same_account s (snd (body x s))) ->
  forall s,
    fst (for_each l body s) = Ok tt /\
    same_account s (snd (for_each l body s)).
Proof.
  intros Hbody. induction l as [| x l IH]; intros s.
  - simpl. unfold same_account. repeat split; reflexivity.
  - cbn [for_each]. unfold bind.
    destruct (Hbody x s) as [Hok Hs].
    destruct (body x s) as [[[] | e] s1]; simpl in Hok, Hs; [| discriminate].
    destruct (IH s1) as [Hok' Hs']. split; [exact Hok' |].
    unfold same_account in *. intuition congruence.
Qed.

(** Spawning the workers: none of them holds a file. *)
Lemma spawn_idle addresses s :
  fst (spawn addresses s) = Ok tt /\
  same_account s (snd (spawn addresses s)).
Proof.
  unfold spawn. apply for_each_same_account.
  intros wa s0. unfold same_account. unfold_monad. simpl.
  rewrite in_flight_app. simpl. unfold holding. simpl.
  repeat split; lia.
Qed.

Lemma seeded_accounted axes addresses s :
  axes_hour axes <> [] ->
  fresh (self s) ->
  let s0 := snd ((_add_files axes ;; spawn addresses) s) in
  accounted (self s0) /\
  files_count (self s0) = 2 * Z.of_nat (length (axes_hour axes)).
Proof.
  intros Hne (Hfc & Hn & Hcp & Hq & Hg) s0. subst s0.
  destruct (add_files_seeds axes s) as [Hok (A1 & A2 & A3 & A4 & A5)].
  unfold bind.
  destruct (_add_files axes s) as [[[] | e] s1]; simpl in *; [| discriminate].
  destruct (spawn_idle addresses s1) as (Hok' & (S1 & S2 & S3 & S4 & S5)).
  assert (Hlen : 0 < Z.of_nat (length (axes_hour axes))).
  { destruct (axes_hour axes); [contradiction | simpl; lia]. }
  rewrite Hq in A2. rewrite A5, Hg in S5. simpl in *.
  unfold accounted. rewrite S1, S2, S3, S4, S5, A1, A2, A3, A4, Hn, Hfc, Hcp.
  unfold PriorityQueue.qsize. simpl.
  repeat split; try lia; intros; try discriminate; lia.
Qed.

(** C6.  While the workers of a session run, [files_count] stays what the
    seeding made it (two files per hour of the axis), [files_complete] is
    between 0 and [files_count], and the completion event is set exactly
    when [files_complete] equals [files_count].  Each scheduling event
    leaves [files_complete] as it is or adds exactly 1 to it, and when it
    adds 1 the file that completed has left its worker and is not put back
    on the queue; the end of an attempt adds 1 when the attempt succeeded and
    nothing when it failed.  The hour axis is not empty. *)
Theorem C6_files_complete_is_bounded_and_signals :
  forall (axes : Dataset_axes) (addresses : list string) (s_init s : state),
    axes_hour axes <> [] ->
    fresh (self s_init) ->
    session_reaches unpack_grib
      (snd ((_add_files axes ;; spawn addresses) s_init)) s ->
    files_count (self s) = 2 * Z.of_nat (length (axes_hour axes)) /\
    0 <= files_complete (self s) <= files_count (self s) /\
    (completed (self s) = true <->
     files_complete (self s) = files_count (self s)) /\
    (forall ev,
       event_effect (self s) (self (snd (run_event unpack_grib ev s)))) /\
    (forall i w req resp now,
       _greenlets (self s) !! i = Some w ->
       dead w = false ->
       current w = Some req ->
       files_complete (self (snd (run_event unpack_grib (Finish i resp now) s)))
       = files_complete (self s)
         + match fst (worker_attempt unpack_grib i w req resp s) with
           | Ok (Ok _) => 1
           | _ => 0
           end).
Proof.
  intros axes addresses s_init s Hne Hfresh Hreach.
  assert (Hinv : accounted (self s) /\
                 files_count (self s)
                 = 2 * Z.of_nat (length (axes_hour axes))).
  { induction Hreach as [| s ev r s' _ IH Hev].
    - apply seeded_accounted; assumption.
    - destruct IH as [Hacc Hn].
      destruct (run_event_accounted ev s Hacc) as [Hacc' (Hc & _)].
      rewrite Hev in Hacc', Hc. simpl in *. split; [exact Hacc' | lia]. }
  destruct Hinv as [Hacc Hn].
  split; [exact Hn |].
  pose proof Hacc as (Hnn & Hsum & Hiff).
  pose proof (in_flight_nonneg (_greenlets (self s))).
  assert (0 <= PriorityQueue.qsize (_files (self s)))
    by (unfold PriorityQueue.qsize; lia).
  split; [lia |]. split; [exact Hiff |].
  split; [intros ev; apply run_event_accounted; exact Hacc |].
  intros i w req resp now Hw Hd Hc.
  rewrite <- worker_finish_counts with (now := now). f_equal. f_equal.
  unfold run_event. unfold bind at 1. unfold get, gets.
  rewrite Hw, Hd, Hc. reflexivity.
Qed.

(** The states that [wait] goes through are of this kind. *)
Lemma wait_reaches sched s0 s :
  session_reaches unpack_grib s0 s ->
  session_reaches unpack_grib s0 (snd (wait unpack_grib sched s)).
Proof.
  revert s. induction sched as [| ev sched IH]; intros s Hs; simpl.
  - destruct (completed (self s)); exact Hs.
  - destruct (completed (self s)); [exact Hs |].
    destruct (run_event unpack_grib ev s) as [[[] | e] s1] eqn:E; simpl.
    + apply IH. eapply reaches_event; eassumption.
    + eapply reaches_event; eassumption.
Qed.

End Accounting.

Lemma C6_files_complete_witness :
  axes_hour Scenario.axes <> [] /\
  files_count (self Scenario.working) = 4 /\
  0 <= files_complete (self Scenario.working)
    <= files_count (self Scenario.working).
Proof.
  split; [discriminate |].
  assert (Hfresh : fresh (self Scenario.opened))
    by (repeat split; vm_compute; reflexivity).
  assert (Hreach :
    session_reaches Scenario.unpack_grib
      (snd ((_add_files Scenario.axes ;; spawn ["10.0.0.1"]) Scenario.opened))
      Scenario.working).
  { eapply reaches_event; [apply reaches_start |].
    instantiate (1 := Ok tt). instantiate (1 := Take 0 Scenario.published).
    vm_compute. reflexivity. }
  destruct (C6_files_complete_is_bounded_and_signals Scenario.unpack_grib
              Scenario.axes ["10.0.0.1"] Scenario.opened Scenario.working
              ltac:(discriminate) Hfresh Hreach) as (Hn & Hb & _).
  split; [exact Hn | exact Hb].
Defined.

(** * Further properties *)

(** ** The daemon's targets *)

(** [_latest_dataset] lands on a point of the 6-hour grid: the last one at
    or before [now - 3 h 30 min]. *)
Lemma latest_dataset_grid_point now :
  exists k,
    _latest_dataset now = 6 * Time.hour * k /\
    6 * Time.hour * k <= now - Time.timedelta 3 30 < 6 * Time.hour * (k + 1).
Proof.
  unfold _latest_dataset, Time.hour_of.
  set (l0 := now - Time.timedelta 3 30).
  unfold Time.hour, Time.minute, Time.second in *.
  change (60 * (60 * 1000000)) with 3600000000.
  change (6 * 3600000000) with 21600000000.
  set (l1 := l0 - l0 mod 3600000000).
  set (q := l1 / 3600000000) in *.
  assert (Hq : l1 = 3600000000 * q).
  { subst q l1. Z.to_euclidean_division_equations. lia. }
  assert (Hm : (q mod 24) mod 6 = q mod 6).
  { Z.to_euclidean_division_equations. lia. }
  replace (q mod 24 - (q mod 24 - q mod 24 mod 6)) with (q mod 6) by lia.
  assert (Hl : l1 <= l0 < l1 + 3600000000).
  { subst l1. Z.to_euclidean_division_equations. lia. }
  exists (q / 6). rewrite Hq in *.
  split; Z.to_euclidean_division_equations; lia.
Qed.

(** A point of the 6-hour grid passes the assertions of
    [DatasetDownloader.__init__]. *)
Lemma grid_point_accepted k :
  Time.hour_of (6 * Time.hour * k) ∈ [0; 6; 12; 18] /\
  Time.on_the_hour (6 * Time.hour * k) = true /\
  (6 * Time.hour * k) mod (6 * Time.hour) = 0.
Proof.
  unfold Time.on_the_hour, Time.hour_of, Time.hour, Time.minute, Time.second.
  change (60 * (60 * 1000000)) with 3600000000.
  change (6 * 3600000000) with 21600000000.
  assert (Hh : (21600000000 * k / 3600000000) mod 24 = 6 * (k mod 4)).
  { Z.to_euclidean_division_equations. lia. }
  split; [| split].
  - rewrite Hh.
    assert (Hr : 0 <= k mod 4 < 4) by (apply Z.mod_pos_bound; lia).
    assert (Hc : k mod 4 = 0 \/ k mod 4 = 1 \/ k mod 4 = 2 \/ k mod 4 = 3)
      by lia.
    destruct Hc as [-> | [-> | [-> | ->]]]; simpl; repeat constructor.
  - apply Z.eqb_eq. Z.to_euclidean_division_equations. lia.
  - Z.to_euclidean_division_equations. lia.
Qed.

(** The dataset-time that [_latest_dataset] picks lies on the 6-hour grid,
    is the last grid point at or before [now - 3 h 30 min], and passes the
    assertions of [DatasetDownloader.__init__]. *)
Theorem latest_dataset_on_grid :
  forall now : Z,
    let t := _latest_dataset now in
    t mod (6 * Time.hour) = 0 /\
    t <= now - Time.timedelta 3 30 < t + 6 * Time.hour /\
    Time.hour_of t ∈ [0; 6; 12; 18] /\
    Time.on_the_hour t = true.
Proof.
  intros now t. subst t.
  destruct (latest_dataset_grid_point now) as (k & -> & Hlast).
  destruct (grid_point_accepted k) as (Hhour & Hzero & Hgrid).
  split; [exact Hgrid |].
  split; [| split; [exact Hhour | exact Hzero]].
  unfold Time.hour, Time.minute, Time.second in *. lia.
Qed.

(** The first target of [run]: never older than the latest publishable
    dataset, strictly newer than the newest dataset retained, and on the
    6-hour grid when the retained one is. *)
Theorem run_start_target :
  forall (dm : daemon) (now : Z) (w w' : world) (last : option Z),
    clean_directory dm w = (Ok last, w') ->
    exists n,
      run_start dm now w = (Ok n, w') /\
      _latest_dataset now <= n /\
      (last = None -> n = _latest_dataset now) /\
      (forall l, last = Some l ->
         l < n /\
         (l mod (6 * Time.hour) = 0 -> n mod (6 * Time.hour) = 0)).
Proof.
  intros dm now w w' last Hc. unfold run_start.
  rewrite (bind_ok _ _ _ _ _ Hc).
  assert (Hgrid : _latest_dataset now mod (6 * Time.hour) = 0).
  { destruct (latest_dataset_grid_point now) as (k & -> & _).
    apply grid_point_accepted. }
  destruct last as [l |].
  - destruct (Z.ltb_spec l (_latest_dataset now)).
    + eexists. split; [reflexivity |]. split; [lia |].
      split; [discriminate |]. intros l' [= <-]. split; [lia | auto].
    + eexists. split; [reflexivity |].
      unfold Time.timedelta, Time.hour, Time.minute, Time.second in *.
      split; [lia |]. split; [discriminate |]. intros l' [= <-].
      split; [lia |]. intros Hl.
      Z.to_euclidean_division_equations. lia.
  - eexists. split; [reflexivity |]. split; [lia |].
    split; [reflexivity | discriminate].
Qed.

Section DaemonTargets.

Variable axes : Dataset_axes.
Variable unpack_grib : string -> Z -> Checklist.t -> result unit * Checklist.t.

(** The daemon's first target is accepted by [DatasetDownloader.__init__]
    when nothing is retained: the constructor called by [_download] returns a
    session object. *)
Theorem latest_dataset_is_constructible :
  forall (dir : string) (now now' : Z),
    exists d,
      DatasetDownloader_default axes dir (_latest_dataset now) now' = Ok d /\
      ds_time (cfg d) = _latest_dataset now.
Proof.
  intros dir now now'.
  destruct (latest_dataset_grid_point now) as (k & Hk & _).
  destruct (grid_point_accepted k) as (Hh & Hm & _).
  rewrite <- Hk in Hh, Hm.
  unfold DatasetDownloader_default, DatasetDownloader.
  rewrite (bool_decide_eq_true_2 _ Hh), Hm. simpl.
  eexists. split; reflexivity.
Qed.

(** A dataset-time off the 6-hour grid: the constructor's assertion fails
    inside the [try], the handler logs it, and [d.close()] in the [finally]
    block then raises on the unbound [d].  [_download] raises
    [UnboundLocalError] and nothing was done. *)
Theorem download_off_grid_is_unbound_error :
  forall (dm : daemon) (env : cycle_env) (t : Z) (w : world),
    t mod (6 * Time.hour) <> 0 ->
    _download axes unpack_grib dm env t w = (Raise UnboundLocalError, w).
Proof.
  intros dm env t w Hoff. unfold _download.
  destruct (DatasetDownloader_default axes (d_directory dm) t (init_now env))
    as [d |] eqn:E; [| reflexivity].
  exfalso. apply Hoff. revert E.
  unfold DatasetDownloader_default, DatasetDownloader.
  destruct (bool_decide (Time.hour_of t ∈ [0; 6; 12; 18])) eqn:Hh;
    [| discriminate]. simpl.
  destruct (Time.on_the_hour t) eqn:Hm; [| discriminate]. intros _.
  apply bool_decide_eq_true in Hh. unfold Time.on_the_hour in Hm.
  apply Z.eqb_eq in Hm. unfold Time.hour_of in Hh.
  unfold Time.hour, Time.minute, Time.second in *.
  change (60 * (60 * 1000000)) with 3600000000 in *.
  change (6 * 3600000000) with 21600000000.
  assert (Hc : (t / 3600000000) mod 24 = 0 \/ (t / 3600000000) mod 24 = 6 \/
               (t / 3600000000) mod 24 = 12 \/ (t / 3600000000) mod 24 = 18).
  { revert Hh. generalize ((t / 3600000000) mod 24). intros z Hz.
    repeat (apply elem_of_cons in Hz as [Hz | Hz]; [auto |]).
    inversion Hz. }
  clear Hh. Z.to_euclidean_division_equations. lia.
Qed.

End DaemonTargets.

Lemma run_start_target_witness :
  exists n,
    run_start Scenario.dm (Scenario.published + 1) Scenario.world0
    = (Ok n, snd (clean_directory Scenario.dm Scenario.world0)) /\
    _latest_dataset (Scenario.published + 1) <= n.
Proof.
  assert (Hc : clean_directory Scenario.dm Scenario.world0
               = (Ok None, snd (clean_directory Scenario.dm Scenario.world0)))
    by (vm_compute; reflexivity).
  destruct (run_start_target Scenario.dm (Scenario.published + 1)
              Scenario.world0 _ None Hc) as (n & Hrun & Hle & _).
  exists n. split; [exact Hrun | exact Hle].
Defined.

Lemma download_off_grid_witness :
  1 mod (6 * Time.hour) <> 0 /\
  _download Scenario.axes Scenario.unpack_grib Scenario.dm
    Scenario.silent_cycle 1 Scenario.world0
  = (Raise UnboundLocalError, Scenario.world0).
Proof.
  split; [discriminate |].
  apply (download_off_grid_is_unbound_error Scenario.axes Scenario.unpack_grib
           Scenario.dm Scenario.silent_cycle 1 Scenario.world0).
  discriminate.
Defined.

(** ** The retry queue *)

Lemma request_leb_served a b :
  if request_leb a b then served_before a b else served_before b a.
Proof.
  unfold request_leb, request_compare, served_before.
  destruct (Z.compare_spec (fr_hour a) (fr_hour b)); [| left; lia | left; lia].
  destruct (Z.compare_spec (fr_sleep_until a) (fr_sleep_until b));
    [| right; lia | right; lia].
  destruct (String.compare (fr_filename a) (fr_filename b)); right; lia.
Qed.

Lemma served_before_trans a b c :
  served_before a b -> served_before b c -> served_before a c.
Proof. unfold served_before. lia. Qed.

Lemma served_before_refl a : served_before a a.
Proof. unfold served_before. lia. Qed.

Lemma take_min_least x q :
  let '(m, rest) := PriorityQueue.take_min x q in
  m :: rest ≡ₚ x :: q /\ forall y, y ∈ x :: q -> served_before m y.
Proof.
  revert x. induction q as [| y q IH]; intros x; simpl.
  - split; [reflexivity |]. intros z Hz.
    apply list_elem_of_singleton in Hz as ->. apply served_before_refl.
  - specialize (IH y). destruct (PriorityQueue.take_min y q) as [m rest].
    destruct IH as [Hperm Hleast].
    pose proof (request_leb_served x m) as Hxm.
    destruct (request_leb x m).
    + split; [rewrite Hperm; reflexivity |].
      intros z Hz. apply elem_of_cons in Hz as [-> | Hz].
      * apply served_before_refl.
      * eapply served_before_trans; [exact Hxm | apply Hleast, Hz].
    + split.
      * rewrite (Permutation_swap x m rest), Hperm. reflexivity.
      * intros z Hz. apply elem_of_cons in Hz as [-> | Hz];
          [exact Hxm | apply Hleast, Hz].
Qed.

(** [get] hands out an item of the queue that no other item precedes in
    (hour, sleep_until) order, and leaves exactly the other items: nothing is
    lost and nothing is added.  It blocks exactly on the empty queue. *)
Theorem queue_get_least :
  forall (q : PriorityQueue.t),
    match PriorityQueue.get q with
    | Some (m, rest) =>
        m :: rest ≡ₚ q /\ forall y, y ∈ q -> served_before m y
    | None => q = []
    end.
Proof.
  intros [| x q]; simpl; [reflexivity |].
  apply (take_min_least x q).
Qed.

(** ** What the workers leave alone *)

Section WorkerFrame.

Variable unpack_grib : string -> Z -> Checklist.t -> result unit * Checklist.t.

Context {A : Type} (f : downloader -> A).
Hypothesis Hf : untouched_by_workers f.

Ltac frame_step :=
  first
    [ apply preserves_ret
    | apply preserves_raise
    | apply preserves_get
    | apply preserves_sys
    | apply preserves_set; intros;
      destruct Hf as (H1 & H2 & H3 & H4 & H5 & H6 & H7);
      rewrite ?H1, ?H2, ?H3, ?H4, ?H5, ?H6, ?H7; reflexivity
    | apply preserves_when
    | apply preserves_for_each; intros
    | apply preserves_bind; [| intros]
    | match goal with
      | |- preserves _ (match ?x with _ => _ end) => destruct x
      end ].

Lemma add_files_frame axes : preserves f (_add_files axes).
Proof. unfold _add_files. repeat frame_step. Qed.

Lemma spawn_frame addresses : preserves f (spawn addresses).
Proof. unfold spawn. repeat frame_step. Qed.

Lemma worker_take_frame i now : preserves f (worker_take i now).
Proof.
  unfold worker_take, _connection_close, update_worker. repeat frame_step.
Qed.

Lemma worker_attempt_preserves i w req resp :
  preserves f (worker_attempt unpack_grib i w req resp).
Proof.
  intros s. unfold worker_attempt.
  destruct (_download_file _ _ _ _ _ _ _). simpl.
  destruct Hf as (H1 & H2 & H3 & H4 & H5 & H6 & H7).
  rewrite H2, H7. reflexivity.
Qed.

Lemma worker_finish_frame i w req resp now :
  preserves f (worker_finish unpack_grib i w req resp now).
Proof.
  unfold worker_finish. apply preserves_bind.
  - apply worker_attempt_preserves.
  - intros r. unfold worker_after, _file_complete, put_file,
      _connection_close, update_worker.
    repeat frame_step.
Qed.

Lemma dies_on_raise_frame i m :
  preserves f m -> preserves f (dies_on_raise i m).
Proof.
  intros H s. unfold dies_on_raise. specialize (H s).
  destruct Hf as (H1 & H2 & _).
  destruct (m s) as [[[] | e] s1]; simpl in *; rewrite ?H2; exact H.
Qed.

Lemma run_event_frame ev : preserves f (run_event unpack_grib ev).
Proof.
  unfold run_event. apply preserves_bind; [apply preserves_get |].
  intros ws. destruct ev as [i now | i resp now];
    destruct (ws !! i) as [w |]; try apply preserves_ret.
  - destruct (dead w || bool_decide (is_Some (current w)));
      [apply preserves_ret |].
    apply dies_on_raise_frame, worker_take_frame.
  - destruct (dead w); [apply preserves_ret |].
    destruct (current w) as [req |]; [| apply preserves_ret].
    apply dies_on_raise_frame, worker_finish_frame.
Qed.

Lemma wait_frame sched : preserves f (wait unpack_grib sched).
Proof.
  induction sched as [| ev sched IH]; intros s; simpl.
  - destruct (completed (self s)); reflexivity.
  - destruct (completed (self s)); [reflexivity |].
    pose proof (run_event_frame ev s) as Hev.
    destruct (run_event unpack_grib ev s) as [[[] | e] s1]; simpl in *.
    + rewrite (IH s1). exact Hev.
    + exact Hev.
Qed.

Lemma run_workers_frame addresses secs sched :
  preserves f (_run_workers unpack_grib addresses secs sched).
Proof.
  intros s. unfold _run_workers.
  assert (H : preserves f (spawn addresses ;; wait unpack_grib sched)).
  { apply preserves_bind; [apply spawn_frame | intros; apply wait_frame]. }
  specialize (H s).
  destruct ((spawn addresses ;; wait unpack_grib sched) s) as [r s1].
  simpl in *. destruct Hf as (_ & H2 & _). rewrite H2. exact H.
Qed.

Lemma session_reaches_frame s0 s :
  session_reaches unpack_grib s0 s -> f (self s) = f (self s0).
Proof.
  induction 1 as [| s ev r s' _ IH Hev]; [reflexivity |].
  pose proof (run_event_frame ev s) as H. rewrite Hev in H. simpl in H.
  congruence.
Qed.

End WorkerFrame.

Lemma cfg_untouched : untouched_by_workers cfg.
Proof. repeat split. Qed.

Lemma tmp_directory_untouched : untouched_by_workers _tmp_directory.
Proof. repeat split. Qed.

Lemma dataset_untouched : untouched_by_workers _dataset.
Proof. repeat split. Qed.

Lemma gribmirror_untouched : untouched_by_workers _gribmirror.
Proof. repeat split. Qed.

Lemma success_untouched : untouched_by_workers success.
Proof. repeat split. Qed.

(** ** Invariants of the workers' loop *)

Section WorkerInvariants.

Variable unpack_grib : string -> Z -> Checklist.t -> result unit * Checklist.t.

(** A relation between a state and the state after an event holds for
    every event as soon as it holds for no move, for a take and for the end
    of an attempt. *)
Lemma run_event_cases (P : state -> state -> Prop) ev s :
  P s s ->
  (forall i now w,
     _greenlets (self s) !! i = Some w -> dead w = false ->
     current w = None ->
     P s (snd (dies_on_raise i (worker_take i now) s))) ->
  (forall i resp now w req,
     _greenlets (self s) !! i = Some w -> dead w = false ->
     current w = Some req ->
     P s (snd (dies_on_raise i
                 (worker_finish unpack_grib i w req resp now) s))) ->
  P s (snd (run_event unpack_grib ev s)).
Proof.
  intros Hsame Htake Hfinish.
  destruct (run_event unpack_grib ev s) as [r s'] eqn:E. simpl.
  unfold run_event in E. unfold bind at 1 in E. unfold get, gets in E.
  assert (Hskip : forall (r0 : result unit), (r0, s) = (r, s') -> P s s').
  { intros r0 [= _ <-]. exact Hsame. }
  destruct ev as [i now | i resp now]; revert E;
    destruct (_greenlets (self s) !! i) as [w |] eqn:Hw;
    try (intros E; exact (Hskip _ E)).
  - destruct (dead w) eqn:Hd; simpl; [intros E; exact (Hskip _ E) |].
    destruct (current w) as [req |] eqn:Hc; simpl;
      [intros E; exact (Hskip _ E) |].
    intros E. specialize (Htake i now w Hw Hd Hc). rewrite E in Htake.
    exact Htake.
  - destruct (dead w) eqn:Hd; [intros E; exact (Hskip _ E) |].
    destruct (current w) as [req |] eqn:Hc; [| intros E; exact (Hskip _ E)].
    intros E. specialize (Hfinish i resp now w req Hw Hd Hc).
    rewrite E in Hfinish. exact Hfinish.
Qed.

Lemma reaches_invariant (I : state -> Prop) s0 s :
  I s0 ->
  (forall s ev, I s -> I (snd (run_event unpack_grib ev s))) ->
  session_reaches unpack_grib s0 s -> I s.
Proof.
  intros H0 Hstep. induction 1 as [| s ev r s' _ IH Hev]; [exact H0 |].
  specialize (Hstep s ev IH). rewrite Hev in Hstep. exact Hstep.
Qed.

Ltac open_finish Hat s :=
  unfold dies_on_raise, worker_finish;
  match goal with
  | |- context [worker_attempt ?u ?i ?w ?req ?resp] =>
      let ra := fresh "ra" in
      let s1 := fresh "s1" in
      destruct (worker_attempt u i w req resp s) as [ra s1] eqn:Hat;
      let r' := fresh "r'" in
      let c := fresh "c" in
      let cl := fresh "cl" in
      let Hs1 := fresh "Hs1" in
      destruct (worker_attempt_frame _ _ _ _ _ _ _ _ Hat)
        as (r' & c & cl & -> & Hs1);
      rewrite (bind_ok _ _ _ _ _ Hat);
      let d1 := fresh "d1" in
      let w1 := fresh "w1" in
      destruct s1 as [d1 w1]; simpl in Hs1; subst d1;
      unfold worker_after, _file_complete, put_file, _connection_close,
        update_worker;
      unfold_monad;
      destruct r' as [[] | []]; simpl;
      repeat match goal with
             | |- context [if ?b then _ else _] =>
                 let E := fresh "E" in destruct b eqn:E; simpl
             end
  end.

Ltac open_take :=
  unfold dies_on_raise, worker_take, _connection_close, update_worker;
  unfold_monad; simpl;
  match goal with
  | |- context [PriorityQueue.get ?q] =>
      let req := fresh "req" in
      let q' := fresh "q'" in
      let Hq := fresh "Hq" in
      destruct (PriorityQueue.get q) as [[req q'] |] eqn:Hq; simpl;
      [match goal with
       | |- context [0 <? ?d] =>
           let E := fresh "E" in destruct (0 <? d) eqn:E; simpl
       end |]
  end.

Lemma run_event_backoff ev s :
  backoff_bounded (self s) ->
  backoff_bounded (self (snd (run_event unpack_grib ev s))).
Proof.
  intros Hb. apply (run_event_cases (fun _ s' => backoff_bounded (self s'))).
  - exact Hb.
  - intros i now w Hw Hd Hc. open_take; unfold backoff_bounded in *; simpl;
      rewrite ?list_alter_alter_eq; try exact Hb;
      (apply Forall_alter; [exact Hb | intros x _ Hx; simpl; exact Hx]).
  - intros i resp now w req Hw Hd Hc.
    assert (Hbw : 0 <= server_sleep_backoff w
                  <= Z.max 10 (Z.log2_up (timeout (cfg (self s))) + 1)).
    { unfold backoff_bounded in Hb. rewrite Forall_lookup in Hb.
      exact (Hb i w Hw). }
    pose proof (Z.log2_up_nonneg (timeout (cfg (self s)))) as Hlog.
    pose proof (Z.le_log2_log2_up (timeout (cfg (self s)))) as Hle.
    open_finish Hat s; unfold backoff_bounded in *; simpl;
      rewrite ?list_alter_alter_eq;
      (apply Forall_alter; [exact Hb | intros x _ Hx; simpl; try lia]);
      try exact Hx.
Qed.

Lemma for_each_invariant {B} (I : state -> Prop) (l : list B)
    (body : B -> M state unit) :
  (forall x s, I s -> I (snd (body x s))) ->
  forall s, I s -> I (snd (for_each l body s)).
Proof.
  intros Hbody. induction l as [| x l IH]; intros s Hs; [exact Hs |].
  cbn [for_each]. unfold bind. specialize (Hbody x s Hs).
  destruct (body x s) as [[[] | e] s1]; simpl in *; [apply IH |]; exact Hbody.
Qed.

Lemma seeded_backoff_bounded axes addresses s :
  _greenlets (self s) = [] ->
  backoff_bounded (self (snd ((_add_files axes ;; spawn addresses) s))).
Proof.
  intros Hg.
  assert (H0 : backoff_bounded (self s))
    by (unfold backoff_bounded; rewrite Hg; constructor).
  assert (H1 : backoff_bounded (self (snd (_add_files axes s)))).
  { unfold _add_files. unfold bind at 1. unfold get, gets. cbv beta iota.
    apply (for_each_invariant (fun s => backoff_bounded (self s))); [| exact H0].
    intros hour s0 Hs0. unfold_monad. simpl. exact Hs0. }
  unfold bind. destruct (_add_files axes s) as [[[] | e] s1]; simpl in *;
    [| exact H1].
  unfold spawn.
  apply (for_each_invariant (fun s => backoff_bounded (self s))); [| exact H1].
  intros wa s0 Hs0. unfold backoff_bounded in *. unfold_monad. simpl.
  apply Forall_app. split; [exact Hs0 |]. constructor; [| constructor].
  simpl. pose proof (Z.log2_up_nonneg (timeout (cfg (self s0)))). lia.
Qed.

(** However long a session runs and whatever its attempts meet, the
    backoff exponent of every worker stays between 0 and the greater of 10
    and [ceil(log2(timeout)) + 1]; for the default timeout of 120 s no server
    sleep is longer than [2^10 = 1024] seconds.  This is for a timeout below
    [2^29] seconds, where the float logarithm of the code has the floor and
    the ceiling of the exact one. *)
Theorem backoff_stays_bounded :
  forall (axes : Dataset_axes) (addresses : list string) (s_init s : state),
    _greenlets (self s_init) = [] ->
    timeout (cfg (self s_init)) < 2 ^ 29 ->
    session_reaches unpack_grib
      (snd ((_add_files axes ;; spawn addresses) s_init)) s ->
    forall w,
      w ∈ _greenlets (self s) ->
      0 <= server_sleep_backoff w
      <= Z.max 10 (Z.log2_up (timeout (cfg (self s_init))) + 1) /\
      (timeout (cfg (self s_init)) = 120 ->
       2 ^ server_sleep_backoff w <= 1024).
Proof.
  intros axes addresses s_init s Hg _ Hreach w Hw.
  assert (Hb : backoff_bounded (self s)).
  { apply (reaches_invariant (fun s => backoff_bounded (self s)) _ _
             (seeded_backoff_bounded axes addresses s_init Hg)
             (fun s1 ev => run_event_backoff ev s1) Hreach). }
  assert (Hcfg : cfg (self s) = cfg (self s_init)).
  { rewrite (session_reaches_frame unpack_grib cfg cfg_untouched _ _ Hreach).
    apply (preserves_bind cfg _ _ (add_files_frame cfg cfg_untouched axes)
             (fun _ => spawn_frame cfg cfg_untouched addresses)). }
  unfold backoff_bounded in Hb. rewrite Forall_forall in Hb.
  specialize (Hb w Hw). rewrite Hcfg in Hb. split; [exact Hb |].
  intros E. rewrite E in Hb. change (Z.log2_up 120) with 7 in Hb.
  change 1024 with (2 ^ 10). apply Z.pow_le_mono_r; lia.
Qed.

Lemma run_event_first_file ev s :
  0 <= files_complete (self s) /\
  (have_first_file (self s) = true <-> 0 < files_complete (self s)) ->
  0 <= files_complete (self (snd (run_event unpack_grib ev s))) /\
  (have_first_file (self (snd (run_event unpack_grib ev s))) = true <->
   0 < files_complete (self (snd (run_event unpack_grib ev s)))).
Proof.
  intros [Hnn Hiff].
  apply (run_event_cases
           (fun _ s' =>
              0 <= files_complete (self s') /\
              (have_first_file (self s') = true <->
               0 < files_complete (self s')))).
  - split; assumption.
  - intros i now w Hw Hd Hc. open_take; split; assumption.
  - intros i resp now w req Hw Hd Hc.
    open_finish Hat s; (split; [lia |]);
      first [ exact Hiff
            | split; [intros _; lia | reflexivity]
            | intuition (congruence || lia) ].
Qed.

(** The first-file flag tells whether a file has completed: throughout the
    run of the workers [have_first_file] is true exactly when
    [files_complete] is positive, so a 404 is answered with
    [first_file_timeout] exactly as long as no file of the session has
    completed. *)
Theorem first_file_flag_counts :
  forall (axes : Dataset_axes) (addresses : list string) (s_init s : state),
    fresh (self s_init) ->
    have_first_file (self s_init) = false ->
    session_reaches unpack_grib
      (snd ((_add_files axes ;; spawn addresses) s_init)) s ->
    (have_first_file (self s) = true <-> 0 < files_complete (self s)).
Proof.
  intros axes addresses s_init s (Hfc & _) Hff Hreach.
  refine (proj2 (reaches_invariant
            (fun s => 0 <= files_complete (self s) /\
                      (have_first_file (self s) = true <->
                       0 < files_complete (self s)))
            _ _ _ (fun s1 ev => run_event_first_file ev s1) Hreach)).
  assert (E1 : files_complete
                 (self (snd ((_add_files axes ;; spawn addresses) s_init)))
               = files_complete (self s_init)).
  { apply (preserves_bind files_complete); [| intros _].
    - unfold _add_files. preserves_auto.
    - unfold spawn. preserves_auto. }
  assert (E2 : have_first_file
                 (self (snd ((_add_files axes ;; spawn addresses) s_init)))
               = have_first_file (self s_init)).
  { apply (preserves_bind have_first_file); [| intros _].
    - unfold _add_files. preserves_auto.
    - unfold spawn. preserves_auto. }
  rewrite E1, E2, Hfc, Hff. split; [lia |]. split; [discriminate | lia].
Qed.

(** The completion event is never cleared, and a worker never takes the
    session's success flag, its configuration, its writers or its temporary
    directory in hand: they are after every event what they were before. *)
Theorem workers_leave_session_outputs :
  forall (s0 s : state),
    session_reaches unpack_grib s0 s ->
    (completed (self s0) = true -> completed (self s) = true) /\
    success (self s) = success (self s0) /\
    cfg (self s) = cfg (self s0) /\
    _dataset (self s) = _dataset (self s0) /\
    _gribmirror (self s) = _gribmirror (self s0) /\
    _tmp_directory (self s) = _tmp_directory (self s0).
Proof.
  intros s0 s Hreach. split.
  - apply (reaches_invariant
             (fun s => completed (self s0) = true -> completed (self s) = true)
             s0 s (fun H => H)); [| exact Hreach].
    intros s1 ev IH Hc. specialize (IH Hc).
    apply (run_event_cases
             (fun _ s' => completed (self s') = true)).
    + exact IH.
    + intros i now w Hw Hd Hcur. open_take; exact IH.
    + intros i resp now w req Hw Hd Hcur.
      open_finish Hat s1; try exact IH; reflexivity.
  - repeat split.
    + apply (session_reaches_frame unpack_grib success success_untouched _ _ Hreach).
    + apply (session_reaches_frame unpack_grib cfg cfg_untouched _ _ Hreach).
    + apply (session_reaches_frame unpack_grib _dataset dataset_untouched _ _ Hreach).
    + apply (session_reaches_frame unpack_grib _gribmirror gribmirror_untouched _ _ Hreach).
    + apply (session_reaches_frame unpack_grib _tmp_directory
               tmp_directory_untouched _ _ Hreach).
Qed.

(** After an attempt that succeeded, in a session that counts at least one
    file, the worker does not put the file back: the queue is as it was,
    [files_complete] is one more, the first-file flag is set, the worker's
    backoff exponent is 0 and its server sleep is 0.  (With [files_count = 0]
    the progress log of [_file_complete] divides by zero and the worker
    dies; the workers of a session run after the queue is seeded, when
    [files_count] is twice the number of hours.) *)
Theorem success_completes_and_resets_backoff :
  forall (i : nat) (w : worker) (req : file_request) (resp : response)
         (now : Z) (s s1 : state),
    _greenlets (self s) !! i = Some w ->
    worker_attempt unpack_grib i w req resp s = (Ok (Ok tt), s1) ->
    files_count (self s) <> 0 ->
    exists s',
      worker_finish unpack_grib i w req resp now s = (Ok tt, s') /\
      _files (self s') = _files (self s) /\
      files_complete (self s') = files_complete (self s) + 1 /\
      have_first_file (self s') = true /\
      trace (os s') = (trace (os s1) ++ [ESleep 0])%list /\
      (exists w', _greenlets (self s') !! i = Some w' /\
                  server_sleep_backoff w' = 0 /\ current w' = None).
Proof.
  intros i w req resp now s s1 Hw Hat Hcount.
  destruct (worker_attempt_frame _ _ _ _ _ _ _ _ Hat) as (r' & c & cl & _ & Hs1).
  unfold worker_finish. rewrite (bind_ok _ _ _ _ _ Hat).
  destruct s1 as [d1 w1]. simpl in Hs1. subst d1.
  unfold worker_after, _file_complete, put_file, _connection_close,
    update_worker.
  unfold_monad. simpl.
  destruct (Z.eqb_spec (files_count (self s)) 0) as [Hz | _];
    [destruct (Hcount Hz) |].
  destruct (files_complete (self s) + 1 =? files_count (self s)); simpl;
    (eexists; split; [reflexivity |]; simpl;
     split; [reflexivity |]; split; [reflexivity |]; split; [reflexivity |];
     split; [reflexivity |];
     eexists; split;
     [rewrite !list_lookup_alter_eq, Hw; reflexivity | split; reflexivity]).
Qed.

(** After an attempt that failed with anything but 404, the per-file
    timeout or an exit (a bad status, a socket error, a file that
    [unpack_grib] rejects), the worker puts the file back with
    [not_before = 0], raises its backoff exponent by one unless it has
    reached 10, and sleeps [2^k] seconds for the new exponent [k]. *)
Theorem other_error_requeues_and_backs_off :
  forall (i : nat) (w : worker) (req : file_request) (resp : response)
         (now : Z) (s s1 : state) (e : exn),
    _greenlets (self s) !! i = Some w ->
    worker_attempt unpack_grib i w req resp s = (Ok (Raise e), s1) ->
    e <> NotFound -> e <> Timeout -> is_exit e = false ->
    let k := if server_sleep_backoff w <? 10 then server_sleep_backoff w + 1
             else server_sleep_backoff w in
    exists s',
      worker_finish unpack_grib i w req resp now s = (Ok tt, s') /\
      _files (self s')
      = PriorityQueue.put (FileRequest (fr_hour req) 0 (fr_filename req))
          (_files (self s)) /\
      files_complete (self s') = files_complete (self s) /\
      trace (os s') = (trace (os s1) ++ [ESleep (Time.seconds (2 ^ k))])%list /\
      (exists w', _greenlets (self s') !! i = Some w' /\
                  server_sleep_backoff w' = k /\ current w' = None).
Proof.
  intros i w req resp now s s1 e Hw Hat Hnf Hto Hex k.
  destruct (worker_attempt_frame _ _ _ _ _ _ _ _ Hat) as (r' & c & cl & _ & Hs1).
  unfold worker_finish. rewrite (bind_ok _ _ _ _ _ Hat).
  destruct s1 as [d1 w1]. simpl in Hs1. subst d1.
  unfold worker_after, _file_complete, put_file, _connection_close,
    update_worker.
  unfold_monad.
  destruct e; try contradiction; try discriminate Hex; simpl; fold k;
    (destruct (0 <? 2 ^ k); simpl;
     (eexists; split; [reflexivity |]; simpl;
      split; [reflexivity |]; split; [reflexivity |]; split; [reflexivity |];
      eexists; split;
      [rewrite !list_lookup_alter_eq, Hw; reflexivity | split; reflexivity])).
Qed.

End WorkerInvariants.

(** ** Runs of the concrete setting *)

Lemma pair_of_fst {A B} (p : A * B) (a : A) : fst p = a -> p = (a, snd p).
Proof. intros <-. apply surjective_pairing. Qed.

Lemma bind_chain_snd {S} (m1 m2 m3 m4 : M S unit) s :
  fst (m1 s) = Ok tt ->
  fst (m2 (snd (m1 s))) = Ok tt ->
  fst (m3 (snd (m2 (snd (m1 s))))) = Ok tt ->
  snd ((m1 ;; m2 ;; m3 ;; m4) s) = snd (m4 (snd ((m2 ;; m3) (snd (m1 s))))).
Proof.
  unfold bind. destruct (m1 s) as [r1 s1]. simpl. intros ->.
  destruct (m2 s1) as [r2 s2]. simpl. intros ->.
  destruct (m3 s2) as [r3 s3]. simpl. intros ->. reflexivity.
Qed.

Lemma working_is_reached :
  session_reaches Scenario.unpack_grib
    (snd ((_add_files Scenario.axes ;; spawn ["10.0.0.1"]) Scenario.opened))
    Scenario.working.
Proof.
  assert (E : Scenario.working
              = snd (run_event Scenario.unpack_grib (Take 0 Scenario.published)
                       (snd ((_add_files Scenario.axes ;; spawn ["10.0.0.1"])
                               Scenario.opened)))).
  { apply (bind_chain_snd (open "XYZ") (_add_files Scenario.axes)
             (spawn ["10.0.0.1"])
             (run_event Scenario.unpack_grib (Take 0 Scenario.published))
             Scenario.session0); vm_compute; reflexivity. }
  rewrite E. eapply reaches_event; [apply reaches_start |].
  apply surjective_pairing.
Qed.

Lemma working_worker :
  _greenlets (self Scenario.working) !! 0%nat = Some Scenario.worker0.
Proof. vm_compute. reflexivity. Qed.

Lemma backoff_stays_bounded_witness :
  0 <= server_sleep_backoff Scenario.worker0 <= 10 /\
  2 ^ server_sleep_backoff Scenario.worker0 <= 1024.
Proof.
  assert (Hg : _greenlets (self Scenario.opened) = [])
    by (vm_compute; reflexivity).
  assert (Hin : Scenario.worker0 ∈ _greenlets (self Scenario.working))
    by (apply list_elem_of_lookup; exists 0%nat; exact working_worker).
  assert (Ht : timeout (cfg (self Scenario.opened)) < 2 ^ 29)
    by (vm_compute; reflexivity).
  destruct (backoff_stays_bounded Scenario.unpack_grib Scenario.axes
              ["10.0.0.1"] Scenario.opened Scenario.working Hg Ht
              working_is_reached Scenario.worker0 Hin) as [Hb H120].
  split; [exact Hb | apply H120; vm_compute; reflexivity].
Defined.

Lemma first_file_flag_witness :
  have_first_file (self Scenario.working) = true <->
  0 < files_complete (self Scenario.working).
Proof.
  apply (first_file_flag_counts Scenario.unpack_grib Scenario.axes
           ["10.0.0.1"] Scenario.opened Scenario.working).
  - repeat split; vm_compute; reflexivity.
  - vm_compute. reflexivity.
  - exact working_is_reached.
Defined.

Lemma workers_leave_session_outputs_witness :
  _dataset (self Scenario.working)
  = _dataset
      (self (snd ((_add_files Scenario.axes ;; spawn ["10.0.0.1"])
                    Scenario.opened))) /\
  success (self Scenario.working) = false.
Proof.
  destruct (workers_leave_session_outputs Scenario.unpack_grib _ _
              working_is_reached) as (_ & Hs & _ & Hd & _).
  split; [exact Hd |]. rewrite Hs. vm_compute. reflexivity.
Defined.

Lemma success_completes_witness :
  exists s',
    worker_finish Scenario.unpack_grib 0 Scenario.worker0 Scenario.first_file
      Scenario.ok200 Scenario.published Scenario.working = (Ok tt, s') /\
    _files (self s') = _files (self Scenario.working) /\
    files_complete (self s') = files_complete (self Scenario.working) + 1.
Proof.
  assert (Hat : fst (worker_attempt Scenario.unpack_grib 0 Scenario.worker0
                       Scenario.first_file Scenario.ok200 Scenario.working)
                = Ok (Ok tt)) by (vm_compute; reflexivity).
  assert (Hcount : files_count (self Scenario.working) <> 0)
    by (vm_compute; discriminate).
  destruct (success_completes_and_resets_backoff Scenario.unpack_grib 0
              Scenario.worker0 Scenario.first_file Scenario.ok200
              Scenario.published Scenario.working _ working_worker
              (pair_of_fst _ _ Hat) Hcount)
    as (s' & Hrun & Hq & Hfc & _).
  exists s'. split; [exact Hrun |]. split; [exact Hq | exact Hfc].
Defined.

Lemma other_error_witness :
  exists s',
    worker_finish Scenario.unpack_grib 0 Scenario.worker0 Scenario.first_file
      Scenario.broken Scenario.published Scenario.working = (Ok tt, s') /\
    _files (self s')
    = PriorityQueue.put Scenario.first_file (_files (self Scenario.working)) /\
    (exists w', _greenlets (self s') !! 0%nat = Some w' /\
                server_sleep_backoff w' = 1 /\ current w' = None).
Proof.
  assert (Hat : fst (worker_attempt Scenario.unpack_grib 0 Scenario.worker0
                       Scenario.first_file Scenario.broken Scenario.working)
                = Ok (Raise (NetworkError "Connection reset by peer")))
    by (vm_compute; reflexivity).
  destruct (other_error_requeues_and_backs_off Scenario.unpack_grib 0
              Scenario.worker0 Scenario.first_file Scenario.broken
              Scenario.published Scenario.working _ _ working_worker
              (pair_of_fst _ _ Hat)
              ltac:(discriminate) ltac:(discriminate) eq_refl)
    as (s' & Hrun & Hq & _ & _ & Hw').
  exists s'. split; [exact Hrun |]. split; [exact Hq | exact Hw'].
Defined.

(** ** The session as a whole *)

Section SessionOutcomes.

Variable axes : Dataset_axes.
Variable unpack_grib : string -> Z -> Checklist.t -> result unit * Checklist.t.

Lemma run_event_no_workers ev s :
  _greenlets (self s) = [] -> run_event unpack_grib ev s = (Ok tt, s).
Proof.
  intros Hg. unfold run_event. unfold bind, get, gets. rewrite Hg.
  destruct ev; reflexivity.
Qed.

Lemma wait_no_workers sched s :
  _greenlets (self s) = [] -> wait unpack_grib sched s = (Ok tt, s).
Proof.
  intros Hg. induction sched as [| ev sched IH]; simpl.
  - destruct (completed (self s)); reflexivity.
  - destruct (completed (self s)); [reflexivity |].
    rewrite (run_event_no_workers ev s Hg). exact IH.
Qed.

(** When the host resolves to no address, no worker is spawned: whatever
    the schedule, [download] seeds the queue, waits, and raises "timed out";
    no file is fetched and nothing is done to the world. *)
Theorem no_address_times_out :
  forall (env : session_env) (s : state),
    dns env = Ok [] ->
    0 <= deadline (cfg (self s)) - clock env ->
    completed (self s) = false ->
    _greenlets (self s) = [] ->
    fst (download axes unpack_grib env s) = Raise (ValueError "timed out") /\
    os (snd (download axes unpack_grib env s)) = os s /\
    files_complete (self (snd (download axes unpack_grib env s)))
    = files_complete (self s).
Proof.
  intros env s Hdns Hdl Hc Hg.
  destruct (add_files_seeds axes s) as [Hok (A1 & A2 & A3 & A4 & A5)].
  assert (Hos : os (snd (_add_files axes s)) = os s).
  { unfold _add_files. unfold bind at 1. unfold get, gets. cbv beta iota.
    apply (for_each_invariant (fun s' => os s' = os s)); [| reflexivity].
    intros hour s0 Hs0. unfold_monad. simpl. exact Hs0. }
  destruct (_add_files axes s) as [[[] | e] s1] eqn:Eadd; simpl in *;
    [| discriminate].
  assert (Hrun : (_add_files axes ;;
                  _run_workers unpack_grib []
                    (Time.total_seconds (deadline (cfg (self s)) - clock env))
                    (schedule env)) s
                 = (Ok tt, State (set_greenlets [] (self s1)) (os s1))).
  { unfold bind at 1. rewrite Eadd. unfold _run_workers, spawn. simpl.
    unfold bind at 1. unfold ret at 1.
    rewrite wait_no_workers by congruence. reflexivity. }
  rewrite (download_verdict axes unpack_grib env s [] _ Hdns Hdl Hrun).
  simpl. rewrite A4, Hc. simpl. auto.
Qed.

(** A [download] that returns has fetched every file: on a session object
    on which [download] had not run, with a non-empty hour axis,
    [files_complete] and [files_count] are both twice the number of hours,
    the queue is empty and no worker is left. *)
Theorem returned_download_fetched_all :
  forall (env : session_env) (s s' : state),
    axes_hour axes <> [] ->
    fresh (self s) ->
    download axes unpack_grib env s = (Ok tt, s') ->
    files_complete (self s') = 2 * Z.of_nat (length (axes_hour axes)) /\
    files_count (self s') = 2 * Z.of_nat (length (axes_hour axes)) /\
    _files (self s') = [] /\
    _greenlets (self s') = [] /\
    success (self s') = true.
Proof.
  intros env s s' Hne Hfresh Hd.
  revert Hd. unfold download, of_result.
  destruct (dns env) as [addresses | e]; [| discriminate].
  unfold bind at 1. unfold ret at 1. unfold bind at 1. unfold get, gets.
  cbv beta iota.
  destruct (_ <? 0); [discriminate |].
  unfold bind at 1.
  destruct (seeded_accounted axes addresses s Hne Hfresh)
    as [Hacc0 Hn0].
  destruct (add_files_seeds axes s) as [Hok _].
  destruct (_add_files axes s) as [[[] | e] s1] eqn:Eadd; simpl in Hok;
    [| discriminate].
  unfold bind at 1. unfold _run_workers.
  assert (Hseed : snd ((_add_files axes ;; spawn addresses) s)
                  = snd (spawn addresses s1)).
  { unfold bind. rewrite Eadd. reflexivity. }
  rewrite Hseed in Hacc0, Hn0.
  destruct (spawn_idle addresses s1) as [Hsp _].
  unfold bind at 1.
  destruct (spawn addresses s1) as [[[] | e] s2] eqn:Esp; simpl in Hsp;
    [| discriminate].
  simpl in Hacc0, Hn0.
  assert (Hreach : session_reaches unpack_grib s2
                     (snd (wait unpack_grib (schedule env) s2)))
    by (apply wait_reaches, reaches_start).
  assert (Hinv : accounted (self (snd (wait unpack_grib (schedule env) s2))) /\
                 files_count (self (snd (wait unpack_grib (schedule env) s2)))
                 = 2 * Z.of_nat (length (axes_hour axes))).
  { apply (reaches_invariant unpack_grib
             (fun s => accounted (self s) /\
                       files_count (self s)
                       = 2 * Z.of_nat (length (axes_hour axes)))
             s2 _ (conj Hacc0 Hn0)); [| exact Hreach].
    intros s3 ev [Ha Hn].
    destruct (run_event_accounted unpack_grib ev s3 Ha) as [Ha' (Hc & _)].
    split; [exact Ha' | lia]. }
  destruct (wait unpack_grib (schedule env) s2) as [rw sw]. simpl in Hinv.
  simpl. destruct rw as [[] | e]; [| discriminate].
  unfold bind at 1. cbv beta iota. simpl.
  destruct (completed (self sw)) eqn:Hc; [| discriminate]. simpl.
  unfold_monad. simpl.
  destruct (Checklist.all (_checklist (self sw))); [| discriminate]. simpl.
  intros [= <-]. simpl.
  destruct Hinv as [(Hnn & Hsum & Hiff) Hn].
  apply Hiff in Hc.
  pose proof (in_flight_nonneg (_greenlets (self sw))) as Hfl.
  assert (Hq : PriorityQueue.qsize (_files (self sw)) = 0)
    by (unfold PriorityQueue.qsize in *; lia).
  split; [lia |]. split; [exact Hn |]. split; [| auto].
  unfold PriorityQueue.qsize in Hq. destruct (_files (self sw));
    [reflexivity | simpl in Hq; lia].
Qed.

End SessionOutcomes.

(** The files that [_add_files] adds to the queue: for each hour of the
    axis, in the filename prefix of the dataset hour, the file [f] and the
    file [bf] of that forecast hour, both with [sleep_until = 0]; they are
    counted in [files_count]. *)
Theorem add_files_two_per_hour :
  forall (axes : Dataset_axes) (s : state),
    let prefix :=
      ("gfs.t" ++ format_02 (Time.hour_of (ds_time (cfg (self s))))
         ++ "z.pgrb2")%string in
    let s' := snd (_add_files axes s) in
    fst (_add_files axes s) = Ok tt /\
    _files (self s')
    ≡ₚ (hour ← axes_hour axes;
         [FileRequest hour 0 (prefix ++ "f" ++ format_02 hour);
          FileRequest hour 0 (prefix ++ "bf" ++ format_02 hour)])
        ++ _files (self s) /\
    files_count (self s')
    = files_count (self s) + 2 * Z.of_nat (length (axes_hour axes)).
Proof.
  intros axes s prefix s'. subst s'.
  destruct (add_files_seeds axes s) as [Hok (A1 & _)].
  split; [exact Hok |]. split; [| exact A1].
  unfold _add_files. unfold bind at 1. unfold get, gets. cbv beta iota.
  fold prefix. generalize prefix. clear. intros prefix.
  revert s. induction (axes_hour axes) as [| hour hours IH]; intros s.
  - reflexivity.
  - cbn [for_each]. unfold bind at 1.
    match goal with
    | |- context [for_each (map ?g ?l) ?body s] =>
        assert (Hstep : for_each (map g l) body s
                = (Ok tt,
                   State (set_files
                            (FileRequest hour 0 (prefix ++ "bf" ++ format_02 hour)
                             :: FileRequest hour 0 (prefix ++ "f" ++ format_02 hour)
                             :: _files (self s))
                            (set_files_count (files_count (self s) + 1 + 1)
                               (self s)))
                     (os s)))
          by reflexivity;
        rewrite Hstep
    end.
    rewrite IH. simpl.
    rewrite (Permutation_swap
               (FileRequest hour 0 (prefix ++ "bf" ++ format_02 hour))
               (FileRequest hour 0 (prefix ++ "f" ++ format_02 hour))).
    rewrite <- !Permutation_middle. reflexivity.
Qed.

Lemma no_address_witness :
  fst (download Scenario.axes Scenario.unpack_grib
         (SessionEnv (Ok []) Scenario.published
            [Take 0 Scenario.published; Finish 0 Scenario.ok200 Scenario.published])
         Scenario.opened)
  = Raise (ValueError "timed out").
Proof.
  apply (no_address_times_out Scenario.axes Scenario.unpack_grib
           (SessionEnv (Ok []) Scenario.published
              [Take 0 Scenario.published;
               Finish 0 Scenario.ok200 Scenario.published])
           Scenario.opened); vm_compute; congruence.
Defined.

Lemma returned_download_witness :
  files_complete
    (self (snd (download Scenario.axes Scenario.unpack_grib Scenario.serving
                  Scenario.opened))) = 4.
Proof.
  assert (Hok : fst (download Scenario.axes Scenario.unpack_grib
                       Scenario.serving Scenario.opened) = Ok tt)
    by (vm_compute; reflexivity).
  assert (Hf : fresh (self Scenario.opened))
    by (repeat split; vm_compute; reflexivity).
  apply (returned_download_fetched_all Scenario.axes Scenario.unpack_grib
           Scenario.serving Scenario.opened _ ltac:(discriminate) Hf
           (pair_of_fst _ _ Hok)).
Defined.

(** ** One attempt *)

Lemma string_append_assoc (a b c : string) :
  ((a ++ b) ++ c = a ++ (b ++ c))%string.
Proof.
  induction a as [| x a IH]; [reflexivity |].
  change (String x ((a ++ b) ++ c) = String x (a ++ (b ++ c)))%string.
  rewrite IH. reflexivity.
Qed.

Lemma string_append_empty_r (a : string) : (a ++ "" = a)%string.
Proof.
  induction a as [| x a IH]; [reflexivity |].
  change (String x (a ++ "") = String x a)%string.
  rewrite IH. reflexivity.
Qed.

(** Reading a stream whose chunks are not empty: every chunk is written to
    the file in turn, and the reading ends as the stream does. *)
Lemma read_body_writes_all f chunks ending w c :
  fs w !! f = Some c ->
  Forall (fun d => d <> "") chunks ->
  read_body f chunks ending w
  = (match ending with None => Ok tt | Some e => Raise e end,
     World (<[f := (c ++ body_of chunks)%string]> (fs w)) (dirs w)
       (trace w ++ map (EWrite f) chunks)).
Proof.
  revert w c. induction chunks as [| d chunks IH]; intros w c Hc Hne.
  - simpl. rewrite string_append_empty_r, app_nil_r, (insert_id _ _ _ Hc).
    destruct w, ending; reflexivity.
  - inversion Hne as [| ? ? Hd Hrest]; subst. cbn [read_body].
    destruct (String.eqb_spec d ""); [contradiction |].
    unfold OS.write, OS.emit, OS.set_fs. unfold_monad. simpl. rewrite Hc.
    rewrite (IH _ (c ++ d)%string (lookup_insert_eq _ _ _) Hrest).
    simpl. rewrite insert_insert_eq, string_append_assoc, <- app_assoc.
    reflexivity.
Qed.

Section Attempt.

Variable unpack_grib : string -> Z -> Checklist.t -> result unit * Checklist.t.

(** A 200 answer whose stream ends cleanly: the temporary file receives the
    chunks in order, [unpack_grib] is given the whole body with
    [assert_hour = hour], and its outcome and its checklist are those of the
    attempt; the file is then unlinked. *)
Theorem clean_stream_unpacks_whole_body :
  forall (host tmp_directory : string) (resp : response) (hour : Z)
         (filename : string) (a : attempt),
    tmp_directory ∈ dirs (at_os a) ->
    resp_status resp = Ok 200 ->
    resp_end resp = None ->
    Forall (fun d => d <> "") (resp_body resp) ->
    let temp_file := Child tmp_directory filename in
    let unpacked :=
      unpack_grib (body_of (resp_body resp)) hour (at_checklist a) in
    let a' := snd (_download_file unpack_grib host (Some tmp_directory) resp
                     hour filename a) in
    fst (_download_file unpack_grib host (Some tmp_directory) resp hour
           filename a) = fst unpacked /\
    at_checklist a' = snd unpacked /\
    trace (at_os a')
    = (trace (at_os a)
       ++ EOpen temp_file :: map (EWrite temp_file) (resp_body resp)
       ++ [ECloseFile temp_file; EUnlink temp_file])%list /\
    fs (at_os a') !! temp_file = None.
Proof.
  intros host tmp_directory resp hour filename [c cl [f ds tr]] Hdir Hst Hend
    Hne temp_file unpacked a'.
  subst a' unpacked. simpl in Hdir. simpl at_checklist. simpl at_os.
  simpl trace.
  assert (Hgen : forall c0,
    (status <- of_result (Ok 200) ;;
     if status =? 404 then raise NotFound
     else if negb (status =? 200) then raise (StatusError status)
     else
       r <- outcome (on_os (OS.open_write temp_file)) ;;
       try_finally
         (of_result r ;;
          try_finally
            (on_os (read_body temp_file (resp_body resp) None))
            (on_os (OS.close_file temp_file)) ;;
          run_unpack_grib unpack_grib temp_file hour)
         (when (is_ok r) (on_os (OS.unlink temp_file))))
      (Attempt c0 cl (World f ds tr))
    = (fst (unpack_grib (body_of (resp_body resp)) hour cl),
       Attempt c0 (snd (unpack_grib (body_of (resp_body resp)) hour cl))
         (World (delete temp_file
                   (<[temp_file := body_of (resp_body resp)]> f)) ds
            (tr ++ EOpen temp_file :: map (EWrite temp_file) (resp_body resp)
             ++ [ECloseFile temp_file; EUnlink temp_file])))).
  { intros c0. unfold of_result. unfold bind at 1. unfold ret at 1.
    change (200 =? 404) with false. change (negb (200 =? 200)) with false.
    cbv iota.
    unfold outcome, on_os, OS.open_write, OS.exists_dir.
    unfold bind at 1. unfold bind at 1. unfold gets at 1.
    simpl at_os. simpl dirs.
    rewrite (bool_decide_eq_true_2 _ Hdir).
    unfold OS.emit, OS.set_fs, try_finally, when.
    unfold_monad. simpl.
    rewrite (read_body_writes_all temp_file (resp_body resp) None _ ""
               (lookup_insert_eq _ _ _) Hne).
    simpl.
    unfold run_unpack_grib, OS.unlink, OS.close_file, OS.exists_file, OS.emit,
      OS.set_fs.
    unfold_monad. simpl.
    rewrite insert_insert_eq, lookup_insert_eq. simpl.
    destruct (unpack_grib _ _ _) as [ru cu]. simpl.
    rewrite bool_decide_eq_true_2 by (rewrite lookup_insert_eq; eauto).
    simpl. rewrite <- !app_assoc. destruct ru; reflexivity. }
  destruct (_download_file _ _ _ _ _ _ _) as [r1 a1] eqn:E.
  unfold _download_file in E. fold temp_file in E.
  unfold bind at 1 in E. unfold modify at 1 in E. rewrite Hst, Hend in E.
  destruct c as [c |]; simpl at_connection in E; cbv iota in E;
    rewrite Hgen in E; injection E as <- <-;
    cbn [fst snd at_os at_checklist fs trace];
    (split; [reflexivity |]; split; [reflexivity |]; split; [reflexivity |];
     apply lookup_delete_eq).
Qed.

(** An attempt that gets no 200 answer (the request fails, or the status
    is 404 or any other) raises the matching exception before it opens its
    temporary file: the filesystem, the trace and the checklist are as they
    were, and the connection stays in place for the next request. *)
Theorem no_200_touches_nothing :
  forall (host tmp_directory : string) (resp : response) (hour : Z)
         (filename : string) (a : attempt),
    resp_status resp <> Ok 200 ->
    _download_file unpack_grib host (Some tmp_directory) resp hour filename a
    = (Raise match resp_status resp with
             | Raise e => e
             | Ok status =>
                 if status =? 404 then NotFound else StatusError status
             end,
       Attempt (Some (default host (at_connection a))) (at_checklist a)
         (at_os a)).
Proof.
  intros host tmp_directory resp hour filename [c cl w] Hst.
  unfold _download_file. unfold bind at 1. unfold modify at 1.
  simpl at_connection. simpl at_checklist. simpl at_os.
  assert (Hgen : forall c0,
    (status <- of_result (resp_status resp) ;;
     if status =? 404 then raise NotFound
     else if negb (status =? 200) then raise (StatusError status)
     else
       r <- outcome (on_os (OS.open_write (Child tmp_directory filename))) ;;
       try_finally
         (of_result r ;;
          try_finally
            (on_os (read_body (Child tmp_directory filename) (resp_body resp)
                      (resp_end resp)))
            (on_os (OS.close_file (Child tmp_directory filename))) ;;
          run_unpack_grib unpack_grib (Child tmp_directory filename) hour)
         (when (is_ok r) (on_os (OS.unlink (Child tmp_directory filename)))))
      (Attempt (Some c0) cl w)
    = (Raise match resp_status resp with
             | Raise e => e
             | Ok status =>
                 if status =? 404 then NotFound else StatusError status
             end,
       Attempt (Some c0) cl w)).
  { intros c0. unfold of_result.
    destruct (resp_status resp) as [status | e]; [| reflexivity].
    unfold bind at 1. unfold ret at 1.
    destruct (status =? 404); [reflexivity |].
    destruct (Z.eqb_spec status 200) as [-> | _]; [contradiction |].
    reflexivity. }
  destruct c as [c |]; cbv iota; apply Hgen.
Qed.

Lemma read_body_shape f chunks ending w c0 :
  fs w !! f = Some c0 ->
  exists c mid,
    snd (read_body f chunks ending w)
    = World (<[f := c]> (fs w)) (dirs w) (trace w ++ mid).
Proof.
  revert w c0. induction chunks as [| d chunks IH]; intros w c0 Hc.
  - exists c0, []. rewrite (insert_id _ _ _ Hc), app_nil_r.
    destruct w, ending; reflexivity.
  - cbn [read_body]. destruct (String.eqb d "").
    + exists c0, []. rewrite (insert_id _ _ _ Hc), app_nil_r.
      destruct w; reflexivity.
    + unfold OS.write, OS.emit, OS.set_fs. unfold_monad. simpl. rewrite Hc.
      destruct (IH (World (<[f := (c0 ++ d)%string]> (fs w)) (dirs w)
                      (trace w ++ [EWrite f d])) _ (lookup_insert_eq _ _ _))
        as (c & mid & E).
      exists c, (EWrite f d :: mid). rewrite E. simpl.
      rewrite insert_insert_eq, <- app_assoc. reflexivity.
Qed.

(** What an attempt leaves of the world: either nothing was done, or the
    temporary file was written and unlinked. *)
Lemma download_file_world host tmp_directory resp hour filename a :
  let temp_file := Child tmp_directory filename in
  let a' := snd (_download_file unpack_grib host (Some tmp_directory) resp
                   hour filename a) in
  at_os a' = at_os a \/
  exists c mid,
    at_os a'
    = World (delete temp_file (<[temp_file := c]> (fs (at_os a))))
        (dirs (at_os a))
        (trace (at_os a) ++ EOpen temp_file :: mid ++ [EUnlink temp_file]).
Proof.
  intros temp_file a'. subst a'.
  destruct (_download_file _ _ _ _ _ _ _) as [r1 a1] eqn:E. simpl.
  unfold _download_file in E. fold temp_file in E.
  unfold bind at 1 in E. unfold modify at 1 in E.
  destruct a as [c cl [f ds tr]]. simpl at_os. simpl fs. simpl dirs.
  simpl trace. simpl at_connection in E. simpl at_checklist in E.
  simpl at_os in E.
  assert (Hgen : forall (c0 : option string) r1 a1,
    (status <- of_result (resp_status resp) ;;
     if status =? 404 then raise NotFound
     else if negb (status =? 200) then raise (StatusError status)
     else
       r <- outcome (on_os (OS.open_write temp_file)) ;;
       try_finally
         (of_result r ;;
          try_finally
            (on_os (read_body temp_file (resp_body resp) (resp_end resp)))
            (on_os (OS.close_file temp_file)) ;;
          run_unpack_grib unpack_grib temp_file hour)
         (when (is_ok r) (on_os (OS.unlink temp_file))))
      (Attempt c0 cl (World f ds tr)) = (r1, a1) ->
    at_os a1 = World f ds tr \/
    exists c mid,
      at_os a1
      = World (delete temp_file (<[temp_file := c]> f)) ds
          (tr ++ EOpen temp_file :: mid ++ [EUnlink temp_file])).
  { clear E r1 a1. intros c0 r1 a1 E.
    unfold of_result in E. revert E.
    destruct (resp_status resp) as [status | e]; intros E.
    2: { injection E as <- <-. left. reflexivity. }
    unfold bind at 1 in E. unfold ret at 1 in E.
    revert E. destruct (status =? 404); intros E;
      [injection E as <- <-; left; reflexivity |].
    revert E. destruct (negb (status =? 200)); intros E;
      [injection E as <- <-; left; reflexivity |].
    unfold outcome, on_os, OS.open_write, OS.exists_dir in E.
    unfold bind at 1 in E. unfold bind at 1 in E. unfold gets at 1 in E.
    simpl at_os in E. simpl dirs in E.
    revert E.
    match goal with
    | |- context [@bool_decide ?P ?d] => destruct (@bool_decide P d)
    end; intros E.
    2: { unfold_monad. unfold try_finally in E. simpl in E.
         injection E as <- <-. left. reflexivity. }
    right. unfold OS.emit, OS.set_fs, try_finally, when in E.
    unfold_monad. simpl in E.
    destruct (read_body_shape temp_file (resp_body resp) (resp_end resp)
                (World (<[temp_file:=""]> f) ds (tr ++ [EOpen temp_file])) ""
                (lookup_insert_eq _ _ _))
      as (c1 & mid & Hw).
    revert E.
    destruct (read_body temp_file (resp_body resp) (resp_end resp) _)
      as [rb w2]. intros E. simpl in Hw. subst w2.
    unfold run_unpack_grib, OS.unlink, OS.close_file, OS.exists_file, OS.emit,
      OS.set_fs in E.
    unfold_monad. simpl in E.
    rewrite insert_insert_eq in E.
    exists c1, (mid ++ [ECloseFile temp_file])%list.
    destruct rb as [[] | e]; simpl in E.
    - revert E. destruct (unpack_grib _ _ _) as [ru cu]; intros E; simpl in E.
      rewrite bool_decide_eq_true_2 in E by (rewrite lookup_insert_eq; eauto).
      simpl in E. injection E as <- <-. simpl.
      rewrite <- !app_assoc. reflexivity.
    - rewrite bool_decide_eq_true_2 in E by (rewrite lookup_insert_eq; eauto).
      simpl in E. injection E as <- <-. simpl.
      rewrite <- !app_assoc. reflexivity. }
  destruct c as [c |]; cbv iota in E; exact (Hgen _ _ _ E).
Qed.

(** An attempt creates and removes no file for good: its temporary file,
    absent before, is absent after, the files and the directories that exist
    are the same as before, and every file other than the artifacts staged
    in the temporary directory (the Dataset and the grib mirror, to which
    [unpack_grib] writes) has the contents it had. *)
Theorem attempt_restores_files :
  forall (host tmp_directory : string) (resp : response) (hour : Z)
         (filename : string) (a : attempt),
    fs (at_os a) !! Child tmp_directory filename = None ->
    let a' := snd (_download_file unpack_grib host (Some tmp_directory) resp
                     hour filename a) in
    fs (at_os a') !! Child tmp_directory filename = None /\
    dom (fs (at_os a')) = dom (fs (at_os a)) /\
    dirs (at_os a') = dirs (at_os a) /\
    forall p,
      (forall t sfx, p <> Artifact tmp_directory t sfx) ->
      fs (at_os a') !! p = fs (at_os a) !! p.
Proof.
  intros host tmp_directory resp hour filename a Hnone a'. subst a'.
  assert (Hfs : fs (at_os (snd (_download_file unpack_grib host
                                  (Some tmp_directory) resp hour filename a)))
                = fs (at_os a) /\
                dirs (at_os (snd (_download_file unpack_grib host
                                    (Some tmp_directory) resp hour filename a)))
                = dirs (at_os a)).
  { destruct (download_file_world host tmp_directory resp hour filename a)
      as [-> | (c & mid & ->)]; [auto |].
    simpl. rewrite delete_insert_eq, (delete_id _ _ Hnone). auto. }
  destruct Hfs as [-> ->].
  split; [exact Hnone |]. split; [reflexivity |]. split; [reflexivity |].
  intros p _. reflexivity.
Qed.

End Attempt.

Lemma clean_stream_witness :
  fst (_download_file Scenario.unpack_grib "10.0.0.1"
         (Some "datasets/download.XYZ") Scenario.ok200 0 "gfs.t06z.pgrb2f00"
         (Attempt None ∅ (os Scenario.opened)))
  = fst (Scenario.unpack_grib (body_of (resp_body Scenario.ok200)) 0 ∅).
Proof.
  assert (Hdir : "datasets/download.XYZ"
                 ∈ dirs (at_os (Attempt None ∅ (os Scenario.opened))))
    by (apply (bool_decide_unpack _); vm_compute; exact I).
  assert (Hne : Forall (fun d : string => d <> "") (resp_body Scenario.ok200))
    by (repeat constructor; discriminate).
  pose proof (clean_stream_unpacks_whole_body Scenario.unpack_grib
                "10.0.0.1" "datasets/download.XYZ" Scenario.ok200 0
                "gfs.t06z.pgrb2f00" (Attempt None ∅ (os Scenario.opened))
                Hdir eq_refl eq_refl Hne) as [H _].
  cbn [at_checklist] in H. exact H.
Defined.

Lemma no_200_witness :
  fst (_download_file Scenario.unpack_grib "10.0.0.1"
         (Some "datasets/download.XYZ") Scenario.not_found 0
         "gfs.t06z.pgrb2f00" (Attempt None ∅ (os Scenario.opened)))
  = Raise NotFound.
Proof.
  rewrite (no_200_touches_nothing Scenario.unpack_grib "10.0.0.1"
             "datasets/download.XYZ" Scenario.not_found 0 "gfs.t06z.pgrb2f00"
             (Attempt None ∅ (os Scenario.opened)) ltac:(discriminate)).
  reflexivity.
Defined.

Lemma attempt_restores_files_witness :
  fst (_download_file Scenario.unpack_grib "10.0.0.1"
         (Some "datasets/download.XYZ") Scenario.ok200 0 "gfs.t06z.pgrb2f00"
         (Attempt None ∅ (os Scenario.opened))) = Ok tt /\
  dom (fs (at_os (snd (_download_file Scenario.unpack_grib "10.0.0.1"
                         (Some "datasets/download.XYZ") Scenario.ok200 0
                         "gfs.t06z.pgrb2f00"
                         (Attempt None ∅ (os Scenario.opened))))))
  = dom (fs (os Scenario.opened)).
Proof.
  split; [vm_compute; reflexivity |].
  assert (Hnone : fs (at_os (Attempt None ∅ (os Scenario.opened)))
                  !! Child "datasets/download.XYZ" "gfs.t06z.pgrb2f00" = None)
    by (vm_compute; reflexivity).
  pose proof (attempt_restores_files Scenario.unpack_grib "10.0.0.1"
                "datasets/download.XYZ" Scenario.ok200 0
                "gfs.t06z.pgrb2f00" (Attempt None ∅ (os Scenario.opened))
                Hnone) as (_ & H & _).
  cbn [at_os] in H. exact H.
Defined.

(** ** Opening and closing *)

Lemma no_files_in dir (f : gmap path string) :
  (forall p, parent p = dir -> f !! p = None) ->
  filter (fun p => parent p = dir) (map fst (map_to_list f)) = [].
Proof.
  intros H.
  destruct (filter _ _) as [| p l] eqn:E; [reflexivity |].
  assert (Hin : p ∈ filter (fun p => parent p = dir) (map fst (map_to_list f))).
  { rewrite E. left. }
  apply list_elem_of_filter in Hin as [Hp Hin].
  apply list_elem_of_fmap in Hin as ([q c] & -> & Hin).
  apply elem_of_map_to_list in Hin. simpl in Hp.
  rewrite (H q Hp) in Hin. discriminate.
Qed.

Lemma sys_unlink_ok p s :
  is_Some (fs (os s) !! p) ->
  sys (OS.unlink p) s
  = (Ok tt, State (self s)
              (World (delete p (fs (os s))) (dirs (os s))
                 (trace (os s) ++ [EUnlink p]))).
Proof.
  intros H. unfold sys, OS.unlink, OS.exists_file, OS.emit, OS.set_fs.
  unfold_monad. simpl. rewrite bool_decide_true by exact H. reflexivity.
Qed.

Lemma sys_rename_ok src dst data s :
  fs (os s) !! src = Some data ->
  sys (OS.rename src dst) s
  = (Ok tt, State (self s)
              (World (<[ dst := data ]> (delete src (fs (os s)))) (dirs (os s))
                 (trace (os s) ++ [ERename src dst]))).
Proof.
  intros H. unfold sys, OS.rename, OS.emit, OS.set_fs.
  unfold_monad. simpl. rewrite H. reflexivity.
Qed.

(** On an empty temporary directory, [_remove_download_directory] lists
    nothing, unlinks nothing and removes the directory. *)
Lemma remove_empty_download_directory s tmp :
  _tmp_directory (self s) = Some tmp ->
  tmp ∈ dirs (os s) ->
  (forall p, parent p = tmp -> fs (os s) !! p = None) ->
  _remove_download_directory s
  = (Ok tt, State (self s)
              (World (fs (os s)) (dirs (os s) ∖ {[ tmp ]})
                 (trace (os s) ++ [EListdir tmp; ERmdir tmp]))).
Proof.
  intros Htmp Hdir Hempty.
  unfold _remove_download_directory, OS.listdir, OS.rmdir, OS.exists_dir,
    OS.emit, OS.set_dirs.
  unfold_monad. simpl. rewrite Htmp.
  rewrite bool_decide_true by exact Hdir. simpl.
  rewrite (no_files_in tmp _ Hempty). simpl.
  rewrite bool_decide_true by exact Hdir.
  rewrite (no_files_in tmp _ Hempty). simpl.
  rewrite <- app_assoc. reflexivity.
Qed.

Lemma suffix_gribmirror_nonempty : SUFFIX_GRIBMIRROR <> "".
Proof. discriminate. Qed.

(** [open] when the dataset directory is missing: [mkdtemp] raises and
    nothing has happened. *)
Lemma open_no_directory rand d w :
  directory (cfg d) ∉ dirs w ->
  open rand (State d w) = (Raise (OSError "No such file or directory"), State d w).
Proof.
  intros H. unfold open, OS.mkdtemp, OS.exists_dir. unfold_monad. simpl.
  rewrite bool_decide_false by exact H. destruct w. reflexivity.
Qed.

(** [open] when the dataset directory exists: it returns, having made the
    temporary directory and created the artifacts in it. *)
Lemma open_stages rand d w :
  directory (cfg d) ∈ dirs w ->
  let tmp := (directory (cfg d) ++ "/download." ++ rand)%string in
  exists s,
    open rand (State d w) = (Ok tt, s) /\
    cfg (self s) = cfg d /\
    success (self s) = success d /\
    _tmp_directory (self s) = Some tmp /\
    _dataset (self s)
    = (if write_dataset (cfg d) then Some (Artifact tmp (ds_time (cfg d)) "")
       else _dataset d) /\
    _gribmirror (self s)
    = (if write_gribmirror (cfg d) then
         Some (Artifact tmp (ds_time (cfg d)) SUFFIX_GRIBMIRROR)
       else _gribmirror d) /\
    fs (os s) = staged (cfg d) tmp (fs w) /\
    dirs (os s) = {[ tmp ]} ∪ dirs w.
Proof.
  intros Hdir tmp.
  assert (Htmp : tmp ∈ ({[ tmp ]} ∪ dirs w : gset string))
    by (apply elem_of_union_l, elem_of_singleton; reflexivity).
  unfold open, OS.mkdtemp, OS.chmod, Dataset_new, OS.open_write, OS.exists_dir,
    OS.emit, OS.set_dirs, OS.set_fs, staged.
  unfold_monad. simpl.
  rewrite bool_decide_true by exact Hdir. simpl.
  destruct (write_dataset (cfg d)) eqn:Hwd; simpl;
    destruct (write_gribmirror (cfg d)) eqn:Hwg; simpl;
    rewrite ?Hwg; simpl;
    rewrite ?(bool_decide_true _ Htmp); simpl;
    rewrite ?Hwg; simpl;
    rewrite ?(bool_decide_true _ Htmp); simpl;
    eexists; (split; [reflexivity |]); simpl; rewrite ?Hwd, ?Hwg;
    repeat split; reflexivity.
Qed.

Lemma staged_lookup_other c dir (f : gmap path string) p :
  parent p <> dir -> staged c dir f !! p = f !! p.
Proof.
  intros H. unfold staged.
  destruct (write_dataset c), (write_gribmirror c);
    rewrite ?lookup_insert_ne by (intros <-; apply H; reflexivity);
    reflexivity.
Qed.

Lemma staged_lookup_artifact c dir (f : gmap path string) p :
  p ∈ artifacts c dir -> staged c dir f !! p = Some "".
Proof.
  unfold artifacts, staged. intros H.
  destruct (write_dataset c), (write_gribmirror c); simpl in H;
    repeat match goal with
           | H : _ ∈ _ :: _ |- _ => apply elem_of_cons in H as [-> | H]
           | H : _ ∈ [] |- _ => apply elem_of_nil in H; destruct H
           end;
    rewrite ?lookup_insert_eq; try reflexivity.
  rewrite lookup_insert_ne by discriminate. apply lookup_insert_eq.
Qed.

Lemma staged_lookup_nonartifact c dir (f : gmap path string) p :
  p ∉ artifacts c dir -> staged c dir f !! p = f !! p.
Proof.
  unfold artifacts, staged. intros H.
  destruct (write_dataset c), (write_gribmirror c); simpl in H;
    rewrite ?lookup_insert_ne; try reflexivity;
    intros <-; apply H; repeat constructor.
Qed.

Lemma move_file_ok sfx s tmp data :
  _tmp_directory (self s) = Some tmp ->
  fs (os s) !! Artifact tmp (ds_time (cfg (self s))) sfx = Some data ->
  exists tr,
    _move_file sfx s
    = (Ok tt,
       State (self s)
         (World (<[ Artifact (directory (cfg (self s)))
                      (ds_time (cfg (self s))) sfx := data ]>
                   (delete (Artifact tmp (ds_time (cfg (self s))) sfx)
                      (fs (os s))))
            (dirs (os s)) tr)).
Proof.
  intros Htmp Hf. unfold _move_file, tmp_filename, OS.rename, OS.emit, OS.set_fs.
  unfold_monad. simpl. rewrite Htmp. simpl. rewrite Hf. simpl.
  eexists. reflexivity.
Qed.

Lemma delete_file_ok sfx s tmp data :
  _tmp_directory (self s) = Some tmp ->
  fs (os s) !! Artifact tmp (ds_time (cfg (self s))) sfx = Some data ->
  exists tr,
    _delete_file sfx s
    = (Ok tt,
       State (self s)
         (World (delete (Artifact tmp (ds_time (cfg (self s))) sfx) (fs (os s)))
            (dirs (os s)) tr)).
Proof.
  intros Htmp Hf.
  unfold _delete_file, tmp_filename, OS.unlink, OS.exists_file, OS.emit,
    OS.set_fs.
  unfold_monad. simpl. rewrite Htmp. simpl.
  rewrite bool_decide_true by (rewrite Hf; eexists; reflexivity).
  eexists. reflexivity.
Qed.

Lemma settle_ok (mv : bool) sfx s tmp :
  _tmp_directory (self s) = Some tmp ->
  fs (os s) !! Artifact tmp (ds_time (cfg (self s))) sfx = Some "" ->
  exists tr,
    (if mv then _move_file sfx else _delete_file sfx) s
    = (Ok tt,
       State (self s)
         (World (settle (cfg (self s)) tmp mv sfx (fs (os s)))
            (dirs (os s)) tr)).
Proof.
  intros Htmp Hf. unfold settle. destruct mv.
  - apply (move_file_ok sfx s tmp "" Htmp Hf).
  - apply (delete_file_ok sfx s tmp "" Htmp Hf).
Qed.

(** [close] on an opened session whose temporary directory holds the staged
    artifacts and nothing else. *)
Lemma close_staged s tmp f0 :
  _tmp_directory (self s) = Some tmp ->
  _dataset (self s)
  = (if write_dataset (cfg (self s)) then
       Some (Artifact tmp (ds_time (cfg (self s))) "")
     else None) ->
  _gribmirror (self s)
  = (if write_gribmirror (cfg (self s)) then
       Some (Artifact tmp (ds_time (cfg (self s))) SUFFIX_GRIBMIRROR)
     else None) ->
  fs (os s) = staged (cfg (self s)) tmp f0 ->
  (forall p, parent p = tmp -> f0 !! p = None) ->
  tmp ∈ dirs (os s) ->
  tmp <> directory (cfg (self s)) ->
  exists s',
    close None s = (Ok tt, s') /\
    dirs (os s') = dirs (os s) ∖ {[ tmp ]} /\
    fs (os s')
    = if success (self s) then
        staged (cfg (self s)) (directory (cfg (self s))) f0
      else f0.
Proof.
  intros Htmp Hds Hgm Hfs Hf0 Hdir Hne.
  destruct s as [d w]. destruct w as [f ds tr]. simpl in *. subst f.
  assert (Hd0 : f0 !! Artifact tmp (ds_time (cfg d)) "" = None)
    by (apply Hf0; reflexivity).
  assert (Hg0 : f0 !! Artifact tmp (ds_time (cfg d)) SUFFIX_GRIBMIRROR = None)
    by (apply Hf0; reflexivity).
  unfold close.
  erewrite bind_ok by reflexivity. simpl.
  erewrite bind_ok by reflexivity. simpl.
  set (mv := success d) in *.
  (* the Dataset writer *)
  assert (H1 : exists tr1,
    (match _dataset d with
     | Some h =>
         sys (OS.emit (EDatasetClose h)) ;;
         set (set_dataset None) ;;
         (if mv then _move_file "" else _delete_file "")
     | None => ret tt
     end) (State d (World (staged (cfg d) tmp f0) ds tr))
    = (Ok tt,
       State (set_dataset None d)
         (World (if write_dataset (cfg d) then
                   settle (cfg d) tmp mv "" (staged (cfg d) tmp f0)
                 else staged (cfg d) tmp f0) ds tr1))).
  { rewrite Hds. destruct (write_dataset (cfg d)) eqn:Hwd.
    - erewrite bind_ok by reflexivity. erewrite bind_ok by reflexivity.
      simpl.
      edestruct (settle_ok mv "") as [tr1 ->]; [exact Htmp | | eexists; reflexivity].
      simpl. apply staged_lookup_artifact. unfold artifacts. rewrite Hwd.
      left.
    - exists tr. unfold ret. f_equal. f_equal.
      destruct d; simpl in *; subst; reflexivity. }
  destruct H1 as [tr1 H1]. rewrite (bind_ok _ _ _ _ _ H1). clear H1.
  erewrite bind_ok by reflexivity. simpl.
  set (f1 := if write_dataset (cfg d) then _ else _).
  (* the grib mirror *)
  assert (H2 : exists tr2,
    (match _gribmirror d with
     | Some h =>
         sys (OS.close_file h) ;;
         set (set_gribmirror None) ;;
         (if mv then _move_file SUFFIX_GRIBMIRROR
          else _delete_file SUFFIX_GRIBMIRROR)
     | None => ret tt
     end) (State (set_dataset None d) (World f1 ds tr1))
    = (Ok tt,
       State (set_gribmirror None (set_dataset None d))
         (World (if write_gribmirror (cfg d) then
                   settle (cfg d) tmp mv SUFFIX_GRIBMIRROR f1
                 else f1) ds tr2))).
  { rewrite Hgm. destruct (write_gribmirror (cfg d)) eqn:Hwg.
    - erewrite bind_ok by reflexivity. erewrite bind_ok by reflexivity.
      simpl.
      edestruct (settle_ok mv SUFFIX_GRIBMIRROR) as [tr2 ->];
        [exact Htmp | | eexists; reflexivity].
      simpl. subst f1. unfold settle, staged. rewrite Hwg.
      destruct (write_dataset (cfg d)), mv;
        repeat (rewrite lookup_insert || rewrite lookup_delete);
        repeat case_decide; simplify_eq; reflexivity.
    - exists tr1. unfold ret. f_equal. f_equal.
      destruct d; simpl in *; subst; reflexivity. }
  destruct H2 as [tr2 H2]. rewrite (bind_ok _ _ _ _ _ H2). clear H2.
  erewrite bind_ok by reflexivity. simpl. rewrite Htmp.
  set (f2 := if write_gribmirror (cfg d) then _ else _).
  (* the temporary directory *)
  assert (Hf2 : f2 = if mv then staged (cfg d) (directory (cfg d)) f0 else f0).
  { subst f2 f1. clear - Hd0 Hg0 Hne.
    apply map_eq; intros p. unfold settle, staged.
    destruct (write_dataset (cfg d)), (write_gribmirror (cfg d)), mv;
      repeat (rewrite lookup_insert || rewrite lookup_delete);
      repeat case_decide; simplify_eq; try reflexivity; congruence. }
  assert (Hempty : forall p, parent p = tmp -> f2 !! p = None).
  { intros p Hp. rewrite Hf2. destruct mv; [| apply Hf0, Hp].
    rewrite staged_lookup_other by congruence. apply Hf0, Hp. }
  erewrite bind_ok
    by (apply (remove_empty_download_directory _ tmp); simpl; assumption).
  simpl. eexists. split; [reflexivity |]. simpl. split; [reflexivity | exact Hf2].
Qed.

(** ** The files of a session *)

Section SessionFiles.

Variable axes : Dataset_axes.
Variable unpack_grib : string -> Z -> Checklist.t -> result unit * Checklist.t.

Lemma worker_attempt_files i w req resp s :
  scratch_clear s ->
  fs (os (snd (worker_attempt unpack_grib i w req resp s))) = fs (os s) /\
  dirs (os (snd (worker_attempt unpack_grib i w req resp s))) = dirs (os s).
Proof.
  intros Hclear. unfold worker_attempt.
  destruct (_tmp_directory (self s)) as [tmp |] eqn:Htmp.
  - pose proof (download_file_world unpack_grib (connect_host w) tmp resp
                  (fr_hour req) (fr_filename req)
                  (Attempt (_connection w) (_checklist (self s)) (os s))) as H.
    pose proof (Hclear tmp (fr_filename req) Htmp) as Hnone.
    simpl in H.
    destruct (_download_file _ _ _ _ _ _ _) as [r a']. simpl in *.
    destruct H as [-> | (c & mid & ->)]; [auto |].
    simpl. rewrite delete_insert_eq, (delete_id _ _ Hnone). auto.
  - unfold _download_file. unfold_monad. simpl.
    destruct (_connection w); simpl; auto.
Qed.

(** No event of the workers changes the files or the directories. *)
Lemma run_event_files ev s :
  scratch_clear s ->
  fs (os (snd (run_event unpack_grib ev s))) = fs (os s) /\
  dirs (os (snd (run_event unpack_grib ev s))) = dirs (os s).
Proof.
  intros Hclear.
  apply (run_event_cases unpack_grib
           (fun s s' => fs (os s') = fs (os s) /\ dirs (os s') = dirs (os s))).
  - auto.
  - intros i now w Hw Hd Hc.
    unfold dies_on_raise, worker_take, _connection_close, update_worker.
    unfold_monad. simpl.
    destruct (PriorityQueue.get (_files (self s))) as [[req q'] |]; simpl;
      [destruct (0 <? _); simpl |]; auto.
  - intros i resp now w req Hw Hd Hc.
    pose proof (worker_attempt_files i w req resp s Hclear) as Hfs.
    unfold dies_on_raise, worker_finish.
    destruct (worker_attempt unpack_grib i w req resp s) as [ra s1] eqn:Hat.
    destruct (worker_attempt_frame _ _ _ _ _ _ _ _ Hat)
      as (r' & c & cl & -> & Hs1).
    rewrite (bind_ok _ _ _ _ _ Hat).
    destruct s1 as [d1 w1]. simpl in Hs1, Hfs. subst d1.
    unfold worker_after, _file_complete, put_file, _connection_close,
      update_worker.
    unfold_monad.
    destruct r' as [[] | []]; simpl;
      repeat match goal with
             | |- context [if ?b then _ else _] => destruct b; simpl
             end;
      exact Hfs.
Qed.

Lemma run_event_scratch_clear ev s :
  scratch_clear s -> scratch_clear (snd (run_event unpack_grib ev s)).
Proof.
  intros Hclear tmp name Htmp.
  destruct (run_event_files ev s Hclear) as [Hfs _]. rewrite Hfs.
  apply Hclear.
  rewrite <- (run_event_frame unpack_grib _tmp_directory
                tmp_directory_untouched ev s).
  exact Htmp.
Qed.

Lemma wait_files sched s :
  scratch_clear s ->
  fs (os (snd (wait unpack_grib sched s))) = fs (os s) /\
  dirs (os (snd (wait unpack_grib sched s))) = dirs (os s).
Proof.
  revert s. induction sched as [| ev sched IH]; intros s Hclear; simpl.
  - destruct (completed (self s)); auto.
  - destruct (completed (self s)); [auto |].
    pose proof (run_event_files ev s Hclear) as [Hf Hd].
    pose proof (run_event_scratch_clear ev s Hclear) as Hc.
    destruct (run_event unpack_grib ev s) as [[[] | e] s1]; simpl in *.
    + destruct (IH s1 Hc) as [Hf' Hd']. split; congruence.
    + auto.
Qed.

Lemma sets_keep_os {B} (l : list B) (body : B -> M state unit) s :
  (forall x s0, os (snd (body x s0)) = os s0) ->
  os (snd (for_each l body s)) = os s.
Proof.
  intros Hbody.
  apply (for_each_invariant (fun s' => os s' = os s)); [| reflexivity].
  intros x s0 Hs0. rewrite Hbody. exact Hs0.
Qed.

Lemma add_files_os s : os (snd (_add_files axes s)) = os s.
Proof.
  unfold _add_files. unfold bind at 1. unfold get, gets. cbv beta iota.
  apply sets_keep_os. intros hour s0. unfold_monad. reflexivity.
Qed.

Lemma spawn_os addresses s : os (snd (spawn addresses s)) = os s.
Proof.
  unfold spawn. apply sets_keep_os. intros wa s0. unfold_monad. reflexivity.
Qed.

Lemma spawn_ok addresses s : fst (spawn addresses s) = Ok tt.
Proof.
  unfold spawn.
  generalize (imap (fun worker_id address => (worker_id, address)) addresses).
  intros l. revert s. induction l as [| x l IH]; intros s; [reflexivity |].
  simpl. unfold bind at 1. unfold set at 1, modify at 1. cbv beta iota.
  apply IH.
Qed.

Lemma run_workers_files addresses secs sched s :
  scratch_clear s ->
  fs (os (snd (_run_workers unpack_grib addresses secs sched s))) = fs (os s) /\
  dirs (os (snd (_run_workers unpack_grib addresses secs sched s)))
  = dirs (os s).
Proof.
  intros Hclear. unfold _run_workers.
  assert (Hsp : scratch_clear (snd (spawn addresses s))).
  { intros tmp name Htmp. rewrite spawn_os. apply Hclear.
    rewrite <- (spawn_frame _tmp_directory tmp_directory_untouched addresses s).
    exact Htmp. }
  pose proof (wait_files sched _ Hsp) as Hw. rewrite spawn_os in Hw.
  pose proof (spawn_ok addresses s) as Hok.
  unfold bind.
  destruct (spawn addresses s) as [[[] | e] s0]; simpl in *; [| discriminate].
  destruct (wait unpack_grib sched s0) as [r s1]; simpl in *. exact Hw.
Qed.

Lemma download_frame {A} (f : downloader -> A) env :
  untouched_by_workers f ->
  (forall v d, f (set_success v d) = f d) ->
  preserves f (download axes unpack_grib env).
Proof.
  intros Hf Hs. unfold download.
  apply preserves_bind.
  { unfold of_result. destruct (dns env); [apply preserves_ret | apply preserves_raise]. }
  intros addresses. apply preserves_bind; [apply preserves_get |].
  intros dl. destruct (_ <? 0); [apply preserves_raise |].
  apply preserves_bind; [apply (add_files_frame f Hf) |]. intros _.
  apply preserves_bind; [apply (run_workers_frame unpack_grib f Hf) |]. intros _.
  apply preserves_bind; [apply preserves_get |]. intros c.
  destruct (negb c); [apply preserves_raise |].
  apply preserves_bind; [apply preserves_get |]. intros cl.
  destruct (negb _); [apply preserves_raise |].
  apply preserves_set. intros d. apply Hs.
Qed.

(** [download], however it ends, leaves the files and the directories as
    they were. *)
Lemma download_files env s r s' :
  scratch_clear s ->
  download axes unpack_grib env s = (r, s') ->
  fs (os s') = fs (os s) /\ dirs (os s') = dirs (os s).
Proof.
  intros Hclear. unfold download, of_result.
  destruct (dns env) as [addresses | e];
    [| intros E; injection E as <- <-; auto].
  unfold bind at 1. unfold ret at 1. cbv beta iota.
  unfold bind at 1. unfold get at 1, gets at 1. cbv beta iota.
  destruct (_ <? 0); [intros E; injection E as <- <-; auto |].
  assert (Hadd : scratch_clear (snd (_add_files axes s))).
  { intros tmp name Htmp. rewrite add_files_os. apply Hclear.
    rewrite <- (add_files_frame _tmp_directory tmp_directory_untouched axes s).
    exact Htmp. }
  pose proof (run_workers_files addresses
                (Time.total_seconds (deadline (cfg (self s)) - clock env))
                (schedule env) _ Hadd) as Hrun.
  rewrite add_files_os in Hrun.
  pose proof (add_files_os s) as Hos.
  unfold bind at 1.
  destruct (_add_files axes s) as [[[] | e] s0]; simpl in *.
  2: { intros E; injection E as <- <-. rewrite Hos. auto. }
  unfold bind at 1.
  destruct (_run_workers unpack_grib addresses _ (schedule env) s0)
    as [[[] | e] s1]; simpl in *;
    [| intros E; injection E as <- <-; exact Hrun].
  unfold_monad. simpl.
  destruct (completed (self s1)); simpl;
    [| intros E; injection E as <- <-; exact Hrun].
  destruct (Checklist.all (_checklist (self s1))); simpl;
    intros E; injection E as <- <-; exact Hrun.
Qed.

End SessionFiles.

(** ** A whole session: [open], [download], [close] *)

Section WholeSession.

Variable axes : Dataset_axes.
Variable unpack_grib : string -> Z -> Checklist.t -> result unit * Checklist.t.

Lemma constructed_unopened
    (dir : string) (t tmo fft : Z) (wd wg : bool) (dl : option Z) (now : Z) d :
  DatasetDownloader axes dir t tmo fft wd wg dl now = Ok d ->
  unopened d /\ directory (cfg d) = dir /\ ds_time (cfg d) = t /\
  write_dataset (cfg d) = wd /\ write_gribmirror (cfg d) = wg.
Proof.
  unfold DatasetDownloader, unopened.
  destruct (negb (bool_decide _)); [discriminate |].
  destruct (negb (Time.on_the_hour _)); [discriminate |].
  destruct (negb (wd || wg)); [discriminate |].
  intros [= <-]. simpl. repeat split; reflexivity.
Qed.

(** [open], [download] and then [close], as [main] and the daemon run them:
    [close] returns, the directories are those of before, and the files are
    those of before, with the artifacts published when [download] returned. *)
Lemma session_world d rand env w r s1 :
  unopened d ->
  fresh_name (directory (cfg d)) rand w ->
  (open rand ;; download axes unpack_grib env) (State d w) = (r, s1) ->
  exists s2,
    close None s1 = (Ok tt, s2) /\
    dirs (os s2) = dirs w /\
    fs (os s2)
    = if is_ok r then staged (cfg d) (directory (cfg d)) (fs w) else fs w.
Proof.
  intros (Hds & Hgm & Htmp & Hok) [Hfresh Hnone] Hrun.
  destruct (decide (directory (cfg d) ∈ dirs w)) as [Hdir | Hdir].
  2: { unfold bind in Hrun. rewrite (open_no_directory rand d w Hdir) in Hrun.
       injection Hrun as <- <-.
       exists (State d w). split; [| split; reflexivity].
       apply close_nothing_left; assumption. }
  destruct (open_stages rand d w Hdir)
    as (s0 & Hopen & Hcfg & Hsucc & Htmp0 & Hds0 & Hgm0 & Hfs0 & Hdirs0).
  rewrite (bind_ok _ _ _ _ _ Hopen) in Hrun.
  set (tmp := (directory (cfg d) ++ "/download." ++ rand)%string) in *.
  rewrite Hds in Hds0. rewrite Hgm in Hgm0.
  assert (Hclear : scratch_clear s0).
  { intros tmp' name Htmp'. rewrite Htmp0 in Htmp'. injection Htmp' as <-.
    rewrite Hfs0, staged_lookup_nonartifact.
    - apply Hnone. reflexivity.
    - unfold artifacts.
      destruct (write_dataset (cfg d)), (write_gribmirror (cfg d)); simpl;
        intros H;
        repeat match goal with
               | H : _ ∈ _ :: _ |- _ => apply elem_of_cons in H as [H | H]
               | H : _ ∈ [] |- _ => apply elem_of_nil in H; destruct H
               end; discriminate. }
  destruct (download_files axes unpack_grib env s0 r s1 Hclear Hrun)
    as [Hfs1 Hdirs1].
  pose proof (download_success axes unpack_grib env s0) as Hverdict.
  rewrite Hrun in Hverdict.
  destruct (Hverdict ltac:(congruence)) as [Hiff _]. clear Hverdict.
  assert (Hframe : forall {A} (f : downloader -> A),
             untouched_by_workers f ->
             (forall v x, f (set_success v x) = f x) ->
             f (self s1) = f (self s0)).
  { intros A f Hf Hs.
    pose proof (download_frame axes unpack_grib f env Hf Hs s0) as H.
    rewrite Hrun in H. exact H. }
  pose proof (Hframe _ cfg cfg_untouched (fun _ _ => eq_refl)) as Hcfg1.
  pose proof (Hframe _ _tmp_directory tmp_directory_untouched
                (fun _ _ => eq_refl)) as Htmp1.
  pose proof (Hframe _ _dataset dataset_untouched (fun _ _ => eq_refl)) as Hds1.
  pose proof (Hframe _ _gribmirror gribmirror_untouched
                (fun _ _ => eq_refl)) as Hgm1.
  assert (Hc : cfg (self s1) = cfg d) by congruence.
  destruct (close_staged s1 tmp (fs w)) as (s2 & Hclose & Hdirs2 & Hfs2).
  - congruence.
  - rewrite Hc. congruence.
  - rewrite Hc. congruence.
  - rewrite Hc. congruence.
  - exact Hnone.
  - rewrite Hdirs1, Hdirs0. apply elem_of_union_l, elem_of_singleton.
    reflexivity.
  - rewrite Hc. intros E. apply Hfresh. rewrite E. exact Hdir.
  - exists s2. split; [exact Hclose |]. split.
    + rewrite Hdirs2, Hdirs1, Hdirs0. apply set_eq. intros x.
      rewrite elem_of_difference, elem_of_union, !elem_of_singleton.
      split; [intros [[-> | Hx] Hn]; [destruct Hn; reflexivity | exact Hx] |].
      intros Hx. split; [right; exact Hx | intros ->; exact (Hfresh Hx)].
    + rewrite Hfs2, Hc.
      destruct r as [[] | e]; simpl.
      * rewrite (proj2 Hiff eq_refl). reflexivity.
      * destruct (success (self s1)); [| reflexivity].
        discriminate (proj1 Hiff eq_refl).
Qed.

Lemma main_download_runs d rand env w r w' :
  main_download axes unpack_grib (Ok d) rand env w = (r, w') ->
  unopened d ->
  fresh_name (directory (cfg d)) rand w ->
  r = fst ((open rand ;; download axes unpack_grib env) (State d w)) /\
  dirs w' = dirs w /\
  fs w' = if is_ok r then staged (cfg d) (directory (cfg d)) (fs w) else fs w.
Proof.
  intros Hmain Hun Hfresh. unfold main_download, try_finally in Hmain.
  destruct ((open rand ;; download axes unpack_grib env) (State d w))
    as [r1 s1] eqn:Hrun.
  destruct (session_world d rand env w r1 s1 Hun Hfresh Hrun)
    as (s2 & Hclose & Hdirs & Hfs).
  rewrite Hclose in Hmain. injection Hmain as <- <-. auto.
Qed.

(** A [download] command that ends with an exception leaves the files and
    the directories exactly as they were: the temporary directory and the
    staged artifacts are gone, and nothing is published. *)
Theorem failed_session_restores_files :
  forall (dir : string) (t tmo fft : Z) (wd wg : bool) (dl : option Z)
         (now : Z) (d : downloader) (rand : string) (env : session_env)
         (w w' : world) (e : exn),
    DatasetDownloader axes dir t tmo fft wd wg dl now = Ok d ->
    fresh_name dir rand w ->
    main_download axes unpack_grib (Ok d) rand env w = (Raise e, w') ->
    fs w' = fs w /\ dirs w' = dirs w /\
    fst ((open rand ;; download axes unpack_grib env) (State d w)) = Raise e.
Proof.
  intros dir t tmo fft wd wg dl now d rand env w w' e Hnew Hfresh Hmain.
  destruct (constructed_unopened _ _ _ _ _ _ _ _ _ Hnew)
    as (Hun & Hdir & _).
  rewrite <- Hdir in Hfresh.
  destruct (main_download_runs d rand env w _ _ Hmain Hun Hfresh)
    as (Hr & Hdirs & Hfs).
  simpl in Hfs. auto.
Qed.

(** A [download] command that returns has published the artifacts of the
    session in the dataset directory, has changed no other file, and has
    removed its temporary directory. *)
Theorem returned_session_publishes :
  forall (dir : string) (t tmo fft : Z) (wd wg : bool) (dl : option Z)
         (now : Z) (d : downloader) (rand : string) (env : session_env)
         (w w' : world),
    DatasetDownloader axes dir t tmo fft wd wg dl now = Ok d ->
    fresh_name dir rand w ->
    main_download axes unpack_grib (Ok d) rand env w = (Ok tt, w') ->
    (wd = true -> is_Some (fs w' !! Artifact dir t "")) /\
    (wg = true -> is_Some (fs w' !! Artifact dir t SUFFIX_GRIBMIRROR)) /\
    (forall p, p ∉ artifacts (cfg d) dir -> fs w' !! p = fs w !! p) /\
    dirs w' = dirs w.
Proof.
  intros dir t tmo fft wd wg dl now d rand env w w' Hnew Hfresh Hmain.
  destruct (constructed_unopened _ _ _ _ _ _ _ _ _ Hnew)
    as (Hun & Hdir & Ht & Hwd & Hwg).
  rewrite <- Hdir in Hfresh.
  destruct (main_download_runs d rand env w _ _ Hmain Hun Hfresh)
    as (Hr & Hdirs & Hfs).
  simpl in Hfs. rewrite Hfs, Hdir.
  assert (Hin : forall p, p ∈ artifacts (cfg d) dir ->
                  is_Some (staged (cfg d) dir (fs w) !! p)).
  { intros p Hp. rewrite (staged_lookup_artifact _ _ _ _ Hp). eexists.
    reflexivity. }
  split; [| split; [| split]].
  - intros ->. apply Hin. unfold artifacts. rewrite Hwd, Ht. left.
  - intros ->. apply Hin. unfold artifacts. rewrite Hwg, Ht.
    apply elem_of_app. right. left.
  - intros p Hp. apply staged_lookup_nonartifact, Hp.
  - exact Hdirs.
Qed.

(** The daemon's [_download] for a dataset-time that the constructor
    accepts: it returns unless the session ended with a [GreenletExit],
    [KeyboardInterrupt] or [SystemExit], which it lets through; the
    directories are those of before; and either the files are exactly those
    of before (the session failed) or the session returned and its two
    artifacts are published, every other file being as before. *)
Theorem daemon_download_outcome :
  forall (dm : daemon) (env : cycle_env) (t : Z) (d : downloader)
         (w w' : world) (r : result unit),
    DatasetDownloader_default axes (d_directory dm) t (init_now env) = Ok d ->
    fresh_name (d_directory dm) (tmp_rand env) w ->
    _download axes unpack_grib dm env t w = (r, w') ->
    let ran :=
      fst ((open (tmp_rand env) ;; download axes unpack_grib (session env))
             (State d w)) in
    r = match ran with
        | Raise e => if is_exit e then Raise e else Ok tt
        | Ok _ => Ok tt
        end /\
    dirs w' = dirs w /\
    (ran <> Ok tt -> fs w' = fs w) /\
    (ran = Ok tt ->
     is_Some (fs w' !! Artifact (d_directory dm) t "") /\
     is_Some (fs w' !! Artifact (d_directory dm) t SUFFIX_GRIBMIRROR) /\
     forall p,
       p <> Artifact (d_directory dm) t "" ->
       p <> Artifact (d_directory dm) t SUFFIX_GRIBMIRROR ->
       fs w' !! p = fs w !! p).
Proof.
  intros dm env t d w w' r Hnew Hfresh Hrun ran. subst ran.
  unfold _download in Hrun. rewrite Hnew in Hrun.
  unfold DatasetDownloader_default in Hnew.
  destruct (constructed_unopened _ _ _ _ _ _ _ _ _ Hnew)
    as (Hun & Hdir & Ht & Hwd & Hwg).
  rewrite <- Hdir in Hfresh.
  destruct ((open (tmp_rand env) ;; download axes unpack_grib (session env))
              (State d w)) as [r1 s1] eqn:Hses.
  destruct (session_world d (tmp_rand env) (session env) w r1 s1 Hun Hfresh Hses)
    as (s2 & Hclose & Hdirs & Hfs).
  rewrite Hclose in Hrun. injection Hrun as <- <-. simpl fst.
  split; [reflexivity |]. split; [exact Hdirs |].
  rewrite Hfs, Hdir. split.
  - destruct r1 as [[] | e]; [intros H; destruct H; reflexivity | reflexivity].
  - intros ->. simpl. unfold staged. rewrite Hwd, Hwg, Ht.
    split; [| split].
    + rewrite lookup_insert_ne by discriminate. rewrite lookup_insert_eq.
      eexists; reflexivity.
    + rewrite lookup_insert_eq. eexists; reflexivity.
    + intros p H1 H2. rewrite !lookup_insert_ne by congruence. reflexivity.
Qed.

End WholeSession.

Lemma scenario_fresh_name : fresh_name "datasets" "XYZ" Scenario.world0.
Proof.
  split.
  - apply (bool_decide_unpack _). vm_compute. exact I.
  - intros p _. reflexivity.
Defined.

Lemma failed_session_witness :
  fs (snd (main_download Scenario.axes Scenario.unpack_grib
             (Ok (self Scenario.session0)) "XYZ" Scenario.silent
             Scenario.world0))
  = fs Scenario.world0 /\
  dirs (snd (main_download Scenario.axes Scenario.unpack_grib
               (Ok (self Scenario.session0)) "XYZ" Scenario.silent
               Scenario.world0))
  = dirs Scenario.world0.
Proof.
  assert (Hnew : DatasetDownloader Scenario.axes "datasets" Scenario.T 120 600
                   true true None Scenario.published
                 = Ok (self Scenario.session0))
    by (vm_compute; reflexivity).
  assert (Hmain : main_download Scenario.axes Scenario.unpack_grib
                    (Ok (self Scenario.session0)) "XYZ" Scenario.silent
                    Scenario.world0
                  = (Raise (ValueError "timed out"),
                     snd (main_download Scenario.axes Scenario.unpack_grib
                            (Ok (self Scenario.session0)) "XYZ" Scenario.silent
                            Scenario.world0)))
    by (apply pair_of_fst; vm_compute; reflexivity).
  destruct (failed_session_restores_files Scenario.axes Scenario.unpack_grib
              "datasets" Scenario.T 120 600 true true None Scenario.published
              (self Scenario.session0) "XYZ" Scenario.silent Scenario.world0
              _ _ Hnew scenario_fresh_name Hmain) as (Hfs & Hdirs & _).
  split; [exact Hfs | exact Hdirs].
Defined.

Lemma returned_session_witness :
  is_Some (fs (snd (main_download Scenario.axes Scenario.unpack_grib
                      (Ok (self Scenario.session0)) "XYZ" Scenario.serving
                      Scenario.world0))
           !! Artifact "datasets" Scenario.T "") /\
  dirs (snd (main_download Scenario.axes Scenario.unpack_grib
               (Ok (self Scenario.session0)) "XYZ" Scenario.serving
               Scenario.world0))
  = dirs Scenario.world0.
Proof.
  assert (Hnew : DatasetDownloader Scenario.axes "datasets" Scenario.T 120 600
                   true true None Scenario.published
                 = Ok (self Scenario.session0))
    by (vm_compute; reflexivity).
  assert (Hmain : main_download Scenario.axes Scenario.unpack_grib
                    (Ok (self Scenario.session0)) "XYZ" Scenario.serving
                    Scenario.world0
                  = (Ok tt,
                     snd (main_download Scenario.axes Scenario.unpack_grib
                            (Ok (self Scenario.session0)) "XYZ"
                            Scenario.serving Scenario.world0)))
    by (apply pair_of_fst; vm_compute; reflexivity).
  destruct (returned_session_publishes Scenario.axes Scenario.unpack_grib
              "datasets" Scenario.T 120 600 true true None Scenario.published
              (self Scenario.session0) "XYZ" Scenario.serving Scenario.world0
              _ Hnew scenario_fresh_name Hmain) as (Hd & _ & _ & Hdirs).
  split; [exact (Hd eq_refl) | exact Hdirs].
Defined.

Lemma daemon_download_witness :
  fst (_download Scenario.axes Scenario.unpack_grib Scenario.dm
         Scenario.silent_cycle Scenario.T Scenario.world0) = Ok tt /\
  fs (snd (_download Scenario.axes Scenario.unpack_grib Scenario.dm
             Scenario.silent_cycle Scenario.T Scenario.world0))
  = fs Scenario.world0.
Proof.
  assert (Hnew : DatasetDownloader_default Scenario.axes
                   (d_directory Scenario.dm) Scenario.T
                   (init_now Scenario.silent_cycle)
                 = Ok (self Scenario.session0))
    by (vm_compute; reflexivity).
  assert (Hfresh : fresh_name (d_directory Scenario.dm)
                     (tmp_rand Scenario.silent_cycle) Scenario.world0)
    by exact scenario_fresh_name.
  assert (Hran : fst ((open (tmp_rand Scenario.silent_cycle) ;;
                       download Scenario.axes Scenario.unpack_grib
                         (session Scenario.silent_cycle))
                        (State (self Scenario.session0) Scenario.world0))
                 = Raise (ValueError "timed out"))
    by (vm_compute; reflexivity).
  pose proof (daemon_download_outcome Scenario.axes Scenario.unpack_grib
                Scenario.dm Scenario.silent_cycle Scenario.T
                (self Scenario.session0) Scenario.world0 _ _ Hnew Hfresh
                (surjective_pairing _)) as H.
  cbv zeta in H. rewrite Hran in H. destruct H as (Hr & _ & Hfs & _).
  split; [exact Hr | apply Hfs; discriminate].
Defined.

(** ** Cleaning the dataset directory *)

#[global] Instance newer_first_transitive : Transitive newer_first.
Proof. intros a b c. unfold newer_first. lia. Qed.

#[global] Instance newer_first_total : Total newer_first.
Proof. intros a b. unfold newer_first. lia. Qed.

Lemma listing_elem dir (f : gmap path string) p :
  p ∈ filter (fun p => parent p = dir) (map fst (map_to_list f))
  <-> parent p = dir /\ is_Some (f !! p).
Proof.
  rewrite list_elem_of_filter. split; intros [Hp Hin]; (split; [exact Hp |]).
  - apply list_elem_of_fmap in Hin as ([q c] & -> & Hin).
    apply elem_of_map_to_list in Hin. exists c. exact Hin.
  - destruct Hin as [c Hc]. apply list_elem_of_fmap. exists (p, c).
    split; [reflexivity | apply elem_of_map_to_list, Hc].
Qed.

Lemma listing_NoDup dir (f : gmap path string) :
  NoDup (filter (fun p => parent p = dir) (map fst (map_to_list f))).
Proof. apply NoDup_filter, NoDup_fst_map_to_list. Qed.

Lemma rows_NoDup (sel : path -> option listdir_row) l :
  (forall p row, sel p = Some row -> row_path row = p) ->
  NoDup l -> NoDup (map row_path (omap sel l)).
Proof.
  intros Hsel. induction 1 as [| p l Hp Hl IH]; simpl; [constructor |].
  destruct (sel p) as [row |] eqn:E; [| exact IH].
  simpl. constructor; [| exact IH].
  rewrite (Hsel _ _ E). intros Hin.
  apply list_elem_of_fmap in Hin as (row' & -> & Hin).
  apply list_elem_of_omap in Hin as (q & Hq & Hsq).
  rewrite (Hsel _ _ Hsq) in Hp. exact (Hp Hq).
Qed.

(** [Dataset.listdir] on an existing directory: one row for each artifact of
    the directory whose suffix is wanted, and nothing changes. *)
Lemma Dataset_listdir_rows dir only w :
  dir ∈ dirs w ->
  exists rows,
    Dataset_listdir dir only w
    = (Ok rows, World (fs w) (dirs w) (trace w ++ [EListdir dir])) /\
    NoDup (map row_path rows) /\
    forall row,
      row ∈ rows <->
      exists t sfx,
        row = Row t sfx (Artifact dir t sfx) /\
        is_Some (fs w !! Artifact dir t sfx) /\
        match only with Some ok => sfx ∈ ok | None => True end.
Proof.
  intros Hdir. unfold Dataset_listdir, OS.listdir, OS.exists_dir, OS.emit.
  unfold_monad. simpl. rewrite bool_decide_true by exact Hdir. simpl.
  eexists. split; [reflexivity |]. split.
  - apply rows_NoDup; [| apply listing_NoDup].
    intros [d t sfx | d n] row; [| discriminate].
    destruct only as [ok |]; [destruct (bool_decide _) |];
      intros [= <-]; reflexivity.
  - intros row. rewrite list_elem_of_omap. split.
    + intros ([d t sfx | d n] & Hin & Hsel); [| discriminate].
      apply listing_elem in Hin as [Hp Hin]. simpl in Hp. subst d.
      exists t, sfx.
      destruct only as [ok |].
      * destruct (bool_decide (sfx ∈ ok)) eqn:E; [| discriminate].
        injection Hsel as <-. apply bool_decide_eq_true in E. auto.
      * injection Hsel as <-. auto.
    + intros (t & sfx & -> & Hin & Hok).
      exists (Artifact dir t sfx). split.
      * apply listing_elem. split; [reflexivity | exact Hin].
      * destruct only as [ok |]; [| reflexivity].
        rewrite bool_decide_true by exact Hok. reflexivity.
Qed.

(** The loop of [clean_directory] over rows of existing, distinct files:
    it unlinks those whose dataset-time is not kept and no other file. *)
Lemma clean_loop (keep : list Z) rows w :
  NoDup (map row_path rows) ->
  (forall row, row ∈ rows -> is_Some (fs w !! row_path row)) ->
  exists w',
    for_each rows (fun row =>
      when (negb (bool_decide (row_ds_time row ∈ keep)))
        (OS.unlink (row_path row))) w = (Ok tt, w') /\
    dirs w' = dirs w /\
    (forall row, row ∈ rows -> row_ds_time row ∉ keep ->
                 fs w' !! row_path row = None) /\
    (forall p, (forall row, row ∈ rows -> row_path row = p ->
                            row_ds_time row ∈ keep) ->
               fs w' !! p = fs w !! p).
Proof.
  revert w. induction rows as [| row rows IH]; intros w Hnd Hex.
  - exists w. split; [reflexivity |]. split; [reflexivity |]. split.
    + intros row Hin. apply elem_of_nil in Hin. destruct Hin.
    + reflexivity.
  - simpl in Hnd. apply NoDup_cons in Hnd as [Hhead Hnd].
    assert (Hstep : exists w1,
      when (negb (bool_decide (row_ds_time row ∈ keep)))
        (OS.unlink (row_path row)) w = (Ok tt, w1) /\
      dirs w1 = dirs w /\
      fs w1 = if bool_decide (row_ds_time row ∈ keep) then fs w
              else delete (row_path row) (fs w)).
    { destruct (bool_decide (row_ds_time row ∈ keep)); simpl.
      - exists w. auto.
      - unfold OS.unlink, OS.exists_file, OS.emit, OS.set_fs. unfold_monad.
        simpl. rewrite bool_decide_true by (apply Hex; left).
        eexists. split; [reflexivity |]. auto. }
    destruct Hstep as (w1 & Hrun1 & Hdirs1 & Hfs1).
    assert (Hother : forall p, p <> row_path row -> fs w1 !! p = fs w !! p).
    { intros p Hp. rewrite Hfs1. destruct (bool_decide _); [reflexivity |].
      apply lookup_delete_ne. congruence. }
    destruct (IH w1 Hnd) as (w' & Hrun & Hdirs & Hgone & Hkept).
    { intros r Hr. rewrite Hother.
      - apply Hex. right. exact Hr.
      - intros E. apply Hhead. rewrite <- E. apply list_elem_of_fmap.
        exists r. auto. }
    exists w'. split.
    { simpl. rewrite (bind_ok _ _ _ _ _ Hrun1). exact Hrun. }
    split; [congruence |]. split.
    + intros r Hr Hstale. apply elem_of_cons in Hr as [-> | Hr].
      * rewrite Hkept.
        -- rewrite Hfs1. rewrite bool_decide_false by exact Hstale.
           apply lookup_delete_eq.
        -- intros r' Hr' E. destruct Hhead. rewrite <- E.
           apply list_elem_of_fmap. exists r'. auto.
      * apply Hgone; assumption.
    + intros p Hp. rewrite Hkept.
      * rewrite Hfs1.
        destruct (bool_decide (row_ds_time row ∈ keep)) eqn:E;
          [reflexivity |].
        apply lookup_delete_ne. intros Heq.
        apply bool_decide_eq_false in E. apply E.
        apply (Hp row); [left | exact Heq].
      * intros r' Hr'. apply Hp. right. exact Hr'.
Qed.

(** [clean_directory] on an existing directory, with the dataset-times
    [keep] that it retains. *)
Lemma clean_directory_effect dm w :
  d_directory dm ∈ dirs w ->
  exists datasets w',
    let keep :=
      map row_ds_time
        (slice_to (num_datasets dm) (merge_sort newer_first datasets)) in
    clean_directory dm w = (Ok (head keep), w') /\
    (forall t, t ∈ map row_ds_time datasets
               <-> is_Some (fs w !! Artifact (d_directory dm) t "")) /\
    dirs w' = dirs w /\
    (forall t sfx, t ∉ keep ->
                   fs w' !! Artifact (d_directory dm) t sfx = None) /\
    (forall p, (forall t sfx, p = Artifact (d_directory dm) t sfx -> t ∈ keep) ->
               fs w' !! p = fs w !! p).
Proof.
  intros Hdir. set (dir := d_directory dm) in *.
  destruct (Dataset_listdir_rows dir (Some [""]) w Hdir)
    as (datasets & Hlist1 & _ & Hdatasets).
  set (w1 := World (fs w) (dirs w) (trace w ++ [EListdir dir])) in *.
  destruct (Dataset_listdir_rows dir None w1 Hdir)
    as (rows & Hlist2 & Hnd & Hrows).
  set (w2 := World (fs w1) (dirs w1) (trace w1 ++ [EListdir dir])) in *.
  set (keep := map row_ds_time
                 (slice_to (num_datasets dm) (merge_sort newer_first datasets))).
  destruct (clean_loop keep rows w2 Hnd) as (w' & Hloop & Hdirs & Hgone & Hkept).
  { intros row Hrow. apply Hrows in Hrow as (t & sfx & -> & Hin & _).
    exact Hin. }
  exists datasets, w'. cbv zeta. fold keep.
  split.
  { unfold clean_directory. fold dir.
    rewrite (bind_ok _ _ _ _ _ Hlist1). rewrite (bind_ok _ _ _ _ _ Hlist2).
    fold keep. rewrite (bind_ok _ _ _ _ _ Hloop). reflexivity. }
  split.
  { intros t. rewrite list_elem_of_fmap. split.
    - intros (row & -> & Hrow).
      apply Hdatasets in Hrow as (t & sfx & -> & Hin & Hsfx).
      apply list_elem_of_singleton in Hsfx. subst sfx. exact Hin.
    - intros Hin. exists (Row t "" (Artifact dir t "")).
      split; [reflexivity |]. apply Hdatasets. exists t, "".
      split; [reflexivity |]. split; [exact Hin |].
      apply list_elem_of_singleton. reflexivity. }
  split; [exact Hdirs |]. split.
  - intros t sfx Hstale.
    destruct (fs w !! Artifact dir t sfx) as [c |] eqn:E.
    + apply (Hgone (Row t sfx (Artifact dir t sfx))); [| exact Hstale].
      apply Hrows. exists t, sfx. split; [reflexivity |].
      split; [| exact I]. simpl. rewrite E. eexists; reflexivity.
    + rewrite Hkept; [exact E |].
      intros row Hrow Hpath.
      apply Hrows in Hrow as (t' & sfx' & -> & Hin & _). simpl in *.
      injection Hpath as -> ->. simpl in Hin. rewrite E in Hin.
      destruct Hin as [c Hc]. discriminate.
  - intros p Hp. rewrite Hkept; [reflexivity |].
    intros row Hrow Hpath.
    apply Hrows in Hrow as (t' & sfx' & -> & Hin & _). simpl in *.
    apply (Hp t' sfx'). symmetry. exact Hpath.
Qed.

(** [clean_directory] when the dataset directory is missing. *)
Lemma clean_directory_no_directory dm w :
  d_directory dm ∉ dirs w ->
  clean_directory dm w = (Raise (OSError "No such file or directory"), w).
Proof.
  intros H. unfold clean_directory, Dataset_listdir, OS.listdir, OS.exists_dir.
  unfold_monad. simpl. rewrite bool_decide_false by exact H. reflexivity.
Qed.

(** The newest of the rows, first in the sorted list. *)
Lemma sorted_head_newest (datasets : list listdir_row) :
  match merge_sort newer_first datasets with
  | [] => datasets = []
  | row :: _ =>
      row ∈ datasets /\
      forall row', row' ∈ datasets -> row_ds_time row' <= row_ds_time row
  end.
Proof.
  pose proof (merge_sort_Permutation newer_first datasets) as Hperm.
  pose proof (StronglySorted_merge_sort newer_first datasets) as Hsorted.
  destruct (merge_sort newer_first datasets) as [| row rest].
  - symmetry. apply Permutation_nil_l. exact Hperm.
  - split.
    + rewrite <- Hperm. left.
    + intros row' Hin. rewrite <- Hperm in Hin.
      apply StronglySorted_inv in Hsorted as [_ Hall].
      apply elem_of_cons in Hin as [-> | Hin]; [lia |].
      rewrite Forall_forall in Hall. apply (Hall row' Hin).
Qed.

Lemma slice_to_subseteq {A} (n : Z) (l : list A) x :
  x ∈ slice_to n l -> x ∈ l.
Proof.
  unfold slice_to. destruct (0 <=? n); intros H;
    apply elem_of_take in H as (i & Hi & _);
    apply (list_elem_of_lookup_2 _ _ _ Hi).
Qed.

Lemma kept_has_dataset (n : Z) (datasets : list listdir_row) t :
  t ∈ map row_ds_time (slice_to n (merge_sort newer_first datasets)) ->
  t ∈ map row_ds_time datasets.
Proof.
  intros H. apply list_elem_of_fmap in H as (row & -> & H).
  apply slice_to_subseteq in H. rewrite merge_sort_Permutation in H.
  apply list_elem_of_fmap. exists row. auto.
Qed.

Lemma clean_directory_newest dm w w' r :
  d_directory dm ∈ dirs w ->
  1 <= num_datasets dm ->
  clean_directory dm w = (r, w') ->
  exists last,
    r = Ok last /\
    (last = None -> forall t, fs w !! Artifact (d_directory dm) t "" = None) /\
    (forall t, last = Some t ->
       is_Some (fs w !! Artifact (d_directory dm) t "") /\
       (forall t', is_Some (fs w !! Artifact (d_directory dm) t' "") ->
                   t' <= t) /\
       (forall sfx, fs w' !! Artifact (d_directory dm) t sfx
                    = fs w !! Artifact (d_directory dm) t sfx)).
Proof.
  intros Hdir Hn Hrun.
  destruct (clean_directory_effect dm w Hdir)
    as (datasets & w1 & Heff & Hdatasets & _ & _ & Hkept).
  cbv zeta in Heff. rewrite Hrun in Heff. injection Heff as -> <-.
  eexists. split; [reflexivity |].
  pose proof (sorted_head_newest datasets) as Hnew.
  unfold slice_to in *.
  destruct (Z.leb_spec 0 (num_datasets dm)) as [_ | Hneg]; [| lia].
  destruct (Z.to_nat (num_datasets dm)) as [| k] eqn:Ek; [lia |].
  destruct (merge_sort newer_first datasets) as [| row rest]; simpl in *.
  - subst datasets. split; [| discriminate]. intros _ t.
    destruct (fs w !! Artifact (d_directory dm) t "") eqn:E; [| reflexivity].
    assert (Hin : t ∈ map row_ds_time []).
    { apply Hdatasets. rewrite E. eexists; reflexivity. }
    apply elem_of_nil in Hin. destruct Hin.
  - destruct Hnew as [Hrow Hmax].
    split; [discriminate |]. intros t [= <-].
    split; [| split].
    + apply Hdatasets, list_elem_of_fmap. exists row. auto.
    + intros t' Ht'. apply Hdatasets in Ht'.
      apply list_elem_of_fmap in Ht' as (row' & -> & Hrow').
      apply Hmax, Hrow'.
    + intros sfx. apply Hkept. intros t' sfx' [= <- _]. left.
Qed.

(** With at least one dataset to keep, [clean_directory] returns the newest
    dataset-time that has a dataset file in the directory, [None] when there
    is none, and leaves the files of that dataset-time in place. *)
Theorem clean_directory_returns_newest :
  forall (dm : daemon) (w w' : world) (r : result (option Z)),
    d_directory dm ∈ dirs w ->
    1 <= num_datasets dm ->
    clean_directory dm w = (r, w') ->
    match r with
    | Ok None => forall t, fs w !! Artifact (d_directory dm) t "" = None
    | Ok (Some t) =>
        is_Some (fs w !! Artifact (d_directory dm) t "") /\
        (forall t', is_Some (fs w !! Artifact (d_directory dm) t' "") ->
                    t' <= t) /\
        (forall sfx, fs w' !! Artifact (d_directory dm) t sfx
                     = fs w !! Artifact (d_directory dm) t sfx)
    | Raise _ => False
    end.
Proof.
  intros dm w w' r Hdir Hn Hrun.
  destruct (clean_directory_newest dm w w' r Hdir Hn Hrun)
    as (last & -> & Hnone & Hsome).
  destruct last as [t |].
  - apply Hsome. reflexivity.
  - apply Hnone. reflexivity.
Qed.

(** [clean_directory] returns exactly when the dataset directory exists, and
    otherwise changes nothing.  It creates no file and no directory and
    rewrites no file; all it removes are artifacts of the dataset
    directory.  When it returns, every artifact left in the directory
    belongs to a dataset-time whose dataset file is left too, and every
    dataset-time whose dataset file is left has all its files as before. *)
Theorem clean_directory_only_removes_artifacts :
  forall (dm : daemon) (w w' : world) (r : result (option Z)),
    clean_directory dm w = (r, w') ->
    (is_ok r = true <-> d_directory dm ∈ dirs w) /\
    (is_ok r = false -> w' = w) /\
    dirs w' = dirs w /\
    (forall p,
       fs w' !! p = fs w !! p \/
       fs w' !! p = None /\ exists t sfx, p = Artifact (d_directory dm) t sfx) /\
    (is_ok r = true ->
     forall t sfx,
       is_Some (fs w' !! Artifact (d_directory dm) t sfx) ->
       is_Some (fs w' !! Artifact (d_directory dm) t "") /\
       forall sfx', fs w' !! Artifact (d_directory dm) t sfx'
                    = fs w !! Artifact (d_directory dm) t sfx').
Proof.
  intros dm w w' r Hrun.
  destruct (decide (d_directory dm ∈ dirs w)) as [Hdir | Hdir].
  2: { rewrite (clean_directory_no_directory dm w Hdir) in Hrun.
       injection Hrun as <- <-. simpl.
       split; [split; [discriminate | intros H; destruct (Hdir H)] |].
       split; [reflexivity |]. split; [reflexivity |].
       split; [left; reflexivity | discriminate]. }
  destruct (clean_directory_effect dm w Hdir)
    as (datasets & w1 & Heff & Hdatasets & Hdirs & Hgone & Hkept).
  cbv zeta in Heff. rewrite Hrun in Heff. injection Heff as -> <-.
  set (keep := map row_ds_time
                 (slice_to (num_datasets dm) (merge_sort newer_first datasets)))
    in *.
  simpl. split; [split; auto |]. split; [discriminate |].
  split; [exact Hdirs |]. split.
  - intros [d t sfx | d n].
    + destruct (decide (d = d_directory dm)) as [-> | Hd].
      * destruct (decide (t ∈ keep)) as [Hin | Hout].
        -- left. apply Hkept. intros t' sfx' [= <- _]. exact Hin.
        -- right. split; [apply Hgone, Hout | eauto].
      * left. apply Hkept. intros t' sfx' [= -> _ _]. destruct Hd. reflexivity.
    + left. apply Hkept. intros t' sfx'. discriminate.
  - intros _ t sfx Hleft.
    assert (Hin : t ∈ keep).
    { destruct (decide (t ∈ keep)) as [Hin | Hout]; [exact Hin |].
      rewrite (Hgone t sfx Hout) in Hleft. destruct Hleft as [c Hc].
      discriminate. }
    assert (Hsame : forall sfx', fs w' !! Artifact (d_directory dm) t sfx'
                                 = fs w !! Artifact (d_directory dm) t sfx').
    { intros sfx'. apply Hkept. intros t' sfx'' [= <- _]. exact Hin. }
    split; [| exact Hsame].
    rewrite Hsame. apply Hdatasets. apply (kept_has_dataset _ _ _ Hin).
Qed.

(** After [clean_directory] with a count [num_datasets >= 0], the artifacts
    left in the directory belong to at most [num_datasets] dataset-times. *)
Theorem clean_directory_bounds_datasets :
  forall (dm : daemon) (w w' : world) (last : option Z),
    0 <= num_datasets dm ->
    clean_directory dm w = (Ok last, w') ->
    exists keep : list Z,
      Z.of_nat (length keep) <= num_datasets dm /\
      forall t sfx,
        is_Some (fs w' !! Artifact (d_directory dm) t sfx) -> t ∈ keep.
Proof.
  intros dm w w' last Hn Hrun.
  destruct (decide (d_directory dm ∈ dirs w)) as [Hdir | Hdir].
  2: { rewrite (clean_directory_no_directory dm w Hdir) in Hrun.
       discriminate. }
  destruct (clean_directory_effect dm w Hdir)
    as (datasets & w1 & Heff & _ & _ & Hgone & _).
  cbv zeta in Heff. rewrite Hrun in Heff. injection Heff as _ <-.
  eexists. split; [| intros t sfx Hleft].
  2: { match goal with
       | |- t ∈ ?keep => destruct (decide (t ∈ keep)) as [Hin | Hout]
       end; [exact Hin |].
       rewrite (Hgone t sfx Hout) in Hleft. destruct Hleft as [c Hc].
       discriminate. }
  rewrite length_map. unfold slice_to.
  destruct (Z.leb_spec 0 (num_datasets dm)); [| lia].
  rewrite length_take. lia.
Qed.

Lemma stocked_directory : d_directory Scenario.dm ∈ dirs stocked.
Proof. apply (bool_decide_unpack _). vm_compute. exact I. Defined.

Lemma clean_directory_newest_witness :
  is_Some (fs stocked !! Artifact "datasets" (6 * Time.hour) "") /\
  forall t', is_Some (fs stocked !! Artifact "datasets" t' "") ->
             t' <= 6 * Time.hour.
Proof.
  assert (Hrun : clean_directory Scenario.dm stocked
                 = (Ok (Some (6 * Time.hour)),
                    snd (clean_directory Scenario.dm stocked)))
    by (apply pair_of_fst; vm_compute; reflexivity).
  assert (Hn : 1 <= num_datasets Scenario.dm) by (vm_compute; discriminate).
  pose proof (clean_directory_returns_newest Scenario.dm stocked _ _
                stocked_directory Hn Hrun) as H.
  cbv beta iota in H. destruct H as (H1 & H2 & _).
  split; [exact H1 | exact H2].
Defined.

Lemma clean_directory_bounds_witness :
  exists keep : list Z,
    Z.of_nat (length keep) <= 1 /\
    forall t sfx,
      is_Some (fs (snd (clean_directory Scenario.dm stocked))
               !! Artifact "datasets" t sfx) -> t ∈ keep.
Proof.
  assert (Hrun : clean_directory Scenario.dm stocked
                 = (Ok (Some (6 * Time.hour)),
                    snd (clean_directory Scenario.dm stocked)))
    by (apply pair_of_fst; vm_compute; reflexivity).
  assert (Hn : 0 <= num_datasets Scenario.dm) by (vm_compute; discriminate).
  exact (clean_directory_bounds_datasets Scenario.dm stocked _ _ Hn Hrun).
Defined.

Lemma clean_directory_removes_witness :
  dirs (snd (clean_directory Scenario.dm stocked)) = dirs stocked /\
  forall p,
    fs (snd (clean_directory Scenario.dm stocked)) !! p = fs stocked !! p \/
    fs (snd (clean_directory Scenario.dm stocked)) !! p = None /\
    exists t sfx, p = Artifact (d_directory Scenario.dm) t sfx.
Proof.
  destruct (clean_directory_only_removes_artifacts Scenario.dm stocked _ _
              (surjective_pairing (clean_directory Scenario.dm stocked)))
    as (_ & _ & Hdirs & Hfs & _).
  split; [exact Hdirs | exact Hfs].
Defined.

(** ** A turn of the daemon's loop *)

Section Cycle.

Variable axes : Dataset_axes.
Variable unpack_grib : string -> Z -> Checklist.t -> result unit * Checklist.t.

(** The wait at the head of the loop changes neither files nor
    directories. *)
Lemma cycle_wait_world (now next_dataset : Z) w :
  exists w0,
    (match run_wait now next_dataset with
     | Some wait_for => OS.sleep wait_for
     | None => ret tt
     end) w = (Ok tt, w0) /\
    fs w0 = fs w /\ dirs w0 = dirs w.
Proof.
  destruct (run_wait now next_dataset); eexists; (split; [reflexivity |]);
    split; reflexivity.
Qed.

(** A turn of the daemon's loop whose session returned: [clean_directory]
    finds the dataset just published to be the newest, the assertion holds
    and the loop goes on to the dataset-time six hours later.  This takes a
    directory that holds no dataset newer than the target and a count of
    datasets to keep of at least one. *)
Theorem returned_session_advances_cycle :
  forall (dm : daemon) (env : cycle_env) (next_dataset : Z) (d : downloader)
         (w : world),
    DatasetDownloader_default axes (d_directory dm) next_dataset (init_now env)
    = Ok d ->
    1 <= num_datasets dm ->
    (forall t, is_Some (fs w !! Artifact (d_directory dm) t "") ->
               t <= next_dataset) ->
    fresh_name (d_directory dm) (tmp_rand env) w ->
    let w0 :=
      snd ((match run_wait (wait_now env) next_dataset with
            | Some wait_for => OS.sleep wait_for
            | None => ret tt
            end) w) in
    fst ((open (tmp_rand env) ;; download axes unpack_grib (session env))
           (State d w0)) = Ok tt ->
    fst (run_cycle axes unpack_grib dm env next_dataset w)
    = Ok (next_dataset + Time.timedelta 6 0).
Proof.
  intros dm env next d w Hnew Hn Hnewest Hfresh w0 Hran.
  destruct (cycle_wait_world (wait_now env) next w) as (w0' & Hwait & Hfs0 & Hdirs0).
  subst w0. rewrite Hwait in Hran. simpl in Hran.
  unfold run_cycle. rewrite (bind_ok _ _ _ _ _ Hwait).
  pose proof Hnew as Hnew'. unfold DatasetDownloader_default in Hnew'.
  destruct (constructed_unopened _ _ _ _ _ _ _ _ _ _ Hnew')
    as (Hun & Hdir & Ht & Hwd & Hwg).
  assert (Hfresh0 : fresh_name (directory (cfg d)) (tmp_rand env) w0').
  { rewrite Hdir. destruct Hfresh as [H1 H2]. split.
    - rewrite Hdirs0. exact H1.
    - intros p Hp. rewrite Hfs0. apply H2, Hp. }
  destruct ((open (tmp_rand env) ;; download axes unpack_grib (session env))
              (State d w0')) as [r1 s1] eqn:Hses.
  simpl in Hran. subst r1.
  destruct (session_world axes unpack_grib d (tmp_rand env) (session env) w0'
              (Ok tt) s1 Hun Hfresh0 Hses) as (s2 & Hclose & Hdirs2 & Hfs2).
  simpl in Hfs2. rewrite Hdir in Hfs2.
  assert (Hdl : _download axes unpack_grib dm env next w0' = (Ok tt, os s2)).
  { unfold _download. rewrite Hnew, Hses, Hclose. reflexivity. }
  rewrite (bind_ok _ _ _ _ _ Hdl).
  assert (Hdir2 : d_directory dm ∈ dirs (os s2)).
  { rewrite Hdirs2.
    destruct (decide (d_directory dm ∈ dirs w0')) as [H | H]; [exact H |].
    rewrite <- Hdir in H. unfold bind in Hses.
    rewrite (open_no_directory (tmp_rand env) d w0' H) in Hses. discriminate. }
  assert (Hpub : is_Some (fs (os s2) !! Artifact (d_directory dm) next "")).
  { rewrite Hfs2. rewrite staged_lookup_artifact; [eexists; reflexivity |].
    unfold artifacts. rewrite Hwd, Ht. left. }
  destruct (clean_directory dm (os s2)) as [r w3] eqn:Hclean.
  destruct (clean_directory_newest dm (os s2) w3 r Hdir2 Hn Hclean)
    as (last & -> & Hnone & Hsome).
  rewrite (bind_ok _ _ _ _ _ Hclean).
  destruct last as [t |].
  - destruct (Hsome t eq_refl) as (Hin & Hmax & _).
    assert (t = next) as ->.
    { apply Z.le_antisymm; [| apply Hmax, Hpub].
      rewrite Hfs2 in Hin.
      destruct (decide (Artifact (d_directory dm) t ""
                        ∈ artifacts (cfg d) (d_directory dm))) as [Ha | Ha].
      - unfold artifacts in Ha. rewrite Hwd, Hwg, Ht in Ha.
        apply elem_of_cons in Ha as [[= ->] | Ha]; [lia |].
        apply list_elem_of_singleton in Ha. discriminate.
      - rewrite (staged_lookup_nonartifact _ _ _ _ Ha), Hfs0 in Hin.
        apply Hnewest, Hin. }
    rewrite bool_decide_true by reflexivity. reflexivity.
  - rewrite (Hnone eq_refl) in Hpub. destruct Hpub as [c Hc]. discriminate.
Qed.

End Cycle.

Lemma returned_session_advances_witness :
  fst (run_cycle Scenario.axes Scenario.unpack_grib Scenario.dm
         Scenario.serving_cycle Scenario.T Scenario.world0)
  = Ok (Scenario.T + Time.timedelta 6 0).
Proof.
  assert (Hnew : DatasetDownloader_default Scenario.axes
                   (d_directory Scenario.dm) Scenario.T
                   (init_now Scenario.serving_cycle)
                 = Ok (self Scenario.session0))
    by (vm_compute; reflexivity).
  assert (Hn : 1 <= num_datasets Scenario.dm) by (vm_compute; discriminate).
  assert (Hnewest : forall t,
             is_Some (fs Scenario.world0
                      !! Artifact (d_directory Scenario.dm) t "") ->
             t <= Scenario.T)
    by (intros t [c Hc]; discriminate Hc).
  assert (Hfresh : fresh_name (d_directory Scenario.dm)
                     (tmp_rand Scenario.serving_cycle) Scenario.world0)
    by exact scenario_fresh_name.
  apply (returned_session_advances_cycle Scenario.axes Scenario.unpack_grib
           Scenario.dm Scenario.serving_cycle Scenario.T
           (self Scenario.session0) Scenario.world0 Hnew Hn Hnewest Hfresh).
  vm_compute. reflexivity.
Defined.

(** ** Connections and sleeps *)

Section Connections.

Variable unpack_grib : string -> Z -> Checklist.t -> result unit * Checklist.t.

(** A worker does not hold a connection while it sleeps: when an event of a
    worker ends in a sleep of positive length (the wait for a file's
    [sleep_until], or the server sleep after a failed attempt) and the worker
    lives on, its connection is closed. *)
Theorem sleeping_worker_holds_no_connection :
  forall (ev : sched_event) (s s' : state) (micros : Z) (w' : worker),
    run_event unpack_grib ev s = (Ok tt, s') ->
    trace (os s') <> trace (os s) ->
    last (trace (os s')) = Some (ESleep micros) ->
    0 < micros ->
    _greenlets (self s') !! event_worker ev = Some w' ->
    _connection w' = None.
Proof.
  intros ev s s' micros w' Hrun Htrace Hlast Hpos Hw'.
  unfold run_event in Hrun. unfold bind at 1 in Hrun.
  unfold get, gets in Hrun.
  assert (Hskip : forall r0 : result unit, (r0, s) = (Ok tt, s') -> False).
  { intros r0 [= _ <-]. apply Htrace. reflexivity. }
  destruct ev as [i now | i resp now]; simpl in Hw'; revert Hrun;
    destruct (_greenlets (self s) !! i) as [w |] eqn:Hw;
    try (intros E; destruct (Hskip _ E)).
  - destruct (dead w) eqn:Hd; simpl; [intros E; destruct (Hskip _ E) |].
    destruct (current w) as [req |] eqn:Hc; simpl;
      [intros E; destruct (Hskip _ E) |].
    unfold dies_on_raise, worker_take, _connection_close, update_worker.
    unfold_monad. simpl.
    destruct (PriorityQueue.get (_files (self s))) as [[req q'] |]; simpl;
      [| intros E; destruct (Hskip _ E)].
    destruct (0 <? fr_sleep_until req - now) eqn:E; simpl; intros [= <-];
      simpl in *.
    + rewrite list_alter_alter_eq, list_lookup_alter_eq, Hw in Hw'.
      injection Hw' as <-. reflexivity.
    + destruct Htrace. reflexivity.
  - destruct (dead w) eqn:Hd; [intros E; destruct (Hskip _ E) |].
    destruct (current w) as [req |] eqn:Hc; [| intros E; destruct (Hskip _ E)].
    unfold dies_on_raise, worker_finish.
    destruct (worker_attempt unpack_grib i w req resp s) as [ra s1] eqn:Hat.
    destruct (worker_attempt_frame _ _ _ _ _ _ _ _ Hat)
      as (r' & c & cl & -> & Hs1).
    rewrite (bind_ok _ _ _ _ _ Hat).
    destruct s1 as [d1 w1]. simpl in Hs1. subst d1.
    unfold worker_after, _file_complete, put_file, _connection_close,
      update_worker.
    unfold_monad.
    destruct r' as [[] | []]; simpl;
      repeat match goal with
             | |- context [if ?b then _ else _] =>
                 let E := fresh "E" in destruct b eqn:E; simpl
             end;
      intros [= <-]; simpl in *;
      rewrite ?last_snoc in Hlast;
      try (injection Hlast as <-);
      try (unfold Time.seconds, Time.second in Hpos; lia);
      try (rewrite !list_alter_alter_eq, list_lookup_alter_eq, Hw in Hw';
           injection Hw' as <-; reflexivity).
    all: try match goal with
         | H : (0 <? _) = false |- _ =>
             apply Z.ltb_ge in H; unfold Time.seconds, Time.second in Hpos; lia
         end.
Qed.

End Connections.

Lemma sleeping_worker_witness :
  exists w',
    _greenlets
      (self (snd (run_event Scenario.unpack_grib
                    (Finish 0 Scenario.timed_out Scenario.published)
                    Scenario.working))) !! 0%nat = Some w' /\
    _connection w' = None.
Proof.
  assert (Hrun : run_event Scenario.unpack_grib
                   (Finish 0 Scenario.timed_out Scenario.published)
                   Scenario.working
                 = (Ok tt,
                    snd (run_event Scenario.unpack_grib
                           (Finish 0 Scenario.timed_out Scenario.published)
                           Scenario.working)))
    by (apply pair_of_fst; vm_compute; reflexivity).
  assert (Hw' : _greenlets
                  (self (snd (run_event Scenario.unpack_grib
                                (Finish 0 Scenario.timed_out Scenario.published)
                                Scenario.working))) !! 0%nat
                = Some (Worker 0 "10.0.0.1" None 8 None false))
    by (vm_compute; reflexivity).
  eexists. split; [exact Hw' |].
  apply (sleeping_worker_holds_no_connection Scenario.unpack_grib
           (Finish 0 Scenario.timed_out Scenario.published) Scenario.working
           _ (256 * Time.second) _ Hrun).
  - intros H. apply (f_equal length) in H. vm_compute in H. discriminate H.
  - vm_compute. reflexivity.
  - vm_compute. reflexivity.
  - exact Hw'.
Defined.
